(** * PointCloudEditor: ingestion and colorization pipeline

    A shallow embedding of [src/lib/utils/point-cloud-utils.ts] (loadCSV,
    loadPCD, createColorMapForCSV, HSVtoRGB, createSingleColorForPCD) and of
    the bounds tracker and export encoder of
    [src/components/pointcloud/PointCloudApp.tsx] (updateHeightBounds,
    exportToCSV), of the other handlers of that component
    (handleFileDrop, handleSelectPointCloud, deleteSelectedPointClouds,
    togglePointCloudVisibility, selectTransformTool, handleColorMapChange,
    handleHeightRangeChange, handleHeightInputChange) and of the height
    filter and the transform store of
    [src/components/pointcloud/PointCloudScene.tsx] (applyHeightFilter,
    handleMouseUp).

    JavaScript numbers are IEEE 754 binary64 values.  They are modelled by
    [spec_float], the specification type of the Standard Library, with the
    operations [SFadd], [SFmul], ... instantiated at precision 53 and
    maximal exponent 1024, so every arithmetic step rounds as it does in
    the program, NaN and the infinities included.  A [Float32Array]
    element is such a value rounded to binary32.

    The file has four parts: the definitions (runtime, program, the
    vocabulary of the statements and sample inputs), the lemmas about
    them, the properties of the pipeline, and the properties of the
    handlers, each group with the lemmas it needs. *)

From Stdlib Require Import ZArith List Bool String Ascii Lia Sorted.
From Stdlib Require Import Floats.
Import ListNotations.

Set Warnings "-inexact-float".

(** ** The JavaScript runtime the program relies on *)

Module JS.

Local Open Scope Z_scope.

Definition number : Set := spec_float.

Definition prec : Z := 53.
Definition emax : Z := 1024.

Definition NaN : number := S754_nan.
Definition Infinity : number := S754_infinity false.
Definition NegInfinity : number := S754_infinity true.

(** The nearest binary64 value of an integer. *)
Definition ofZ (n : Z) : number := binary_normalize prec emax n 0 false.

Definition add : number -> number -> number := SFadd prec emax.
Definition sub : number -> number -> number := SFsub prec emax.
Definition mul : number -> number -> number := SFmul prec emax.
Definition div : number -> number -> number := SFdiv prec emax.

(** [a < b], [a <= b] and [a === b] on numbers: all false on NaN. *)
Definition ltb : number -> number -> bool := SFltb.
Definition leb : number -> number -> bool := SFleb.
Definition eqb : number -> number -> bool := SFeqb.

(** The global [isNaN] and [isFinite], after coercion to a number. *)
Definition isNaN (x : number) : bool :=
  match x with S754_nan => true | _ => false end.

Definition isFinite (x : number) : bool :=
  match x with S754_zero _ | S754_finite _ _ _ => true | _ => false end.

Definition is_neg_zero (x : number) : bool :=
  match x with S754_zero true => true | _ => false end.

Definition is_pos_zero (x : number) : bool :=
  match x with S754_zero false => true | _ => false end.

(** [Math.min(...xs)] and [Math.max(...xs)], as ECMAScript specifies them:
    the running value starts at +Infinity (resp. -Infinity), a NaN argument
    makes the result NaN, and -0 counts as smaller than +0. *)
Fixpoint min_loop (lowest : number) (xs : list number) : number :=
  match xs with
  | [] => lowest
  | x :: xs' =>
      if isNaN x then NaN
      else min_loop
             (if is_neg_zero x && is_pos_zero lowest then x
              else if ltb x lowest then x else lowest) xs'
  end.

Definition Math_min (xs : list number) : number := min_loop Infinity xs.

Fixpoint max_loop (highest : number) (xs : list number) : number :=
  match xs with
  | [] => highest
  | x :: xs' =>
      if isNaN x then NaN
      else max_loop
             (if is_pos_zero x && is_neg_zero highest then x
              else if ltb highest x then x else highest) xs'
  end.

Definition Math_max (xs : list number) : number := max_loop NegInfinity xs.

(** [Math.floor]: the finite value [(-1)^s * m * 2^e] is floored exactly. *)
Definition Math_floor (x : number) : number :=
  match x with
  | S754_finite s m e =>
      if 0 <=? e then x
      else
        let n := cond_Zopp s (Zpos m) / 2 ^ (- e) in
        if n =? 0 then S754_zero s else ofZ n
  | _ => x
  end.

(** [Math.round]: floor (x + 1/2), computed exactly; a result of zero keeps
    the sign of [x]. *)
Definition Math_round (x : number) : number :=
  match x with
  | S754_finite s m e =>
      if 0 <=? e then x
      else
        let n := (2 * cond_Zopp s (Zpos m) + 2 ^ (- e)) / 2 ^ (1 - e) in
        if n =? 0 then S754_zero s else ofZ n
  | _ => x
  end.

(** The remainder operator [x % y]: exact, with the sign of the dividend. *)
Definition rem (x y : number) : number :=
  match x, y with
  | S754_nan, _ | _, S754_nan => NaN
  | S754_infinity _, _ => NaN
  | _, S754_zero _ => NaN
  | S754_zero _, _ => x
  | S754_finite _ _ _, S754_infinity _ => x
  | S754_finite sx mx ex, S754_finite _ my ey =>
      let e := Z.min ex ey in
      let r := Z.rem (Zpos mx * 2 ^ (ex - e)) (Zpos my * 2 ^ (ey - e)) in
      if r =? 0 then S754_zero sx
      else binary_normalize prec emax (cond_Zopp sx r) e false
  end.

(** What a [Float32Array] element holds: the value rounded to binary32
    (nearest, ties to even; overflow gives an infinity), read back as a
    binary64 number. *)
Definition fround (x : number) : number :=
  match x with
  | S754_finite s m e =>
      match binary_normalize 24 128 (cond_Zopp s (Zpos m)) e s with
      | S754_finite s' m' e' =>
          binary_normalize prec emax (cond_Zopp s' (Zpos m')) e' s'
      | y => y
      end
  | _ => x
  end.

End JS.

Declare Scope js_scope.
Delimit Scope js_scope with js.
Notation "a + b" := (JS.add a b) : js_scope.
Notation "a - b" := (JS.sub a b) : js_scope.
Notation "a * b" := (JS.mul a b) : js_scope.
Notation "a / b" := (JS.div a b) : js_scope.
Notation "a <? b" := (JS.ltb a b) : js_scope.
Notation "a 'mod' b" := (JS.rem a b) : js_scope.

(** Numeric literals of the source, as the binary64 values the JavaScript
    parser reads them to. *)
Module Lit.
Definition n0 : JS.number := Eval vm_compute in Prim2SF 0%float.
Definition n1 : JS.number := Eval vm_compute in Prim2SF 1%float.
Definition n2 : JS.number := Eval vm_compute in Prim2SF 2%float.
Definition n3 : JS.number := Eval vm_compute in Prim2SF 3%float.
Definition n4 : JS.number := Eval vm_compute in Prim2SF 4%float.
Definition n5 : JS.number := Eval vm_compute in Prim2SF 5%float.
Definition n6 : JS.number := Eval vm_compute in Prim2SF 6%float.
Definition n10 : JS.number := Eval vm_compute in Prim2SF 10%float.
Definition m5 : JS.number := Eval vm_compute in Prim2SF (-5)%float.
Definition m10 : JS.number := Eval vm_compute in Prim2SF (-10)%float.
Definition n128 : JS.number := Eval vm_compute in Prim2SF 128%float.
Definition n255 : JS.number := Eval vm_compute in Prim2SF 255%float.
Definition n270 : JS.number := Eval vm_compute in Prim2SF 270%float.
Definition n360 : JS.number := Eval vm_compute in Prim2SF 360%float.
Definition n0_2 : JS.number := Eval vm_compute in Prim2SF 0.2%float.
Definition n0_4 : JS.number := Eval vm_compute in Prim2SF 0.4%float.
Definition n0_5 : JS.number := Eval vm_compute in Prim2SF 0.5%float.
Definition n0_6 : JS.number := Eval vm_compute in Prim2SF 0.6%float.
Definition n0_7 : JS.number := Eval vm_compute in Prim2SF 0.7%float.
Definition n0_8 : JS.number := Eval vm_compute in Prim2SF 0.8%float.
End Lit.

(** ** Strings: the [String.prototype] methods and conversions used

    Text is a sequence of 8-bit characters; the white space of [trim] and
    of the regular expression [\s] is the ASCII part of ECMAScript's
    (TAB, LF, VT, FF, CR, SPACE). *)

Module Str.

Local Open Scope string_scope.

Definition is_space (c : ascii) : bool :=
  let n := nat_of_ascii c in
  (Nat.leb 9 n && Nat.leb n 13) || Nat.eqb n 32.

Definition is_empty (s : string) : bool :=
  match s with EmptyString => true | _ => false end.

(** [s.startsWith(p)] *)
Definition startsWith (s p : string) : bool := String.prefix p s.

(** [s.includes(p)] *)
Fixpoint includes (s p : string) : bool :=
  match s with
  | EmptyString => is_empty p
  | String _ s' => String.prefix p s || includes s' p
  end.

(** [s.split(sep)] for a one-character separator. *)
Fixpoint split (sep : ascii) (s : string) : list string :=
  match s with
  | EmptyString => [EmptyString]
  | String c s' =>
      if Ascii.eqb c sep then EmptyString :: split sep s'
      else match split sep s' with
           | w :: ws => String c w :: ws
           | [] => [String c EmptyString]
           end
  end.

Fixpoint trimStart (s : string) : string :=
  match s with
  | String c s' => if is_space c then trimStart s' else s
  | EmptyString => EmptyString
  end.

Fixpoint trimEnd (s : string) : string :=
  match s with
  | EmptyString => EmptyString
  | String c s' =>
      let t := trimEnd s' in
      if is_space c && is_empty t then EmptyString else String c t
  end.

(** [s.trim()] *)
Definition trim (s : string) : string := trimEnd (trimStart s).

(** [s.split(/\s+/)]: the pieces between maximal runs of white space; a
    string that starts or ends with white space gets an empty first or
    last piece. *)
Fixpoint split_ws_from (in_gap : bool) (s : string) : list string :=
  match s with
  | EmptyString => [EmptyString]
  | String c s' =>
      if is_space c then
        if in_gap then split_ws_from true s'
        else EmptyString :: split_ws_from true s'
      else match split_ws_from false s' with
           | w :: ws => String c w :: ws
           | [] => [String c EmptyString]
           end
  end.

Definition split_ws (s : string) : list string := split_ws_from false s.

(** *** String to number *)

Local Open Scope Z_scope.

Definition digit_in (radix : Z) (c : ascii) : option Z :=
  let n := Z.of_nat (nat_of_ascii c) in
  let d := if (48 <=? n) && (n <=? 57) then n - 48
           else if (97 <=? n) && (n <=? 122) then n - 87
           else if (65 <=? n) && (n <=? 90) then n - 55
           else 99 in
  if d <? radix then Some d else None.

(** Reads the longest prefix of radix-[radix] digits: the value read after
    [acc], the number of digits, and the rest of the string. *)
Fixpoint read_digits (radix : Z) (s : string) (acc cnt : Z) : Z * Z * string :=
  match s with
  | String c s' =>
      match digit_in radix c with
      | Some d => read_digits radix s' (radix * acc + d) (cnt + 1)
      | None => (acc, cnt, s)
      end
  | EmptyString => (acc, cnt, s)
  end.

Definition read_sign (s : string) : bool * string :=
  match s with
  | String "-" s' => (true, s')
  | String "+" s' => (false, s')
  | _ => (false, s)
  end.

(** The binary64 value nearest to [(-1)^neg * m * 10^e10] (ties to even):
    an integer is rounded directly, a quotient by the correctly rounded
    division of [SFdiv] on the exact integers. *)
Definition decimal_to_number (neg : bool) (m e10 : Z) : JS.number :=
  match m with
  | Zpos p =>
      if 0 <=? e10 then
        binary_normalize JS.prec JS.emax (cond_Zopp neg (m * 10 ^ e10)) 0 false
      else
        JS.div (S754_finite neg p 0)
               (S754_finite false (Z.to_pos (10 ^ (- e10))) 0)
  | _ => S754_zero neg
  end.

(** [StrUnsignedDecimalLiteral] without [Infinity]: digits, an optional
    fraction, an optional exponent, and nothing after; the result is the
    integer mantissa and the decimal exponent. *)
Definition parse_unsigned_decimal (s : string) : option (Z * Z) :=
  let '(ip, ni, r1) := read_digits 10 s 0 0 in
  let '(m, nf, r2) :=
    match r1 with
    | String "." r => read_digits 10 r ip 0
    | _ => (ip, 0, r1)
    end in
  if (ni =? 0) && (nf =? 0) then None
  else match r2 with
       | EmptyString => Some (m, - nf)
       | String c r3 =>
           if Ascii.eqb c "e" || Ascii.eqb c "E" then
             let '(eneg, r4) := read_sign r3 in
             let '(ex, ne, r5) := read_digits 10 r4 0 0 in
             if (ne =? 0) || negb (is_empty r5) then None
             else Some (m, cond_Zopp eneg ex - nf)
           else None
       end.

Definition parse_radix_literal (radix : Z) (s : string) : JS.number :=
  let '(v, n, r) := read_digits radix s 0 0 in
  if (n =? 0) || negb (is_empty r) then JS.NaN else JS.ofZ v.

(** [Number(s)] on a string (ECMAScript's StringToNumber). *)
Definition StringToNumber (s : string) : JS.number :=
  let t := trim s in
  match t with
  | EmptyString => S754_zero false
  | String "0" (String "x" r) | String "0" (String "X" r) =>
      parse_radix_literal 16 r
  | String "0" (String "o" r) | String "0" (String "O" r) =>
      parse_radix_literal 8 r
  | String "0" (String "b" r) | String "0" (String "B" r) =>
      parse_radix_literal 2 r
  | _ =>
      let '(neg, u) := read_sign t in
      if String.eqb u "Infinity" then S754_infinity neg
      else match parse_unsigned_decimal u with
           | Some (m, e10) => decimal_to_number neg m e10
           | None => JS.NaN
           end
  end.

(** [parseInt(s)] with no radix argument; [None] stands for an argument
    that is [undefined], whose string form has no digit. *)
Definition parseInt (arg : option string) : JS.number :=
  match arg with
  | None => JS.NaN
  | Some s =>
      let '(neg, u) := read_sign (trimStart s) in
      let '(radix, d) :=
        match u with
        | String "0" (String "x" r) | String "0" (String "X" r) => (16, r)
        | _ => (10, u)
        end in
      let '(v, n, _) := read_digits radix d 0 0 in
      if n =? 0 then JS.NaN
      else if v =? 0 then S754_zero neg
      else JS.ofZ (cond_Zopp neg v)
  end.

End Str.

(** ** Values of a decoded row

    With [dynamicTyping] the record decoder hands each field over as a
    number, a boolean, [null] (an empty field) or the text it could not
    type.  The parser reads them through JavaScript's coercion to number. *)

Inductive cell : Set :=
| CNum (x : JS.number)
| CStr (s : string)
| CBool (b : bool)
| CNull.

Definition row : Set := list cell.

Definition ToNumber (c : cell) : JS.number :=
  match c with
  | CNum x => x
  | CStr s => Str.StringToNumber s
  | CBool true => Lit.n1
  | CBool false => Lit.n0
  | CNull => Lit.n0
  end.

(** [new Float32Array(values)]: every element coerced and rounded to
    binary32. *)
Definition Float32Array (values : list JS.number) : list JS.number :=
  map JS.fround values.

Local Open Scope js_scope.

(** ** HSVtoRGB (point-cloud-utils.ts, l.437-467) *)

Definition HSVtoRGB (h s v : JS.number) : JS.number * JS.number * JS.number :=
  let i := JS.Math_floor (h * Lit.n6) in
  let f := h * Lit.n6 - i in
  let p := v * (Lit.n1 - s) in
  let q := v * (Lit.n1 - f * s) in
  let t := v * (Lit.n1 - (Lit.n1 - f) * s) in
  let k := i mod Lit.n6 in
  if JS.eqb k Lit.n0 then (v, t, p)
  else if JS.eqb k Lit.n1 then (q, v, p)
  else if JS.eqb k Lit.n2 then (p, v, t)
  else if JS.eqb k Lit.n3 then (p, q, v)
  else if JS.eqb k Lit.n4 then (t, p, v)
  else if JS.eqb k Lit.n5 then (v, p, q)
  else (Lit.n0, Lit.n0, Lit.n0).

(** ** createColorMapForCSV (point-cloud-utils.ts, l.364-432) *)

(** The [rainbow] case of the switch. *)
Definition rainbow (normalized : JS.number) : JS.number * JS.number * JS.number :=
  let hue := (Lit.n1 - normalized) * Lit.n270 in
  HSVtoRGB (hue / Lit.n360) Lit.n1 Lit.n1.

(** The [elevation] case of the switch. *)
Definition elevation (normalized : JS.number) : JS.number * JS.number * JS.number :=
  if normalized <? Lit.n0_2 then
    (Lit.n0, normalized * Lit.n5, Lit.n1)
  else if normalized <? Lit.n0_4 then
    (Lit.n0, Lit.n1, Lit.n1 - (normalized - Lit.n0_2) * Lit.n5)
  else if normalized <? Lit.n0_6 then
    ((normalized - Lit.n0_4) * Lit.n5, Lit.n1, Lit.n0)
  else if normalized <? Lit.n0_8 then
    (Lit.n1, Lit.n1 - (normalized - Lit.n0_6) * Lit.n5, Lit.n0)
  else
    (Lit.n1, (normalized - Lit.n0_8) * Lit.n5, (normalized - Lit.n0_8) * Lit.n5).

(** The [default] case of the switch. *)
Definition defaultMap (normalized : JS.number) : JS.number * JS.number * JS.number :=
  if normalized <? Lit.n0_5 then
    (Lit.n0, normalized * Lit.n2, Lit.n1 - normalized * Lit.n2)
  else
    ((normalized - Lit.n0_5) * Lit.n2,
     Lit.n1 - (normalized - Lit.n0_5) * Lit.n2,
     Lit.n0).

(** [switch (mapType)] *)
Definition colorOf (mapType : string) (normalized : JS.number)
  : JS.number * JS.number * JS.number :=
  if String.eqb mapType "rainbow" then rainbow normalized
  else if String.eqb mapType "elevation" then elevation normalized
  else defaultMap normalized.

(** The three writes [colors[i*3] = r; ...] into the [Float32Array]. *)
Definition store3 (c : JS.number * JS.number * JS.number) : list JS.number :=
  let '(r, g, b) := c in [JS.fround r; JS.fround g; JS.fround b].

Definition createColorMapForCSV (zValues : list JS.number) (mapType : string)
  : list JS.number :=
  let min := JS.Math_min zValues in
  let max := JS.Math_max zValues in
  let range := max - min in
  flat_map (fun z => store3 (colorOf mapType ((z - min) / range))) zValues.

(** ** createSingleColorForPCD (point-cloud-utils.ts, l.472-483) *)

Definition createSingleColorForPCD (pointCount : nat) : list JS.number :=
  flat_map (fun _ => store3 (Lit.n0_7, Lit.n0_7, Lit.n0_7)) (seq 0 pointCount).

(** ** Errors a parse is rejected with *)

Inductive error : Set :=
| NoValidPoints      (* loadCSV, l.87 *)
| InvalidFormat      (* loadPCD, l.163 *)
| LoaderFailed       (* loadPCD, l.266 *)
| EmptyPointCloud    (* loadPCD, l.271 *)
| NoPointMesh        (* loadPCD, l.284 *)
| InvalidGeometry    (* loadPCD, l.288 *)
| RangeError.        (* the engine, on the spreads of l.101-102, l.224,
                        l.315-316 and l.366-367 *)

Inductive result (A : Type) : Type :=
| Resolved (a : A)
| Rejected (e : error).
Arguments Resolved {A} a.
Arguments Rejected {A} e.

(** ** loadCSV (point-cloud-utils.ts, l.25-126) *)

Record CSVResult : Set := {
  csv_positions : list JS.number;      (* Float32Array *)
  csv_colors : list JS.number;         (* Float32Array *)
  csv_originalData : list row;
  csv_zValues : list cell;
  csv_hasRGB : bool
}.

(** The arrays the [forEach] callback pushes to, and its counter. *)
Record csv_acc : Set := {
  acc_positions : list cell;
  acc_zValues : list cell;
  acc_colors : list JS.number;
  validPointCount : nat
}.

Definition csv_acc0 : csv_acc :=
  {| acc_positions := []; acc_zValues := []; acc_colors := [];
     validPointCount := 0 |}.

(** [results.data[0] && results.data[0].length >= 6] *)
Definition hasRGB_of (data : list row) : bool :=
  match data with
  | [] => false
  | row0 :: _ => Nat.leb 6 (List.length row0)
  end.

(** l.53-54: the row is skipped when this holds. *)
Definition invalid_xyz (x y z : cell) : bool :=
  JS.isNaN (ToNumber x) || JS.isNaN (ToNumber y) || JS.isNaN (ToNumber z)
  || negb (JS.isFinite (ToNumber x)) || negb (JS.isFinite (ToNumber y))
  || negb (JS.isFinite (ToNumber z)).

(** l.72-74: [isNaN(r) ? 128 : Math.max(0, Math.min(255, r))] *)
Definition validChannel (r : cell) : JS.number :=
  if JS.isNaN (ToNumber r) then Lit.n128
  else JS.Math_max [Lit.n0; JS.Math_min [Lit.n255; ToNumber r]].

(** The body of [results.data.forEach] (l.45-83). *)
Definition csv_step (hasRGB : bool) (acc : csv_acc) (dataRow : row) : csv_acc :=
  match dataRow with
  | x :: y :: z :: rest =>
      if invalid_xyz x y z then acc
      else
        let colors :=
          match rest with
          | r :: g :: b :: _ =>
              if hasRGB then
                acc_colors acc ++ [validChannel r / Lit.n255;
                                   validChannel g / Lit.n255;
                                   validChannel b / Lit.n255]
              else acc_colors acc
          | _ => acc_colors acc
          end in
        {| acc_positions := acc_positions acc ++ [x; y; z];
           acc_zValues := acc_zValues acc ++ [z];
           acc_colors := colors;
           validPointCount := S (validPointCount acc) |}
  | _ => acc
  end.

Section Loaders.

(** The caller's state and the optional [updateHeightBounds] callback that
    acts on it. *)
Context {St : Type}.
Variable updateHeightBounds : option (JS.number -> JS.number -> St -> St).

(** [if (zValues.length > 0 && updateHeightBounds)
       updateHeightBounds(Math.min(...zValues), Math.max(...zValues))] *)
Definition reportBounds (zValues : list JS.number) (st : St) : St :=
  match zValues, updateHeightBounds with
  | _ :: _, Some update => update (JS.Math_min zValues) (JS.Math_max zValues) st
  | _, _ => st
  end.

(** The [complete] callback of the decoder, on the decoded rows: what the
    promise settles to, and the caller's state after the bounds report.
    (The decoder's own [error] callback, l.120-123, rejects with the
    decoder's error before any row is seen.)  This is the callback on a
    file whose accepted rows the engine can spread in one call;
    [Limited.loadCSV] below has the [RangeError] of the spreads of
    l.101-102 and l.366-367 on larger files. *)
Definition loadCSV (data : list row) (colorMapType : string) (st : St)
  : result CSVResult * St :=
  let hasRGB := hasRGB_of data in
  let acc := fold_left (csv_step hasRGB) data csv_acc0 in
  if Nat.eqb (validPointCount acc) 0 then (Rejected NoValidPoints, st)
  else
    let positionArray := Float32Array (map ToNumber (acc_positions acc)) in
    (* [Math.min(...zValues)] and [z - min] coerce each value *)
    let zs := map ToNumber (acc_zValues acc) in
    let colorArray :=
      if hasRGB then Float32Array (acc_colors acc)
      else createColorMapForCSV zs colorMapType in
    (Resolved {| csv_positions := positionArray;
                 csv_colors := colorArray;
                 csv_originalData := data;
                 csv_zValues := acc_zValues acc;
                 csv_hasRGB := hasRGB |},
     reportBounds zs st).

End Loaders.

(** ** loadPCD (point-cloud-utils.ts, l.131-359) *)

Record PCDResult : Set := {
  pcd_positions : list JS.number;      (* Float32Array *)
  pcd_colors : list JS.number;         (* Float32Array *)
  pcd_originalData : list (list JS.number);
  pcd_hasColor : bool;
  pcd_zValues : list JS.number
}.

(** What the header scan (l.168-185) leaves in its four variables. *)
Record pcd_header : Set := {
  dataStartLine : nat;
  pointCount : JS.number;
  hasColor : bool;
  isASCII : bool
}.

Definition pcd_header0 : pcd_header :=
  {| dataStartLine := 0; pointCount := Lit.n0; hasColor := false;
     isASCII := false |}.

(** The header loop from line index [i] on; it stops at the [DATA] line. *)
Fixpoint scan_header (lines : list string) (i : nat) (h : pcd_header)
  : pcd_header :=
  match lines with
  | [] => h
  | l :: rest =>
      let line := Str.trim l in
      if Str.startsWith line "POINTS" then
        scan_header rest (S i)
          {| dataStartLine := dataStartLine h;
             pointCount := Str.parseInt (nth_error (Str.split " " line) 1);
             hasColor := hasColor h;
             isASCII := isASCII h |}
      else if Str.startsWith line "FIELDS" then
        scan_header rest (S i)
          {| dataStartLine := dataStartLine h;
             pointCount := pointCount h;
             hasColor := Str.includes line "rgb" || Str.includes line "r"
                         || Str.includes line "rgba";
             isASCII := isASCII h |}
      else if Str.startsWith line "DATA" then
        {| dataStartLine := S i;
           pointCount := pointCount h;
           hasColor := hasColor h;
           isASCII := Str.includes line "ascii" |}
      else scan_header rest (S i) h
  end.

(** The body of the data loop (l.189-202) on the two arrays it pushes to. *)
Definition pcd_step (hasColor : bool)
  (acc : list JS.number * list JS.number) (l : string)
  : list JS.number * list JS.number :=
  let '(positions, colors) := acc in
  let line := Str.trim l in
  if Str.is_empty line then acc
  else
    match map Str.StringToNumber (Str.split_ws line) with
    | x :: y :: z :: rest =>
        (positions ++ [x; y; z],
         match rest with
         | r :: g :: b :: _ =>
             if hasColor then
               colors ++ [r / Lit.n255; g / Lit.n255; b / Lit.n255]
             else colors
         | _ => colors
         end)
    | _ => acc
    end.

(** [a[i]] on an array of numbers that is then used in arithmetic or
    stored in a typed array: an index out of range gives [undefined],
    which coerces to NaN. *)
Definition at_index (a : list JS.number) (i : nat) : JS.number :=
  nth i a JS.NaN.

(** [for (i = 0; i < n; i++) zValues.push(positions[i*3+2])] *)
Definition extract_z (positions : list JS.number) (n : nat) : list JS.number :=
  map (fun i => at_index positions (i * 3 + 2)) (seq 0 n).

(** The rows [[x, y, z, round(r*255), round(g*255), round(b*255)]] kept
    for export (l.228-238 and l.321-332). *)
Definition rebuild_rows (positions colors : list JS.number) (n : nat)
  : list (list JS.number) :=
  map (fun i =>
         [at_index positions (i * 3);
          at_index positions (i * 3 + 1);
          at_index positions (i * 3 + 2);
          JS.Math_round (at_index colors (i * 3) * Lit.n255);
          JS.Math_round (at_index colors (i * 3 + 1) * Lit.n255);
          JS.Math_round (at_index colors (i * 3 + 2) * Lit.n255)])
      (seq 0 n).

(** What the delegate loader (three.js [PCDLoader]) can answer: an error,
    a group without children, a first child without geometry, a geometry
    without position attribute, or a geometry with its position attribute
    (item size 3) and, possibly, a color attribute. *)
Inductive loader_answer : Set :=
| LoaderError
| LoaderNoChildren
| LoaderNoGeometry
| LoaderNoPosition
| LoaderGeometry (position : list (JS.number * JS.number * JS.number))
                 (color : option (list JS.number)).

Definition flatten3 (ps : list (JS.number * JS.number * JS.number))
  : list JS.number :=
  flat_map (fun p => let '(x, y, z) := p in [x; y; z]) ps.

Section LoadPCD.

Context {St : Type}.
Variable updateHeightBounds : option (JS.number -> JS.number -> St -> St).
Variable PCDLoader : string -> loader_answer.

(** Tier 2 (l.251-340): the delegate loader, for a cloud whose
    elevations the engine can spread in one call; [Limited.loadPCD_delegate]
    below has the [RangeError] of the spreads of l.315-316 on larger
    clouds. *)
Definition loadPCD_delegate (text : string) (st : St)
  : result PCDResult * St :=
  match PCDLoader text with
  | LoaderError => (Rejected LoaderFailed, st)
  | LoaderNoChildren => (Rejected EmptyPointCloud, st)
  | LoaderNoGeometry => (Rejected NoPointMesh, st)
  | LoaderNoPosition => (Rejected InvalidGeometry, st)
  | LoaderGeometry position color =>
      let positionsArray := Float32Array (flatten3 position) in
      let pointCountVal := List.length position in
      let colorsArray :=
        match color with
        | Some c => Float32Array c
        | None => createSingleColorForPCD pointCountVal
        end in
      let zValuesArray := extract_z positionsArray pointCountVal in
      (Resolved {| pcd_positions := positionsArray;
                   pcd_colors := colorsArray;
                   pcd_originalData :=
                     rebuild_rows positionsArray colorsArray pointCountVal;
                   pcd_hasColor := match color with Some _ => true | None => false end;
                   pcd_zValues := zValuesArray |},
       reportBounds updateHeightBounds zValuesArray st)
  end.

(** The [onload] handler on the decoded text of the file: tier 1 scans
    the text itself; when it finds no point, tier 2 asks the delegate
    loader.  (A read error, l.356, or a missing buffer, l.148-150, rejects
    before the text is looked at; the [RangeError] of the spread of l.224
    on a large cloud is in [Limited.loadPCD] below.) *)
Definition loadPCD (text : string) (st : St) : result PCDResult * St :=
  if negb (Str.startsWith text "# .PCD") && negb (Str.includes text "VERSION")
  then (Rejected InvalidFormat, st)
  else
    let lines := Str.split (ascii_of_nat 10) text in
    let h := scan_header lines 0 pcd_header0 in
    let '(positions, colors) :=
      if isASCII h && (Lit.n0 <? pointCount h) then
        fold_left (pcd_step (hasColor h)) (skipn (dataStartLine h) lines) ([], [])
      else ([], []) in
    match positions with
    | _ :: _ =>
        let posArray := Float32Array positions in
        let n := Nat.div (List.length positions) 3 in
        let colorArray :=
          match colors with
          | _ :: _ => Float32Array colors
          | [] => createSingleColorForPCD n
          end in
        let zValues := extract_z positions n in
        (Resolved {| pcd_positions := posArray;
                     pcd_colors := colorArray;
                     pcd_originalData := rebuild_rows positions colorArray n;
                     pcd_hasColor := match colors with _ :: _ => true | [] => false end;
                     pcd_zValues := zValues |},
         reportBounds updateHeightBounds zValues st)
    | [] => loadPCD_delegate text st
    end.

End LoadPCD.

(** ** The argument limit of the engine

    [Math.min(...a)] passes every element of [a] as an argument of one
    call.  An engine admits only so many arguments in a call (how many
    depends on the engine and on its stack; the number is finite in all
    of them) and throws a [RangeError] beyond.  [loadCSV], [loadPCD] and
    [createColorMapForCSV] above are the program on arrays within that
    limit.  The definitions of this module carry the limit,
    [maxArguments], and the [catch] clauses that turn the error into a
    rejection (l.115-117 and l.341-344); the caller's state is the one
    before the parse then, the error being thrown before
    [updateHeightBounds] is called. *)

Module Limited.

Section Engine.

Context {St : Type}.
Variable maxArguments : nat.
Variable updateHeightBounds : option (JS.number -> JS.number -> St -> St).
Variable PCDLoader : string -> loader_answer.

(** [f(...args)] *)
Definition spread {A : Type} (f : list JS.number -> A)
  (args : list JS.number) : result A :=
  if Nat.leb (List.length args) maxArguments then Resolved (f args)
  else Rejected RangeError.

(** createColorMapForCSV (l.364-432) *)
Definition createColorMapForCSV (zValues : list JS.number) (mapType : string)
  : result (list JS.number) :=
  match spread JS.Math_min zValues with
  | Rejected e => Rejected e
  | Resolved min =>
      match spread JS.Math_max zValues with
      | Rejected e => Rejected e
      | Resolved max =>
          let range := max - min in
          Resolved
            (flat_map (fun z => store3 (colorOf mapType ((z - min) / range)))
                      zValues)
      end
  end.

(** The bounds report (l.99-106, l.223-225, l.313-317). *)
Definition reportBounds (zValues : list JS.number) (st : St) : result St :=
  match zValues, updateHeightBounds with
  | _ :: _, Some update =>
      match spread JS.Math_min zValues with
      | Rejected e => Rejected e
      | Resolved minZ =>
          match spread JS.Math_max zValues with
          | Rejected e => Rejected e
          | Resolved maxZ => Resolved (update minZ maxZ st)
          end
      end
  | _, _ => Resolved st
  end.

(** loadCSV (l.37-118) *)
Definition loadCSV (data : list row) (colorMapType : string) (st : St)
  : result CSVResult * St :=
  let hasRGB := hasRGB_of data in
  let acc := fold_left (csv_step hasRGB) data csv_acc0 in
  if Nat.eqb (validPointCount acc) 0 then (Rejected NoValidPoints, st)
  else
    let positionArray := Float32Array (map ToNumber (acc_positions acc)) in
    let zs := map ToNumber (acc_zValues acc) in
    match (if hasRGB then Resolved (Float32Array (acc_colors acc))
           else createColorMapForCSV zs colorMapType) with
    | Rejected e => (Rejected e, st)
    | Resolved colorArray =>
        match reportBounds zs st with
        | Rejected e => (Rejected e, st)
        | Resolved st' =>
            (Resolved {| csv_positions := positionArray;
                         csv_colors := colorArray;
                         csv_originalData := data;
                         csv_zValues := acc_zValues acc;
                         csv_hasRGB := hasRGB |},
             st')
        end
    end.

(** Tier 2 of loadPCD (l.251-340). *)
Definition loadPCD_delegate (text : string) (st : St)
  : result PCDResult * St :=
  match PCDLoader text with
  | LoaderError => (Rejected LoaderFailed, st)
  | LoaderNoChildren => (Rejected EmptyPointCloud, st)
  | LoaderNoGeometry => (Rejected NoPointMesh, st)
  | LoaderNoPosition => (Rejected InvalidGeometry, st)
  | LoaderGeometry position color =>
      let positionsArray := Float32Array (flatten3 position) in
      let pointCountVal := List.length position in
      let colorsArray :=
        match color with
        | Some c => Float32Array c
        | None => createSingleColorForPCD pointCountVal
        end in
      let zValuesArray := extract_z positionsArray pointCountVal in
      match reportBounds zValuesArray st with
      | Rejected e => (Rejected e, st)
      | Resolved st' =>
          (Resolved {| pcd_positions := positionsArray;
                       pcd_colors := colorsArray;
                       pcd_originalData :=
                         rebuild_rows positionsArray colorsArray pointCountVal;
                       pcd_hasColor :=
                         match color with Some _ => true | None => false end;
                       pcd_zValues := zValuesArray |},
           st')
      end
  end.

(** loadPCD (l.138-344) *)
Definition loadPCD (text : string) (st : St) : result PCDResult * St :=
  if negb (Str.startsWith text "# .PCD") && negb (Str.includes text "VERSION")
  then (Rejected InvalidFormat, st)
  else
    let lines := Str.split (ascii_of_nat 10) text in
    let h := scan_header lines 0 pcd_header0 in
    let '(positions, colors) :=
      if isASCII h && (Lit.n0 <? pointCount h) then
        fold_left (pcd_step (hasColor h)) (skipn (dataStartLine h) lines) ([], [])
      else ([], []) in
    match positions with
    | _ :: _ =>
        let posArray := Float32Array positions in
        let n := Nat.div (List.length positions) 3 in
        let colorArray :=
          match colors with
          | _ :: _ => Float32Array colors
          | [] => createSingleColorForPCD n
          end in
        let zValues := extract_z positions n in
        match reportBounds zValues st with
        | Rejected e => (Rejected e, st)
        | Resolved st' =>
            (Resolved {| pcd_positions := posArray;
                         pcd_colors := colorArray;
                         pcd_originalData :=
                           rebuild_rows positions colorArray n;
                         pcd_hasColor :=
                           match colors with _ :: _ => true | [] => false end;
                         pcd_zValues := zValues |},
             st')
        end
    | [] => loadPCD_delegate text st
    end.

End Engine.

End Limited.

(** ** Number to string

    [`${x}`] on a number (ECMAScript's Number::toString, radix 10): the
    shortest digit string that reads back to the same binary64 value, the
    closest to the value among the shortest, in positional notation for
    decimal exponents from -6 to 21 and in exponent notation otherwise. *)

Module Fmt.

Local Open Scope Z_scope.

Fixpoint digits_of (fuel : nat) (n : Z) (acc : string) : string :=
  match fuel with
  | O => acc
  | S fuel' =>
      let acc' := String (ascii_of_nat (48 + Z.to_nat (n mod 10))) acc in
      if n <? 10 then acc' else digits_of fuel' (n / 10) acc'
  end.

(** Decimal digits of a non-negative integer. *)
Definition Z_to_string (n : Z) : string :=
  digits_of (S (Z.to_nat (Z.log2 n))) n EmptyString.

Fixpoint zeros (n : nat) : string :=
  match n with O => EmptyString | S n' => String "0" (zeros n') end.

Fixpoint strip_zeros (s : string) : string :=
  match s with
  | EmptyString => EmptyString
  | String c s' =>
      let t := strip_zeros s' in
      if Ascii.eqb c "0" && Str.is_empty t then EmptyString else String c t
  end.

(** Numerator and denominator of [m * 2^e / 10^p]. *)
Definition scaled (m e p : Z) : Z * Z :=
  (m * 2 ^ Z.max e 0 * 10 ^ Z.max (- p) 0, 2 ^ Z.max (- e) 0 * 10 ^ Z.max p 0).

(** [10^j <= m * 2^e] *)
Definition ge_pow10 (m e j : Z) : bool :=
  let '(num, den) := scaled m e j in den <=? num.

Fixpoint search_up (fuel : nat) (m e j : Z) : Z :=
  match fuel with
  | O => j
  | S fuel' => if ge_pow10 m e (j + 1) then search_up fuel' m e (j + 1) else j
  end.

(** The [j] with [10^j <= m * 2^e < 10^(j+1)]: a lower estimate from the
    binary exponent, then a search upwards. *)
Definition floor_log10 (m e : Z) : Z :=
  let b := Z.log2 m + e in
  let j0 := (if 0 <=? b then b * 30102 else b * 30103) / 100000 - 1 in
  search_up 8 m e j0.

(** The digits [s] and the exponent [n] of the result, [k] digits being
    tried in increasing order from [k]: a candidate [s * 10^(n-k)] counts
    when it reads back to [x]. *)
Fixpoint shortest (fuel : nat) (x : JS.number) (m e n k : Z) : string * Z :=
  let p := n - k in
  let '(num, den) := scaled m e p in
  let lo := num / den in
  let hi := lo + 1 in
  let ok s := JS.eqb (Str.decimal_to_number false s p) x in
  let pick s := let ds := Z_to_string s in
                (strip_zeros ds, p + Z.of_nat (String.length ds)) in
  let closer_lo :=
    match 2 * (num mod den) ?= den with
    | Lt => true
    | Gt => false
    | Eq => Z.even lo
    end in
  match fuel with
  | O => pick lo
  | S fuel' =>
      if ok lo && ok hi then (if closer_lo then pick lo else pick hi)
      else if ok lo then pick lo
      else if ok hi then pick hi
      else shortest fuel' x m e n (k + 1)
  end.

Definition NumberToString (x : JS.number) : string :=
  match x with
  | S754_nan => "NaN"
  | S754_zero _ => "0"
  | S754_infinity s => if s then "-Infinity" else "Infinity"
  | S754_finite s m e =>
      let '(ds, n) :=
        shortest 20 (S754_finite false m e) (Zpos m) e
                 (floor_log10 (Zpos m) e + 1) 1 in
      let k := Z.of_nat (String.length ds) in
      let exponent :=
        String.append (if 0 <? n - 1 then "e+" else "e-")
                      (Z_to_string (Z.abs (n - 1))) in
      String.append (if s then "-" else "")
        (if (k <=? n) && (n <=? 21) then
           String.append ds (zeros (Z.to_nat (n - k)))
         else if (0 <? n) && (n <=? 21) then
           String.append (String.substring 0 (Z.to_nat n) ds)
             (String "." (String.substring (Z.to_nat n) (Z.to_nat (k - n)) ds))
         else if (-6 <? n) && (n <=? 0) then
           String.append "0." (String.append (zeros (Z.to_nat (- n))) ds)
         else if k =? 1 then String.append ds exponent
         else
           String.append (String.substring 0 1 ds)
             (String "." (String.append
                            (String.substring 1 (Z.to_nat (k - 1)) ds)
                            exponent)))
  end.

End Fmt.

(** ** The record decoder

    The program takes its record decoder from the papaparse library,
    whose code is not part of the repository; [loadCSV] configures it
    with [header: false], [dynamicTyping: true], [skipEmptyLines: true]. *)

Module Decoder.

(** Modelled from the spec: the typing of a field as a number by the
    Record Decoder of section 4.1 ("typed as number when parseable"),
    papaparse's [dynamicTyping], whose code is missing: an optionally
    negated decimal literal, white space around it allowed, of magnitude
    below 2^53, as the library documents it. *)
Definition as_float (field : string) : option JS.number :=
  let t := Str.trim field in
  let u := match t with String "-" r => r | _ => t end in
  match Str.parse_unsigned_decimal u with
  | Some _ =>
      let v := Str.StringToNumber t in
      if JS.ltb (JS.ofZ (- 2 ^ 53)) v && JS.ltb v (JS.ofZ (2 ^ 53))
      then Some v else None
  | None => None
  end.

(** Modelled from the spec: the value the Record Decoder of section 4.1
    (papaparse, code missing) hands over for a field, "typed as number
    when parseable, else left as text"; as the library documents its
    [dynamicTyping], [true] and [false] become booleans and an empty
    field [null] (dates are left out). *)
Definition typed (field : string) : cell :=
  if String.eqb field "true" || String.eqb field "TRUE" then CBool true
  else if String.eqb field "false" || String.eqb field "FALSE" then CBool false
  else match as_float field with
       | Some v => CNum v
       | None => if Str.is_empty field then CNull else CStr field
       end.

Fixpoint strip_cr (line : string) : string :=
  match line with
  | EmptyString => EmptyString
  | String c EmptyString =>
      if Ascii.eqb c (ascii_of_nat 13) then EmptyString else line
  | String c s' => String c (strip_cr s')
  end.

(** Modelled from the spec: the Record Decoder of section 4.1 (papaparse,
    code missing) on unquoted, comma-separated text with LF or CRLF line
    ends: "produce an ordered sequence of rows, each a sequence of values
    typed as number when parseable, else left as text; blank lines are
    skipped; no header row is assumed". *)
Definition parse (text : string) : list row :=
  map (fun line => map typed (Str.split "," line))
      (filter (fun line => negb (Str.is_empty line))
              (map strip_cr (Str.split (ascii_of_nat 10) text))).

End Decoder.

(** ** The application state (PointCloudApp.tsx) *)

(** An entry of the [pointClouds] list, with the fields the functions
    below read. *)
Record pointCloud : Set := {
  pc_id : string;
  pc_positions : list JS.number;   (* data.positions *)
  pc_colors : list JS.number       (* data.colors *)
}.

Record AppState : Set := {
  heightBounds : JS.number * JS.number;
  heightRange : JS.number * JS.number
}.

(** [useState<[number, number]>([-10, 10])], l.48-49. *)
Definition initialState : AppState :=
  {| heightBounds := (Lit.m10, Lit.n10); heightRange := (Lit.m10, Lit.n10) |}.

(** ** updateHeightBounds (PointCloudApp.tsx, l.193-204) *)

Definition updateHeightBounds (minZ maxZ : JS.number) (st : AppState) : AppState :=
  let prevBounds := heightBounds st in
  let newMinZ := JS.Math_min [fst prevBounds; minZ] in
  let newMaxZ := JS.Math_max [snd prevBounds; maxZ] in
  {| heightBounds := (newMinZ, newMaxZ); heightRange := (newMinZ, newMaxZ) |}.

(** The bounds merge of the spec's section 4.5, read off the state
    update: [merge(current, newMin, newMax)]. *)
Definition merge (current : JS.number * JS.number) (newMin newMax : JS.number)
  : JS.number * JS.number :=
  heightBounds
    (updateHeightBounds newMin newMax
       {| heightBounds := current; heightRange := current |}).

(** A session: the state after the bounds updates of the clouds loaded,
    in order. *)
Definition session (updates : list (JS.number * JS.number)) : AppState :=
  fold_left (fun st u => updateHeightBounds (fst u) (snd u) st)
            updates initialState.

(** ** handleFileDrop (PointCloudApp.tsx, l.52-88) *)

(** A dropped file, by its extension: [csv] with the rows its text
    decodes to, [pcd] with its decoded text, or anything else. *)
Inductive file : Set :=
| CsvFile (data : list row)
| PcdFile (text : string)
| OtherFile.

Section HandleFileDrop.

(** [Date.now()] when the file of index [i] has been loaded, and the
    delegate loader of the scientific format. *)
Variable now : nat -> string.
Variable PCDLoader : string -> loader_answer.

(** One turn of the loop: the entry pushed, if the file was parsed, and
    the state after the parser's bounds report. *)
Definition loadFile (colorMapType : string) (i : nat) (f : file)
  (st : AppState) : option pointCloud * AppState :=
  let id := (now i ++ "-" ++ Fmt.Z_to_string (Z.of_nat i))%string in
  match f with
  | CsvFile data =>
      match loadCSV (Some updateHeightBounds) data colorMapType st with
      | (Resolved r, st') =>
          (Some {| pc_id := id; pc_positions := csv_positions r;
                   pc_colors := csv_colors r |}, st')
      | (Rejected _, st') => (None, st')
      end
  | PcdFile text =>
      match loadPCD (Some updateHeightBounds) PCDLoader text st with
      | (Resolved r, st') =>
          (Some {| pc_id := id; pc_positions := pcd_positions r;
                   pc_colors := pcd_colors r |}, st')
      | (Rejected _, st') => (None, st')
      end
  | OtherFile => (None, st)
  end.

(** The loop over the files from index [i] on. *)
Fixpoint loadFiles (colorMapType : string) (i : nat) (files : list file)
  (newPointClouds : list pointCloud) (st : AppState)
  : list pointCloud * AppState :=
  match files with
  | [] => (newPointClouds, st)
  | f :: rest =>
      let '(entry, st') := loadFile colorMapType i f st in
      loadFiles colorMapType (S i) rest
        (match entry with
         | Some pc => newPointClouds ++ [pc]
         | None => newPointClouds
         end) st'
  end.

(** The new [pointClouds] list and the state after the batch. *)
Definition handleFileDrop (colorMapType : string) (acceptedFiles : list file)
  (pointClouds : list pointCloud) (st : AppState)
  : list pointCloud * AppState :=
  loadFiles colorMapType 0 acceptedFiles pointClouds st.

End HandleFileDrop.

(** ** exportToCSV (PointCloudApp.tsx, l.91-134) *)

(** [`${a[i]}`]: an index out of range prints as [undefined]. *)
Definition show_at (a : list JS.number) (i : nat) : string :=
  match nth_error a i with
  | Some x => Fmt.NumberToString x
  | None => "undefined"
  end.

Definition newline : string := String (ascii_of_nat 10) EmptyString.

(** The row of point [i] (l.108-119). *)
Definition export_row (positions colors : list JS.number) (i : nat) : string :=
  let r := JS.Math_round (at_index colors (i * 3) * Lit.n255) in
  let g := JS.Math_round (at_index colors (i * 3 + 1) * Lit.n255) in
  let b := JS.Math_round (at_index colors (i * 3 + 2) * Lit.n255) in
  String.concat ","
    [show_at positions (i * 3); show_at positions (i * 3 + 1);
     show_at positions (i * 3 + 2);
     Fmt.NumberToString r; Fmt.NumberToString g; Fmt.NumberToString b]
  ++ newline.

(** The rows of one cloud: [i] runs while [i < positions.length / 3]. *)
Definition export_cloud (pc : pointCloud) : string :=
  let pointCount := Nat.div (List.length (pc_positions pc) + 2) 3 in
  String.concat ""
    (map (export_row (pc_positions pc) (pc_colors pc)) (seq 0 pointCount)).

(** The text handed to the download: the selected clouds when some are
    selected, all of them otherwise. *)
Definition exportToCSV (pointClouds : list pointCloud)
  (selectedPoints : list string) : string :=
  let cloudsToExport :=
    match selectedPoints with
    | _ :: _ =>
        filter (fun pc => existsb (String.eqb (pc_id pc)) selectedPoints)
               pointClouds
    | [] => pointClouds
    end in
  "X,Y,Z,R,G,B" ++ newline
  ++ String.concat "" (map export_cloud cloudsToExport).

(** ** parseFloat

    [parseFloat(s)] (ECMAScript): leading white space is skipped and the
    longest prefix that is a decimal literal is read; what follows it is
    ignored, and a string with no such prefix gives NaN. *)

Module Parse.

Local Open Scope Z_scope.

Definition parseFloat (s : string) : JS.number :=
  let '(neg, u) := Str.read_sign (Str.trimStart s) in
  if String.prefix "Infinity" u then S754_infinity neg
  else
    let '(ip, ni, r1) := Str.read_digits 10 u 0 0 in
    let '(m, nf, r2) :=
      match r1 with
      | String "." r => Str.read_digits 10 r ip 0
      | _ => (ip, 0, r1)
      end in
    if (ni =? 0) && (nf =? 0) then JS.NaN
    else
      let e10 :=
        match r2 with
        | String c r3 =>
            if Ascii.eqb c "e" || Ascii.eqb c "E" then
              let '(eneg, r4) := Str.read_sign r3 in
              let '(ex, ne, _) := Str.read_digits 10 r4 0 0 in
              if ne =? 0 then 0 else cond_Zopp eneg ex
            else 0
        | EmptyString => 0
        end in
      Str.decimal_to_number neg m (e10 - nf).

End Parse.

(** ** The entries of the cloud list (PointCloudApp.tsx, l.72-78)

    An entry of [pointClouds] with the fields the handlers read: the id,
    [data.positions] and [data.colors] (kept in [ce_cloud], the part the
    export reads), [type], [visible], [data.hasRGB] (absent, hence falsy,
    on a record of the scientific format) and [data.zValues]. *)

Record cloudEntry : Set := {
  ce_cloud : pointCloud;
  ce_type : string;
  ce_visible : bool;
  ce_hasRGB : bool;
  ce_zValues : list cell
}.

Definition ce_id (pc : cloudEntry) : string := pc_id (ce_cloud pc).

(** The entry [handleFileDrop] pushes for a record of [loadCSV]. *)
Definition csvEntry (id : string) (r : CSVResult) : cloudEntry :=
  {| ce_cloud := {| pc_id := id; pc_positions := csv_positions r;
                    pc_colors := csv_colors r |};
     ce_type := "csv";
     ce_visible := true;
     ce_hasRGB := csv_hasRGB r;
     ce_zValues := csv_zValues r |}.

(** The entry [handleFileDrop] pushes for a record of [loadPCD]. *)
Definition pcdEntry (id : string) (r : PCDResult) : cloudEntry :=
  {| ce_cloud := {| pc_id := id; pc_positions := pcd_positions r;
                    pc_colors := pcd_colors r |};
     ce_type := "pcd";
     ce_visible := true;
     ce_hasRGB := false;
     ce_zValues := map CNum (pcd_zValues r) |}.

(** ** handleSelectPointCloud (PointCloudApp.tsx, l.137-145) *)

Definition handleSelectPointCloud (id : string) (prev : list string)
  : list string :=
  if existsb (String.eqb id) prev then
    filter (fun item => negb (String.eqb item id)) prev
  else prev ++ [id].

(** ** deleteSelectedPointClouds (PointCloudApp.tsx, l.148-153)

    The new [pointClouds] and [selectedPoints]. *)

Definition deleteSelectedPointClouds (pointClouds : list cloudEntry)
  (selectedPoints : list string) : list cloudEntry * list string :=
  match selectedPoints with
  | [] => (pointClouds, selectedPoints)
  | _ :: _ =>
      (filter (fun pc => negb (existsb (String.eqb (ce_id pc)) selectedPoints))
              pointClouds,
       [])
  end.

(** ** togglePointCloudVisibility (PointCloudApp.tsx, l.156-160) *)

Definition togglePointCloudVisibility (id : string) (prev : list cloudEntry)
  : list cloudEntry :=
  map (fun pc =>
         if String.eqb (ce_id pc) id then
           {| ce_cloud := ce_cloud pc; ce_type := ce_type pc;
              ce_visible := negb (ce_visible pc);
              ce_hasRGB := ce_hasRGB pc; ce_zValues := ce_zValues pc |}
         else pc) prev.

(** ** selectTransformTool (PointCloudApp.tsx, l.163-165) *)

Definition selectTransformTool (tool : string) (activeTransform : option string)
  : option string :=
  match activeTransform with
  | Some t => if String.eqb t tool then None else Some tool
  | None => Some tool
  end.

(** ** handleColorMapChange (PointCloudApp.tsx, l.173-190)

    The new [pointClouds]; [colorMapType] becomes [type]. *)

Definition handleColorMapChange (type : string) (prev : list cloudEntry)
  : list cloudEntry :=
  map (fun pc =>
         if String.eqb (ce_type pc) "csv" && negb (ce_hasRGB pc) then
           let newColors :=
             createColorMapForCSV (map ToNumber (ce_zValues pc)) type in
           {| ce_cloud := {| pc_id := pc_id (ce_cloud pc);
                             pc_positions := pc_positions (ce_cloud pc);
                             pc_colors := newColors |};
              ce_type := ce_type pc; ce_visible := ce_visible pc;
              ce_hasRGB := ce_hasRGB pc; ce_zValues := ce_zValues pc |}
         else pc) prev.

(** ** handleHeightRangeChange and handleHeightInputChange
    (PointCloudApp.tsx, l.207-227) *)

Definition handleHeightRangeChange (value : JS.number * JS.number)
  (st : AppState) : AppState :=
  {| heightBounds := heightBounds st; heightRange := value |}.

(** The [index] argument: the two inputs call the handler with 0 (the
    lower limit) and 1 (the upper limit). *)
Inductive rangeIndex : Set := Lower | Upper.

Definition handleHeightInputChange (index : rangeIndex) (value : string)
  (st : AppState) : AppState :=
  let numValue := Parse.parseFloat value in
  if negb (JS.isNaN numValue) then
    let newRange :=
      match index with
      | Lower =>
          let newRange := (numValue, snd (heightRange st)) in
          if snd newRange <? numValue then (snd newRange, snd newRange)
          else newRange
      | Upper =>
          let newRange := (fst (heightRange st), numValue) in
          if numValue <? fst newRange then (fst newRange, fst newRange)
          else newRange
      end in
    {| heightBounds := heightBounds st; heightRange := newRange |}
  else st.

(** ** handleFileDrop with the whole entries (PointCloudApp.tsx, l.52-88)

    [handleFileDrop] above keeps of each entry what the export reads; here
    the entries carry all the fields pushed at l.72-78. *)

Section HandleFileDropEntries.

Variable now : nat -> string.
Variable PCDLoader : string -> loader_answer.

Definition loadEntry (colorMapType : string) (i : nat) (f : file)
  (st : AppState) : option cloudEntry * AppState :=
  let id := (now i ++ "-" ++ Fmt.Z_to_string (Z.of_nat i))%string in
  match f with
  | CsvFile data =>
      match loadCSV (Some updateHeightBounds) data colorMapType st with
      | (Resolved r, st') => (Some (csvEntry id r), st')
      | (Rejected _, st') => (None, st')
      end
  | PcdFile text =>
      match loadPCD (Some updateHeightBounds) PCDLoader text st with
      | (Resolved r, st') => (Some (pcdEntry id r), st')
      | (Rejected _, st') => (None, st')
      end
  | OtherFile => (None, st)
  end.

Fixpoint loadEntries (colorMapType : string) (i : nat) (files : list file)
  (newPointClouds : list cloudEntry) (st : AppState)
  : list cloudEntry * AppState :=
  match files with
  | [] => (newPointClouds, st)
  | f :: rest =>
      let '(entry, st') := loadEntry colorMapType i f st in
      loadEntries colorMapType (S i) rest
        (match entry with
         | Some pc => newPointClouds ++ [pc]
         | None => newPointClouds
         end) st'
  end.

End HandleFileDropEntries.

(** ** The state of the application and what the user can do

    The state cells of [PointCloudApp] that the handlers above read and
    write, and one action per handler; each handler runs to its end
    before the next action.  ([pointSize], [activeMode] and [isLoading]
    are set and read by no handler modelled here.) *)

Record UIState : Set := {
  ui_pointClouds : list cloudEntry;
  ui_selectedPoints : list string;
  ui_activeTransform : option string;
  ui_colorMapType : string;
  ui_heightFilterEnabled : bool;
  ui_height : AppState
}.

(** The initial values of the [useState] cells (l.38-49). *)
Definition initialUI : UIState :=
  {| ui_pointClouds := [];
     ui_selectedPoints := [];
     ui_activeTransform := None;
     ui_colorMapType := "default";
     ui_heightFilterEnabled := false;
     ui_height := initialState |}.

Inductive action : Set :=
| Drop (now : nat -> string) (files : list file)   (* handleFileDrop *)
| Select (id : string)                             (* handleSelectPointCloud *)
| DeleteSelected                                   (* deleteSelectedPointClouds *)
| ToggleVisibility (id : string)                   (* togglePointCloudVisibility *)
| SelectTool (tool : string)                       (* selectTransformTool *)
| ColorMap (type : string)                         (* handleColorMapChange *)
| SetHeightFilter (checked : bool)                 (* setHeightFilterEnabled *)
| HeightRange (value : JS.number * JS.number)      (* handleHeightRangeChange *)
| HeightInput (index : rangeIndex) (value : string). (* handleHeightInputChange *)

Section Perform.

Variable PCDLoader : string -> loader_answer.

Definition perform (a : action) (ui : UIState) : UIState :=
  match a with
  | Drop now files =>
      let '(clouds, st) :=
        loadEntries now PCDLoader (ui_colorMapType ui) 0 files
          (ui_pointClouds ui) (ui_height ui) in
      {| ui_pointClouds := clouds;
         ui_selectedPoints := ui_selectedPoints ui;
         ui_activeTransform := ui_activeTransform ui;
         ui_colorMapType := ui_colorMapType ui;
         ui_heightFilterEnabled := ui_heightFilterEnabled ui;
         ui_height := st |}
  | Select id =>
      {| ui_pointClouds := ui_pointClouds ui;
         ui_selectedPoints := handleSelectPointCloud id (ui_selectedPoints ui);
         ui_activeTransform := ui_activeTransform ui;
         ui_colorMapType := ui_colorMapType ui;
         ui_heightFilterEnabled := ui_heightFilterEnabled ui;
         ui_height := ui_height ui |}
  | DeleteSelected =>
      let '(clouds, selected) :=
        deleteSelectedPointClouds (ui_pointClouds ui) (ui_selectedPoints ui) in
      {| ui_pointClouds := clouds;
         ui_selectedPoints := selected;
         ui_activeTransform := ui_activeTransform ui;
         ui_colorMapType := ui_colorMapType ui;
         ui_heightFilterEnabled := ui_heightFilterEnabled ui;
         ui_height := ui_height ui |}
  | ToggleVisibility id =>
      {| ui_pointClouds := togglePointCloudVisibility id (ui_pointClouds ui);
         ui_selectedPoints := ui_selectedPoints ui;
         ui_activeTransform := ui_activeTransform ui;
         ui_colorMapType := ui_colorMapType ui;
         ui_heightFilterEnabled := ui_heightFilterEnabled ui;
         ui_height := ui_height ui |}
  | SelectTool tool =>
      {| ui_pointClouds := ui_pointClouds ui;
         ui_selectedPoints := ui_selectedPoints ui;
         ui_activeTransform := selectTransformTool tool (ui_activeTransform ui);
         ui_colorMapType := ui_colorMapType ui;
         ui_heightFilterEnabled := ui_heightFilterEnabled ui;
         ui_height := ui_height ui |}
  | ColorMap type =>
      {| ui_pointClouds := handleColorMapChange type (ui_pointClouds ui);
         ui_selectedPoints := ui_selectedPoints ui;
         ui_activeTransform := ui_activeTransform ui;
         ui_colorMapType := type;
         ui_heightFilterEnabled := ui_heightFilterEnabled ui;
         ui_height := ui_height ui |}
  | SetHeightFilter checked =>
      {| ui_pointClouds := ui_pointClouds ui;
         ui_selectedPoints := ui_selectedPoints ui;
         ui_activeTransform := ui_activeTransform ui;
         ui_colorMapType := ui_colorMapType ui;
         ui_heightFilterEnabled := checked;
         ui_height := ui_height ui |}
  | HeightRange value =>
      {| ui_pointClouds := ui_pointClouds ui;
         ui_selectedPoints := ui_selectedPoints ui;
         ui_activeTransform := ui_activeTransform ui;
         ui_colorMapType := ui_colorMapType ui;
         ui_heightFilterEnabled := ui_heightFilterEnabled ui;
         ui_height := handleHeightRangeChange value (ui_height ui) |}
  | HeightInput index value =>
      {| ui_pointClouds := ui_pointClouds ui;
         ui_selectedPoints := ui_selectedPoints ui;
         ui_activeTransform := ui_activeTransform ui;
         ui_colorMapType := ui_colorMapType ui;
         ui_heightFilterEnabled := ui_heightFilterEnabled ui;
         ui_height := handleHeightInputChange index value (ui_height ui) |}
  end.

(** What the page offers in a state: a cloud is selected by a click on its
    card or on its points, so only a listed cloud can be; the tool buttons
    are disabled while nothing is selected, and the range widgets while the
    filter is off (the [disabled] attributes of l.269, l.391-413, l.482,
    l.500).  The delete button is disabled on an empty selection too, but
    its handler guards that case itself. *)
Definition offered (ui : UIState) (a : action) : Prop :=
  match a with
  | Select id => In id (map ce_id (ui_pointClouds ui))
  | SelectTool _ => ui_selectedPoints ui <> []
  | HeightRange _ | HeightInput _ _ => ui_heightFilterEnabled ui = true
  | _ => True
  end.

(** The states the user can reach from the initial one. *)
Inductive reachable : UIState -> Prop :=
| reach_initial : reachable initialUI
| reach_step (ui : UIState) (a : action) :
    reachable ui -> offered ui a -> reachable (perform a ui).

End Perform.

(** ** applyHeightFilter and the index attribute
    (PointCloudScene.tsx, l.206-222 and l.274-280)

    [heightFilterEnabled] and [heightRange] are what the scene reads from
    [AppContext] (l.80); the application provides its two state cells
    there (PointCloudApp.tsx, l.231-237). *)

Definition applyHeightFilter (heightFilterEnabled : bool)
  (heightRange : JS.number * JS.number) (positions : list JS.number)
  : option (list nat) :=
  if negb heightFilterEnabled then None
  else
    let pointCount := Nat.div (List.length positions + 2) 3 in
    Some (filter (fun i =>
                    let z := at_index positions (i * 3 + 2) in
                    JS.leb (fst heightRange) z && JS.leb z (snd heightRange))
                 (seq 0 pointCount)).

(** [new Uint16Array(values)] on indices: each is taken modulo 2^16. *)
Definition Uint16Array (values : list nat) : list Z :=
  map (fun v => Z.modulo (Z.of_nat v) 65536) values.

(** The [index] attribute of the geometry, when there is one. *)
Definition indexAttribute (heightFilterEnabled : bool)
  (heightRange : JS.number * JS.number) (positions : list JS.number)
  : option (list Z) :=
  match applyHeightFilter heightFilterEnabled heightRange positions with
  | Some visibleIndices =>
      if heightFilterEnabled then Some (Uint16Array visibleIndices) else None
  | None => None
  end.

(** ** The transforms kept by the scene (PointCloudScene.tsx, l.103-137,
    l.165 and l.241) *)

Definition vec3 : Set := (JS.number * JS.number * JS.number)%type.

Record PointCloudTransform : Set := {
  tr_id : string;
  tr_position : vec3;
  tr_rotation : vec3;
  tr_scale : vec3
}.

(** [transforms.find(t => t.id === id)] *)
Definition findTransform (id : string) (transforms : list PointCloudTransform)
  : option PointCloudTransform :=
  find (fun t => String.eqb (tr_id t) id) transforms.

(** The body of [selectedPoints.forEach] (l.118-132): the transform of
    [id] replaces the first one with that id, or is pushed. *)
Fixpoint putTransform (newTransform : PointCloudTransform)
  (newTransforms : list PointCloudTransform) : list PointCloudTransform :=
  match newTransforms with
  | [] => [newTransform]
  | t :: rest =>
      if String.eqb (tr_id t) (tr_id newTransform) then newTransform :: rest
      else t :: putTransform newTransform rest
  end.

(** [handleMouseUp]: [childCount] is the number of children of the
    selection group, [groupPosition] and [groupScale] what
    [getWorldPosition] and [getWorldScale] write; [groupRotation] is the
    fresh [THREE.Euler] of l.107, (0, 0, 0), which nothing writes to (the
    quaternion of l.111 is read into a temporary). *)
Definition handleMouseUp (childCount : nat) (groupPosition groupScale : vec3)
  (selectedPoints : list string) (prev : list PointCloudTransform)
  : list PointCloudTransform :=
  let groupRotation := (Lit.n0, Lit.n0, Lit.n0) in
  match childCount with
  | O => prev
  | S _ =>
      fold_left
        (fun newTransforms id =>
           putTransform {| tr_id := id; tr_position := groupPosition;
                           tr_rotation := groupRotation;
                           tr_scale := groupScale |} newTransforms)
        selectedPoints prev
  end.

(** ** Vocabulary of the statements *)

(** The interval [outer] contains the interval [inner]. *)
Definition containsb (outer inner : JS.number * JS.number) : bool :=
  JS.leb (fst outer) (fst inner) && JS.leb (snd inner) (snd outer).

(** [r] is the smaller of [a] and [b]: below both, and one of them. *)
Definition is_smaller_of (r a b : JS.number) : Prop :=
  JS.leb r a = true /\ JS.leb r b = true /\ (r = a \/ r = b).

(** [r] is the larger of [a] and [b]: above both, and one of them. *)
Definition is_larger_of (r a b : JS.number) : Prop :=
  JS.leb a r = true /\ JS.leb b r = true /\ (r = a \/ r = b).

(** Neither extremum of a bounds update is NaN. *)
Definition update_ok (u : JS.number * JS.number) : Prop :=
  JS.isNaN (fst u) = false /\ JS.isNaN (snd u) = false.

(** Both extrema of a bounds update lie strictly between -10 and 10. *)
Definition inside_default (u : JS.number * JS.number) : Prop :=
  (Lit.m10 <? fst u) = true /\ (snd u <? Lit.n10) = true.

(** The parse resolved, with a record that satisfies [P]. *)
Definition resolves_with {A : Type} (res : result A) (P : A -> Prop) : Prop :=
  match res with
  | Resolved a => P a
  | Rejected _ => False
  end.

(** If the parse resolved, its record satisfies [P]. *)
Definition when_resolved {A : Type} (res : result A) (P : A -> Prop) : Prop :=
  match res with
  | Resolved a => P a
  | Rejected _ => True
  end.

(** ** Vocabulary of the statements about the delimited-text parser *)

(** A row is accepted when it has at least three fields and its first
    three read as finite numbers. *)
Definition accepted (r : row) : bool :=
  Nat.leb 3 (List.length r)
  && forallb (fun c => JS.isFinite (ToNumber c)) (firstn 3 r).

(** The first row has at least six fields. *)
Definition first_row_has_rgb (data : list row) : bool :=
  Nat.leb 6 (List.length (hd [] data)).

(** What an accepted row contributes to the three buffers. *)
Definition row_xyz (r : row) : list cell := firstn 3 r.

Definition row_z (r : row) : list cell := firstn 1 (skipn 2 r).

Definition row_rgb (r : row) : list JS.number :=
  if Nat.leb 6 (List.length r) then
    map (fun c => validChannel c / Lit.n255) (firstn 3 (skipn 3 r))
  else [].

(** The file is a delimited-text file. *)
Definition is_csv (f : file) : bool :=
  match f with CsvFile _ => true | _ => false end.

(** An entry is coloured by the palette [t]: it is a cloud of a
    delimited-text file without colour columns whose colours are those
    [createColorMapForCSV] gives its elevations under [t], or another
    kind of cloud. *)
Definition coloured_by (t : string) (pc : cloudEntry) : Prop :=
  String.eqb (ce_type pc) "csv" && negb (ce_hasRGB pc) = true ->
  pc_colors (ce_cloud pc)
  = createColorMapForCSV (map ToNumber (ce_zValues pc)) t.

(** The character [c] does not occur in [s]. *)
Fixpoint lacks (c : ascii) (s : string) : bool :=
  match s with
  | EmptyString => true
  | String a s' => negb (Ascii.eqb a c) && lacks c s'
  end.

(** The clouds [exportToCSV] writes out: the selected ones when some are
    selected, all of them otherwise. *)
Definition exported (pointClouds : list pointCloud)
  (selectedPoints : list string) : list pointCloud :=
  match selectedPoints with
  | _ :: _ =>
      filter (fun pc => existsb (String.eqb (pc_id pc)) selectedPoints)
             pointClouds
  | [] => pointClouds
  end.

(** The number of points [exportToCSV] finds in a cloud. *)
Definition points_of (pc : pointCloud) : nat :=
  Nat.div (List.length (pc_positions pc) + 2) 3.

(** ** Sample inputs *)

Module Samples.

Local Open Scope string_scope.

Definition num (n : Z) : cell := CNum (JS.ofZ n).

(** The rows [[0,0,0,255,0,0],[1,1,1,0,255,0]] and their text. *)
Definition rgb_rows : list row :=
  [[num 0; num 0; num 0; num 255; num 0; num 0];
   [num 1; num 1; num 1; num 0; num 255; num 0]].

Definition rgb_text : string :=
  "0,0,0,255,0,0" ++ newline ++ "1,1,1,0,255,0".

(** A first row with six fields, then a row with three:
    the text "0,0,0,255,0,0\n1,1,1". *)
Definition mixed_rows : list row :=
  [[num 0; num 0; num 0; num 255; num 0; num 0];
   [num 1; num 1; num 1]].

Definition mixed_text : string := "0,0,0,255,0,0" ++ newline ++ "1,1,1".

(** The rows [[1,2,NaN],[3,4,5]]. *)
Definition nan_rows : list row :=
  [[num 1; num 2; CNum JS.NaN]; [num 3; num 4; num 5]].

(** A single point of elevation 5: the text "1,2,5". *)
Definition flat_rows : list row := [[num 1; num 2; num 5]].

(** A coordinate that is finite as a binary64 number but not as a
    binary32 one: the row [[1e39, 0, 0]]. *)
Definition huge_rows : list row :=
  [[CNum (Str.StringToNumber "1e39"); num 0; num 0]].

Definition pcd_header : string :=
  "# .PCD v0.7" ++ newline ++ "VERSION 0.7" ++ newline
  ++ "FIELDS x y z" ++ newline ++ "POINTS 2" ++ newline
  ++ "DATA ascii" ++ newline.

(** An ASCII file of two points, the first with a [nan] elevation. *)
Definition pcd_nan : string := pcd_header ++ "1 2 nan" ++ newline ++ "3 4 5".

(** The spec's scenario: body "0 0 0\n1 1 2". *)
Definition pcd_two : string := pcd_header ++ "0 0 0" ++ newline ++ "1 1 2".

(** A file with the version keyword but no marker token at its start. *)
Definition pcd_version_only : string :=
  "VERSION 0.7" ++ newline ++ "FIELDS x y z" ++ newline
  ++ "POINTS 1" ++ newline ++ "DATA ascii" ++ newline ++ "1 2 3".

(** An ASCII file with colour fields whose second data line has no
    colour. *)
Definition pcd_mixed : string :=
  "# .PCD v0.7" ++ newline ++ "VERSION 0.7" ++ newline
  ++ "FIELDS x y z r g b" ++ newline ++ "POINTS 2" ++ newline
  ++ "DATA ascii" ++ newline ++ "0 0 0 255 0 0" ++ newline ++ "1 1 2".

(** A file whose data section is binary. *)
Definition pcd_binary : string :=
  "# .PCD v0.7" ++ newline ++ "VERSION 0.7" ++ newline
  ++ "FIELDS x y z" ++ newline ++ "POINTS 1" ++ newline
  ++ "DATA binary" ++ newline.

(** A clock that stands still. *)
Definition still_clock (i : nat) : string := "0".

(** A delegate loader that always fails. *)
Definition failing_loader (text : string) : loader_answer := LoaderError.

(** The cloud the application keeps for a record of [loadCSV]. *)
Definition cloud_of (r : CSVResult) : pointCloud :=
  {| pc_id := "cloud"; pc_positions := csv_positions r;
     pc_colors := csv_colors r |}.

(** Export one record, decode the text, parse the rows again. *)
Definition reparse (r : CSVResult) : result CSVResult :=
  fst (loadCSV (St := AppState) None
         (Decoder.parse (exportToCSV [cloud_of r] [])) "default"
         initialState).

(** A row at the origin with the channels k, k+1 and k+2 (modulo 256),
    the colour [loadCSV] stores for it, and the text [exportToCSV] should
    give for the cloud of that row. *)
Definition channel_row (k : nat) : row :=
  [num 0; num 0; num 0;
   num (Z.of_nat k); num (Z.of_nat ((k + 1) mod 256));
   num (Z.of_nat ((k + 2) mod 256))].

Definition channel_colors (k : nat) : list JS.number :=
  Float32Array
    [JS.ofZ (Z.of_nat k) / Lit.n255;
     JS.ofZ (Z.of_nat ((k + 1) mod 256)) / Lit.n255;
     JS.ofZ (Z.of_nat ((k + 2) mod 256)) / Lit.n255].

Definition channel_text (k : nat) : string :=
  "X,Y,Z,R,G,B" ++ newline ++ "0,0,0,"
  ++ Fmt.Z_to_string (Z.of_nat k) ++ ","
  ++ Fmt.Z_to_string (Z.of_nat ((k + 1) mod 256)) ++ ","
  ++ Fmt.Z_to_string (Z.of_nat ((k + 2) mod 256)) ++ newline.

End Samples.

(** * Lemmas *)

(** ** The runtime model on known values

    The arithmetic of the model agrees with the machine's binary64
    arithmetic (the kernel's primitive floats) where the statements below
    depend on a rounding, and the conversions give the strings and
    numbers a JavaScript engine gives. *)

Module RuntimeChecks.

Local Open Scope string_scope.

Example arithmetic_agrees :
  (Lit.n1 - Lit.n0_8) * Lit.n5 = Prim2SF ((1 - 0.8) * 5)%float
  /\ Lit.n0_2 - Lit.n0_2 = Prim2SF (0.2 - 0.2)%float
  /\ Lit.n128 / Lit.n255 = Prim2SF (128 / 255)%float
  /\ Lit.n0 / Lit.n0 = Prim2SF (0 / 0)%float
  /\ (Lit.n1 - Lit.n0_5) * Lit.n270 / Lit.n360
     = Prim2SF ((1 - 0.5) * 270 / 360)%float
  /\ JS.ofZ 255 = Lit.n255 /\ JS.ofZ (-10) = Lit.m10.
Proof. vm_compute. repeat split. Qed.

Example rounding_functions :
  JS.Math_round (Prim2SF 2.5) = Lit.n3
  /\ JS.Math_round (Prim2SF (-2.5)) = Prim2SF (-2)
  /\ JS.Math_round (Prim2SF (-0.4)) = S754_zero true
  /\ JS.Math_round (Prim2SF 0.49999999999999994) = Lit.n0
  /\ JS.Math_floor (Prim2SF 4.5) = Lit.n4
  /\ JS.Math_floor (Prim2SF (-0.5)) = Prim2SF (-1)
  /\ (Prim2SF 7.5 mod Lit.n6)%js = Prim2SF 1.5
  /\ (Prim2SF (-7.5) mod Lit.n6)%js = Prim2SF (-1.5)
  /\ JS.fround Lit.n0_7 = Prim2SF 0.699999988079071
  /\ JS.fround (Prim2SF 1e39) = JS.Infinity
  /\ JS.fround (Prim2SF 1e-46) = Lit.n0.
Proof. vm_compute. repeat split. Qed.

Example extrema :
  JS.Math_min [] = JS.Infinity
  /\ JS.Math_max [] = JS.NegInfinity
  /\ JS.Math_min [Lit.n5; Lit.n0_2; Lit.n1] = Lit.n0_2
  /\ JS.Math_max [Lit.n5; JS.NaN; Lit.n10] = JS.NaN
  /\ JS.Math_min [Lit.n0; S754_zero true] = S754_zero true
  /\ JS.Math_max [S754_zero true; Lit.n0] = Lit.n0.
Proof. vm_compute. repeat split. Qed.

Example string_to_number :
  Str.StringToNumber "0.2" = Lit.n0_2
  /\ Str.StringToNumber " 12 " = JS.ofZ 12
  /\ Str.StringToNumber "-1.5e-3" = Prim2SF (-0.0015)
  /\ Str.StringToNumber "1e39" = Prim2SF 1e39
  /\ Str.StringToNumber "5e-324" = Prim2SF 5e-324
  /\ Str.StringToNumber "1.7976931348623159e308" = JS.Infinity
  /\ Str.StringToNumber "9007199254740993" = Prim2SF 9007199254740992
  /\ Str.StringToNumber "0x1F" = JS.ofZ 31
  /\ Str.StringToNumber "" = Lit.n0
  /\ Str.StringToNumber "nan" = JS.NaN
  /\ Str.StringToNumber "X" = JS.NaN
  /\ Str.StringToNumber "1e" = JS.NaN
  /\ Str.StringToNumber "-Infinity" = JS.NegInfinity
  /\ Str.parseInt (Some "2") = Lit.n2
  /\ Str.parseInt (Some "12px") = JS.ofZ 12
  /\ Str.parseInt (Some "") = JS.NaN
  /\ Str.parseInt None = JS.NaN.
Proof. vm_compute. repeat split. Qed.

Example number_to_string :
  Fmt.NumberToString (Prim2SF 0.1) = "0.1"
  /\ Fmt.NumberToString (Prim2SF 0.30000000000000004) = "0.30000000000000004"
  /\ Fmt.NumberToString (JS.fround Lit.n0_7) = "0.699999988079071"
  /\ Fmt.NumberToString (Prim2SF 1e21) = "1e+21"
  /\ Fmt.NumberToString (Prim2SF 1e20) = "100000000000000000000"
  /\ Fmt.NumberToString (Prim2SF 1e-7) = "1e-7"
  /\ Fmt.NumberToString (Prim2SF 0.000001) = "0.000001"
  /\ Fmt.NumberToString (Prim2SF (-1.5e-10)) = "-1.5e-10"
  /\ Fmt.NumberToString (Prim2SF 5e-324) = "5e-324"
  /\ Fmt.NumberToString (Prim2SF 1.7976931348623157e308)
     = "1.7976931348623157e+308"
  /\ Fmt.NumberToString (Prim2SF 123.456) = "123.456"
  /\ Fmt.NumberToString Lit.n255 = "255"
  /\ Fmt.NumberToString (S754_zero true) = "0"
  /\ Fmt.NumberToString JS.NaN = "NaN"
  /\ Fmt.NumberToString JS.NegInfinity = "-Infinity".
Proof. vm_compute. repeat split. Qed.

Example string_methods :
  Str.split "," "a,b,,c" = ["a"; "b"; ""; "c"]
  /\ Str.split "," "" = [""]
  /\ Str.split_ws "1  2 3" = ["1"; "2"; "3"]
  /\ Str.split_ws " a" = [""; "a"]
  /\ Str.trim "  DATA ascii  " = "DATA ascii"
  /\ Str.startsWith "# .PCD v0.7" "# .PCD" = true
  /\ Str.includes "FIELDS x y z rgb" "rgb" = true
  /\ Str.includes "FIELDS x y z" "r" = false
  /\ Str.includes "abc" "" = true.
Proof. vm_compute. repeat split. Qed.

Example decoder_typing :
  Decoder.parse ("X,Y,Z" ++ newline ++ newline ++ "1,, 5 ,-.5e3,+5,true")
  = [[CStr "X"; CStr "Y"; CStr "Z"];
     [CNum Lit.n1; CNull; CNum Lit.n5; CNum (Prim2SF (-500)); CStr "+5";
      CBool true]].
Proof. vm_compute. reflexivity. Qed.

End RuntimeChecks.

(** ** Order facts about numbers *)

Module NumFacts.

Lemma compare_refl (x : JS.number) :
  JS.isNaN x = false -> SFcompare x x = Some Eq.
Proof.
  destruct x as [s|s| |s m e]; simpl; try discriminate; intros _;
    try (destruct s; reflexivity).
  destruct s; rewrite Z.compare_refl;
    change (Pos.compare_cont Eq m m) with (Pos.compare m m);
    rewrite Pos.compare_refl; reflexivity.
Qed.

Lemma compare_antisym (x y : JS.number) :
  SFcompare y x = option_map CompOpp (SFcompare x y).
Proof.
  destruct x as [sx|sx| |sx mx ex], y as [sy|sy| |sy my ey]; simpl;
    try reflexivity;
    try (destruct sx; reflexivity); try (destruct sy; reflexivity);
    try (destruct sx, sy; reflexivity).
  change (Pos.compare_cont Eq my mx) with (Pos.compare my mx).
  change (Pos.compare_cont Eq mx my) with (Pos.compare mx my).
  rewrite (Z.compare_antisym ex ey), (Pos.compare_antisym mx my).
  destruct sx, sy; simpl; try reflexivity;
    destruct (ex ?= ey)%Z; simpl; try reflexivity;
    destruct (mx ?= my)%positive; reflexivity.
Qed.

Lemma compare_some (x y : JS.number) :
  JS.isNaN x = false -> JS.isNaN y = false ->
  exists c, SFcompare x y = Some c.
Proof.
  destruct x, y; simpl; try discriminate; intros _ _; eexists; reflexivity.
Qed.

Lemma leb_refl (x : JS.number) : JS.isNaN x = false -> JS.leb x x = true.
Proof.
  intros H. unfold JS.leb, SFleb. rewrite (compare_refl x H). reflexivity.
Qed.

Lemma ltb_leb (x y : JS.number) : JS.ltb x y = true -> JS.leb x y = true.
Proof.
  unfold JS.ltb, JS.leb, SFltb, SFleb.
  destruct (SFcompare x y) as [[ | | ]|]; (discriminate || reflexivity).
Qed.

(** On numbers that are not NaN the order is total. *)
Lemma not_ltb_leb (x y : JS.number) :
  JS.isNaN x = false -> JS.isNaN y = false ->
  JS.ltb y x = false -> JS.leb x y = true.
Proof.
  intros Hx Hy. unfold JS.ltb, JS.leb, SFltb, SFleb.
  rewrite (compare_antisym x y).
  destruct (compare_some x y Hx Hy) as [c ->].
  destruct c; simpl; (discriminate || reflexivity).
Qed.

Lemma leb_trans (x y z : JS.number) :
  JS.leb x y = true -> JS.leb y z = true -> JS.leb x z = true.
Proof.
  unfold JS.leb, SFleb.
  destruct x as [sx|sx| |sx mx ex], y as [sy|sy| |sy my ey],
           z as [sz|sz| |sz mz ez]; simpl;
    try discriminate; try reflexivity;
    try (destruct sx; simpl; (discriminate || reflexivity));
    try (destruct sy; simpl; (discriminate || reflexivity));
    try (destruct sz; simpl; (discriminate || reflexivity));
    try (destruct sx, sy; simpl; (discriminate || reflexivity));
    try (destruct sx, sz; simpl; (discriminate || reflexivity));
    try (destruct sy, sz; simpl; (discriminate || reflexivity));
    try (destruct sx, sy, sz; simpl; (discriminate || reflexivity)).
  all: change (Pos.compare_cont Eq) with Pos.compare.
  all: destruct sx, sy, sz; simpl; try discriminate; try reflexivity.
  all: destruct (Z.compare_spec ex ey), (Z.compare_spec ey ez),
         (Z.compare_spec ex ez);
       try discriminate; try reflexivity; try lia;
       destruct (Pos.compare_spec mx my), (Pos.compare_spec my mz),
         (Pos.compare_spec mx mz);
       simpl; try discriminate; try reflexivity; try lia.
Qed.

Lemma compare_lt_trans (x y z : JS.number) :
  SFcompare x y = Some Lt -> SFcompare y z = Some Lt -> SFcompare x z = Some Lt.
Proof.
  destruct x as [sx|sx| |sx mx ex], y as [sy|sy| |sy my ey],
           z as [sz|sz| |sz mz ez]; simpl;
    try discriminate; try reflexivity;
    try (destruct sx; simpl; (discriminate || reflexivity));
    try (destruct sy; simpl; (discriminate || reflexivity));
    try (destruct sz; simpl; (discriminate || reflexivity));
    try (destruct sx, sy; simpl; (discriminate || reflexivity));
    try (destruct sx, sz; simpl; (discriminate || reflexivity));
    try (destruct sy, sz; simpl; (discriminate || reflexivity));
    try (destruct sx, sy, sz; simpl; (discriminate || reflexivity)).
  all: change (Pos.compare_cont Eq) with Pos.compare.
  all: destruct sx, sy, sz; simpl; try discriminate; try reflexivity.
  all: destruct (Z.compare_spec ex ey), (Z.compare_spec ey ez),
         (Z.compare_spec ex ez);
       try discriminate; try reflexivity; try lia;
       destruct (Pos.compare_spec mx my), (Pos.compare_spec my mz),
         (Pos.compare_spec mx mz);
       simpl; try discriminate; try reflexivity; try lia.
Qed.

(** [Math.min(a, b)] and [Math.max(a, b)] on two numbers, neither NaN. *)
Lemma Math_min_pair (a b : JS.number) :
  JS.isNaN a = false -> JS.isNaN b = false ->
  JS.Math_min [a; b] =
    if JS.is_neg_zero b && JS.is_pos_zero a then b
    else if b <? a then b else a.
Proof.
  intros Ha Hb. unfold JS.Math_min. simpl. rewrite Ha, Hb.
  rewrite andb_false_r.
  replace (if a <? JS.Infinity then a else JS.Infinity) with a; [reflexivity|].
  destruct a as [s|s| |s m e]; try discriminate Ha; try destruct s;
    reflexivity.
Qed.

Lemma Math_max_pair (a b : JS.number) :
  JS.isNaN a = false -> JS.isNaN b = false ->
  JS.Math_max [a; b] =
    if JS.is_pos_zero b && JS.is_neg_zero a then b
    else if a <? b then b else a.
Proof.
  intros Ha Hb. unfold JS.Math_max. simpl. rewrite Ha, Hb.
  rewrite andb_false_r.
  replace (if JS.NegInfinity <? a then a else JS.NegInfinity) with a;
    [reflexivity|].
  destruct a as [s|s| |s m e]; try discriminate Ha; try destruct s;
    reflexivity.
Qed.

Lemma Math_min_smaller (a b : JS.number) :
  JS.isNaN a = false -> JS.isNaN b = false ->
  is_smaller_of (JS.Math_min [a; b]) a b.
Proof.
  intros Ha Hb. rewrite (Math_min_pair a b Ha Hb). unfold is_smaller_of.
  destruct (JS.is_neg_zero b && JS.is_pos_zero a) eqn:Hz.
  - apply andb_prop in Hz. destruct Hz as [Hb0 Ha0].
    destruct b as [[|]| | |]; try discriminate.
    destruct a as [[|]| | |]; try discriminate.
    repeat split; auto.
  - destruct (b <? a) eqn:Hlt.
    + repeat split; auto using ltb_leb, leb_refl.
    + repeat split; auto using not_ltb_leb, leb_refl.
Qed.

Lemma Math_max_larger (a b : JS.number) :
  JS.isNaN a = false -> JS.isNaN b = false ->
  is_larger_of (JS.Math_max [a; b]) a b.
Proof.
  intros Ha Hb. rewrite (Math_max_pair a b Ha Hb). unfold is_larger_of.
  destruct (JS.is_pos_zero b && JS.is_neg_zero a) eqn:Hz.
  - apply andb_prop in Hz. destruct Hz as [Hb0 Ha0].
    destruct b as [[|]| | |]; try discriminate.
    destruct a as [[|]| | |]; try discriminate.
    repeat split; auto.
  - destruct (a <? b) eqn:Hlt.
    + repeat split; auto using ltb_leb, leb_refl.
    + repeat split; auto using not_ltb_leb, leb_refl.
Qed.

End NumFacts.

(** ** The bounds tracker *)

Section Bounds.

Lemma merge_unfold (cur : JS.number * JS.number) (newMin newMax : JS.number) :
  merge cur newMin newMax =
    (JS.Math_min [fst cur; newMin], JS.Math_max [snd cur; newMax]).
Proof. reflexivity. Qed.

(** One update keeps the bounds free of NaN and around what they
    contained before. *)
Lemma update_widens (st : AppState) (u : JS.number * JS.number)
  (inner : JS.number * JS.number) :
  update_ok (heightBounds st) -> update_ok u ->
  containsb (heightBounds st) inner = true ->
  update_ok (heightBounds (updateHeightBounds (fst u) (snd u) st))
  /\ containsb (heightBounds (updateHeightBounds (fst u) (snd u) st)) inner
     = true.
Proof.
  intros [Hlo Hhi] [Hmin Hmax] Hc.
  apply andb_prop in Hc. destruct Hc as [Hc1 Hc2].
  destruct (NumFacts.Math_min_smaller _ _ Hlo Hmin) as (Ha & _ & Hm).
  destruct (NumFacts.Math_max_larger _ _ Hhi Hmax) as (Hb & _ & HM).
  unfold updateHeightBounds, update_ok, containsb. simpl. repeat split.
  - destruct Hm as [-> | ->]; assumption.
  - destruct HM as [-> | ->]; assumption.
  - apply andb_true_intro. split.
    + eapply NumFacts.leb_trans; eassumption.
    + eapply NumFacts.leb_trans; eassumption.
Qed.

Lemma session_invariant (updates : list (JS.number * JS.number))
  (st : AppState) (inner : JS.number * JS.number) :
  Forall update_ok updates ->
  update_ok (heightBounds st) ->
  containsb (heightBounds st) inner = true ->
  containsb
    (heightBounds
       (fold_left (fun st u => updateHeightBounds (fst u) (snd u) st)
                  updates st)) inner = true.
Proof.
  intros Hall. revert st.
  induction Hall as [|u us Hu _ IH]; intros st Hst Hc; simpl.
  - exact Hc.
  - destruct (update_widens st u inner Hst Hu Hc) as [Hst' Hc'].
    apply IH; assumption.
Qed.

(** An update from inside (-10, 10) leaves the initial bounds as they
    are. *)
Lemma update_inside (u : JS.number * JS.number) :
  inside_default u ->
  updateHeightBounds (fst u) (snd u) initialState = initialState.
Proof.
  intros [Hlo Hhi]. destruct u as [a b]. simpl in *.
  assert (Ha : JS.isNaN a = false) by (destruct a; (discriminate || reflexivity)).
  assert (Hb : JS.isNaN b = false) by (destruct b; (discriminate || reflexivity)).
  unfold updateHeightBounds, initialState. simpl heightBounds. simpl fst. simpl snd.
  rewrite (NumFacts.Math_min_pair Lit.m10 a) by (reflexivity || assumption).
  rewrite (NumFacts.Math_max_pair Lit.n10 b) by (reflexivity || assumption).
  assert (Hza : JS.is_pos_zero Lit.m10 = false) by reflexivity.
  assert (Hzb : JS.is_neg_zero Lit.n10 = false) by reflexivity.
  rewrite Hza, Hzb, !andb_false_r.
  assert (Hlo' : (a <? Lit.m10) = false).
  { generalize Hlo. unfold JS.ltb, SFltb.
    rewrite (NumFacts.compare_antisym Lit.m10 a).
    destruct (SFcompare Lit.m10 a) as [[ | | ]|]; (discriminate || reflexivity). }
  assert (Hhi' : (Lit.n10 <? b) = false).
  { generalize Hhi. unfold JS.ltb, SFltb.
    rewrite (NumFacts.compare_antisym b Lit.n10).
    destruct (SFcompare b Lit.n10) as [[ | | ]|]; (discriminate || reflexivity). }
  rewrite Hlo', Hhi'. reflexivity.
Qed.

Lemma session_inside (updates : list (JS.number * JS.number)) :
  Forall inside_default updates -> session updates = initialState.
Proof.
  unfold session. induction 1 as [|u us Hu _ IH]; simpl.
  - reflexivity.
  - rewrite (update_inside u Hu). exact IH.
Qed.

End Bounds.

(** ** The delimited-text parser as a function of the accepted rows *)

Section CSVFacts.

Context {St : Type}.
Variable update : option (JS.number -> JS.number -> St -> St).

Lemma isNaN_not_finite (x : JS.number) :
  JS.isNaN x = true -> JS.isFinite x = false.
Proof. destruct x; simpl; (discriminate || reflexivity). Qed.

Lemma invalid_xyz_finite (x y z : cell) :
  invalid_xyz x y z =
    negb (JS.isFinite (ToNumber x) && JS.isFinite (ToNumber y)
          && JS.isFinite (ToNumber z)).
Proof.
  unfold invalid_xyz.
  destruct (ToNumber x), (ToNumber y), (ToNumber z); reflexivity.
Qed.

Lemma accepted_cons3 (x y z : cell) (rest : row) :
  accepted (x :: y :: z :: rest) = negb (invalid_xyz x y z).
Proof.
  rewrite invalid_xyz_finite, negb_involutive. unfold accepted. simpl.
  rewrite andb_true_r, andb_assoc. reflexivity.
Qed.

Lemma accepted_short (r : row) : List.length r < 3 -> accepted r = false.
Proof.
  intros H. unfold accepted.
  destruct (Nat.leb_spec 3 (List.length r)); [lia | reflexivity].
Qed.

(** One step of the loop, by whether the row is accepted. *)
Lemma csv_step_spec (flag : bool) (acc : csv_acc) (r : row) :
  csv_step flag acc r =
    if accepted r then
      {| acc_positions := acc_positions acc ++ row_xyz r;
         acc_zValues := acc_zValues acc ++ row_z r;
         acc_colors := acc_colors acc ++ (if flag then row_rgb r else []);
         validPointCount := S (validPointCount acc) |}
    else acc.
Proof.
  destruct r as [|x [|y [|z rest]]]; try reflexivity.
  rewrite accepted_cons3. unfold csv_step.
  destruct (invalid_xyz x y z); simpl; [reflexivity|].
  f_equal.
  destruct rest as [|r [|g [|b rest']]]; destruct flag; simpl;
    rewrite ?app_nil_r; reflexivity.
Qed.

Lemma csv_fold_spec (flag : bool) (data : list row) (acc : csv_acc) :
  fold_left (csv_step flag) data acc =
    let pts := filter accepted data in
    {| acc_positions := acc_positions acc ++ flat_map row_xyz pts;
       acc_zValues := acc_zValues acc ++ flat_map row_z pts;
       acc_colors :=
         acc_colors acc ++ (if flag then flat_map row_rgb pts else []);
       validPointCount := validPointCount acc + List.length pts |}.
Proof.
  revert acc. induction data as [|r data IH]; intros acc; simpl.
  - rewrite !app_nil_r, Nat.add_0_r.
    destruct flag; rewrite ?app_nil_r; destruct acc; reflexivity.
  - rewrite IH, csv_step_spec. destruct (accepted r); simpl.
    + rewrite <- !app_assoc. f_equal.
      * destruct flag; rewrite <- ?app_assoc; reflexivity.
      * lia.
    + reflexivity.
Qed.

(** [loadCSV] is rejected exactly when no row is accepted; otherwise its
    record is built from the accepted rows, in order. *)
Lemma loadCSV_spec (data : list row) (t : string) (st : St) :
  loadCSV update data t st =
    match filter accepted data with
    | [] => (Rejected NoValidPoints, st)
    | pts =>
        let zs := map ToNumber (flat_map row_z pts) in
        (Resolved
           {| csv_positions :=
                Float32Array (map ToNumber (flat_map row_xyz pts));
              csv_colors :=
                if hasRGB_of data then Float32Array (flat_map row_rgb pts)
                else createColorMapForCSV zs t;
              csv_originalData := data;
              csv_zValues := flat_map row_z pts;
              csv_hasRGB := hasRGB_of data |},
         reportBounds update zs st)
    end.
Proof.
  unfold loadCSV. rewrite csv_fold_spec. simpl.
  destruct (filter accepted data) as [|p pts]; simpl; [reflexivity|].
  destruct (hasRGB_of data); reflexivity.
Qed.

Lemma filter_accepted_all (data : list row) :
  Forall (fun r => accepted r = true) (filter accepted data).
Proof. apply Forall_forall. intros r Hr. apply filter_In in Hr. tauto. Qed.

Lemma hasRGB_of_first_row (data : list row) :
  data <> [] -> hasRGB_of data = first_row_has_rgb data.
Proof. destruct data; [congruence | reflexivity]. Qed.

Lemma filter_nonempty_data (data : list row) :
  filter accepted data <> [] -> data <> [].
Proof. destruct data; simpl; congruence. Qed.

End CSVFacts.

(** ** The bounds a delimited-text file reports *)

Section CSVBounds.

Lemma min_loop_not_nan (xs : list JS.number) (lowest : JS.number) :
  JS.isNaN lowest = false -> forallb JS.isFinite xs = true ->
  JS.isNaN (JS.min_loop lowest xs) = false.
Proof.
  revert lowest. induction xs as [|x xs IH]; intros lowest Hl Hxs; simpl.
  - exact Hl.
  - simpl in Hxs. apply andb_prop in Hxs. destruct Hxs as [Hx Hxs].
    assert (Hn : JS.isNaN x = false)
      by (destruct x; (discriminate || reflexivity)).
    rewrite Hn. apply IH; [|exact Hxs].
    destruct (JS.is_neg_zero x && JS.is_pos_zero lowest); [exact Hn|].
    destruct (x <? lowest); assumption.
Qed.

Lemma max_loop_not_nan (xs : list JS.number) (highest : JS.number) :
  JS.isNaN highest = false -> forallb JS.isFinite xs = true ->
  JS.isNaN (JS.max_loop highest xs) = false.
Proof.
  revert highest. induction xs as [|x xs IH]; intros highest Hh Hxs; simpl.
  - exact Hh.
  - simpl in Hxs. apply andb_prop in Hxs. destruct Hxs as [Hx Hxs].
    assert (Hn : JS.isNaN x = false)
      by (destruct x; (discriminate || reflexivity)).
    rewrite Hn. apply IH; [|exact Hxs].
    destruct (JS.is_pos_zero x && JS.is_neg_zero highest); [exact Hn|].
    destruct (highest <? x); assumption.
Qed.

Lemma accepted_z_finite (pts : list row) :
  Forall (fun r => accepted r = true) pts ->
  forallb JS.isFinite (map ToNumber (flat_map row_z pts)) = true.
Proof.
  induction 1 as [|r pts Hr _ IH]; [reflexivity|].
  cbn [flat_map]. rewrite map_app, forallb_app, IH, andb_true_r.
  destruct r as [|x [|y [|z rest]]]; try reflexivity.
  unfold accepted in Hr. apply andb_prop in Hr. destruct Hr as [_ Hr].
  cbn in Hr. apply andb_prop in Hr. destruct Hr as [_ Hr].
  apply andb_prop in Hr. destruct Hr as [_ Hr].
  cbn. apply andb_prop in Hr. destruct Hr as [Hz _].
  rewrite Hz. reflexivity.
Qed.

(** A delimited-text file leaves the state alone or makes one update,
    whose extrema are not NaN. *)
Lemma loadCSV_update (data : list row) (t : string) (st : AppState) :
  snd (loadCSV (Some updateHeightBounds) data t st) = st
  \/ exists u, update_ok u
               /\ snd (loadCSV (Some updateHeightBounds) data t st)
                  = updateHeightBounds (fst u) (snd u) st.
Proof.
  rewrite loadCSV_spec.
  pose proof (filter_accepted_all data) as Hall.
  destruct (filter accepted data) as [|p pts]; [left; reflexivity|].
  pose proof (accepted_z_finite _ Hall) as Hfin.
  cbv zeta. cbn [snd].
  destruct (map ToNumber (flat_map row_z (p :: pts))) as [|z zs] eqn:E;
    [left; reflexivity|].
  right. exists (JS.Math_min (z :: zs), JS.Math_max (z :: zs)).
  split; [|reflexivity]. split; cbn [fst snd].
  - apply min_loop_not_nan; [reflexivity | exact Hfin].
  - apply max_loop_not_nan; [reflexivity | exact Hfin].
Qed.

Lemma loadFile_csv_state (now : nat -> string)
  (loader : string -> loader_answer) (t : string) (i : nat)
  (data : list row) (st : AppState) :
  snd (loadFile now loader t i (CsvFile data) st)
  = snd (loadCSV (Some updateHeightBounds) data t st).
Proof.
  unfold loadFile.
  destruct (loadCSV (Some updateHeightBounds) data t st) as [[r|e] st'];
    reflexivity.
Qed.

(** A batch of delimited-text files keeps bounds that are free of NaN
    around what they contained before. *)
Lemma loadFiles_csv_invariant (now : nat -> string)
  (loader : string -> loader_answer) (t : string) (files : list file)
  (inner : JS.number * JS.number) :
  forallb is_csv files = true ->
  forall (i : nat) (clouds : list pointCloud) (st : AppState),
    update_ok (heightBounds st) ->
    containsb (heightBounds st) inner = true ->
    containsb
      (heightBounds (snd (loadFiles now loader t i files clouds st))) inner
    = true.
Proof.
  induction files as [|f files IH]; intros Hcsv i clouds st Hst Hc.
  - exact Hc.
  - cbn [forallb] in Hcsv. apply andb_prop in Hcsv.
    destruct Hcsv as [Hf Hcsv]. destruct f as [data| |]; try discriminate.
    cbn [loadFiles].
    pose proof (loadFile_csv_state now loader t i data st) as Hs.
    destruct (loadFile now loader t i (CsvFile data) st) as [entry st'].
    cbn [snd] in Hs. subst st'.
    destruct (loadCSV_update data t st) as [-> | (u & Hu & ->)].
    + apply IH; assumption.
    + destruct (update_widens st u inner Hst Hu Hc) as [Hst' Hc'].
      apply IH; assumption.
Qed.

End CSVBounds.

(** ** The colour channels of a delimited row *)

(** A channel that reads as NaN becomes 128; any other is clamped to
    [0, 255]: 0 below 0, 255 above 255, and the number itself in
    between. *)
Lemma validChannel_spec (c : cell) :
  if JS.isNaN (ToNumber c) then validChannel c = Lit.n128
  else if ToNumber c <? Lit.n0 then validChannel c = Lit.n0
  else if Lit.n255 <? ToNumber c then validChannel c = Lit.n255
  else JS.eqb (validChannel c) (ToNumber c) = true.
Proof.
  unfold validChannel. set (x := ToNumber c).
  destruct (JS.isNaN x) eqn:Hx; [reflexivity|].
  rewrite (NumFacts.Math_min_pair Lit.n255 x) by (reflexivity || assumption).
  replace (JS.is_neg_zero x && JS.is_pos_zero Lit.n255) with false
    by (rewrite andb_false_r; reflexivity).
  destruct (NumFacts.compare_some x Lit.n0 Hx eq_refl) as [c0 E0].
  destruct (NumFacts.compare_some x Lit.n255 Hx eq_refl) as [c255 E255].
  pose proof (NumFacts.compare_antisym x Lit.n0) as A0. rewrite E0 in A0.
  pose proof (NumFacts.compare_antisym x Lit.n255) as A255. rewrite E255 in A255.
  assert (T1 : c0 = Lt -> c255 = Lt).
  { intros ->. pose proof (NumFacts.compare_lt_trans x Lit.n0 Lit.n255 E0 eq_refl) as H.
    congruence. }
  assert (T2 : c255 = Gt -> c0 = Gt).
  { intros ->. simpl in A255.
    pose proof (NumFacts.compare_lt_trans Lit.n0 Lit.n255 x eq_refl A255) as H.
    rewrite H in A0. destruct c0; simpl in A0; congruence. }
  unfold JS.ltb, SFltb. rewrite E0, E255, A255.
  destruct c255; simpl.
  - (* x = 255 *)
    destruct c0; try (specialize (T1 eq_refl); discriminate).
    + rewrite NumFacts.Math_max_pair by reflexivity. simpl.
      unfold JS.eqb, SFeqb. rewrite A255. reflexivity.
    + rewrite NumFacts.Math_max_pair by reflexivity. simpl.
      unfold JS.eqb, SFeqb. rewrite A255. reflexivity.
  - (* x < 255 *)
    rewrite (NumFacts.Math_max_pair Lit.n0 x) by (reflexivity || assumption).
    replace (JS.is_pos_zero x && JS.is_neg_zero Lit.n0) with false
      by (rewrite andb_false_r; reflexivity).
    unfold JS.ltb, SFltb. rewrite A0.
    destruct c0; simpl.
    + unfold JS.eqb, SFeqb. rewrite A0. reflexivity.
    + reflexivity.
    + unfold JS.eqb, SFeqb. rewrite (NumFacts.compare_refl x Hx). reflexivity.
  - (* 255 < x *)
    rewrite (T2 eq_refl). reflexivity.
Qed.

(** ** Lengths of the buffers *)

Section Lengths.

Local Open Scope nat_scope.

Lemma store3_length (c : JS.number * JS.number * JS.number) :
  List.length (store3 c) = 3.
Proof. destruct c as [[r g] b]. reflexivity. Qed.

Lemma flat_map_store3_length {A : Type}
  (f : A -> JS.number * JS.number * JS.number) (l : list A) :
  List.length (flat_map (fun a => store3 (f a)) l) = 3 * List.length l.
Proof.
  induction l as [|a l IH]; simpl; [reflexivity|].
  rewrite length_app, store3_length, IH. lia.
Qed.

Lemma createColorMapForCSV_length (zValues : list JS.number) (mapType : string) :
  List.length (createColorMapForCSV zValues mapType) = 3 * List.length zValues.
Proof. unfold createColorMapForCSV. apply flat_map_store3_length. Qed.

Lemma createSingleColorForPCD_length (n : nat) :
  List.length (createSingleColorForPCD n) = 3 * n.
Proof.
  unfold createSingleColorForPCD.
  rewrite (flat_map_store3_length (fun _ => (Lit.n0_7, Lit.n0_7, Lit.n0_7))).
  rewrite length_seq. reflexivity.
Qed.

Lemma accepted_length (r : row) : accepted r = true -> 3 <= List.length r.
Proof.
  unfold accepted. intros H. apply andb_prop in H. destruct H as [H _].
  apply Nat.leb_le. exact H.
Qed.

Lemma xyz_length (pts : list row) :
  Forall (fun r => accepted r = true) pts ->
  List.length (flat_map row_xyz pts) = 3 * List.length pts.
Proof.
  induction 1 as [|r pts Hr _ IH]; simpl; [reflexivity|].
  rewrite length_app, IH. unfold row_xyz. rewrite length_firstn.
  apply accepted_length in Hr. lia.
Qed.

Lemma z_length (pts : list row) :
  Forall (fun r => accepted r = true) pts ->
  List.length (flat_map row_z pts) = List.length pts.
Proof.
  induction 1 as [|r pts Hr _ IH]; simpl; [reflexivity|].
  rewrite length_app, IH. unfold row_z.
  rewrite length_firstn, length_skipn.
  apply accepted_length in Hr. lia.
Qed.

Lemma rgb_length (pts : list row) :
  List.length (flat_map row_rgb pts) =
    3 * List.length (filter (fun r => Nat.leb 6 (List.length r)) pts).
Proof.
  induction pts as [|r pts IH]; [reflexivity|].
  cbn [flat_map filter]. rewrite length_app, IH. unfold row_rgb.
  destruct (Nat.leb 6 (List.length r)) eqn:E; cbn [List.length]; [|lia].
  apply Nat.leb_le in E.
  rewrite length_map, length_firstn, length_skipn. lia.
Qed.

Lemma forallb_map_compose {A B : Type} (f : B -> bool) (g : A -> B)
  (l : list A) :
  forallb f (map g l) = forallb (fun a => f (g a)) l.
Proof.
  induction l as [|a l IH]; simpl; [reflexivity | rewrite IH; reflexivity].
Qed.

End Lengths.

(** ** The colour map on a flat input *)

Section FlatInput.

Lemma ltb_irrefl (z : JS.number) : (z <? z) = false.
Proof.
  unfold JS.ltb, SFltb. destruct (JS.isNaN z) eqn:H.
  - destruct z; (discriminate || reflexivity).
  - rewrite (NumFacts.compare_refl z H). reflexivity.
Qed.

Lemma min_loop_repeat (z : JS.number) (n : nat) :
  JS.isFinite z = true -> JS.min_loop z (repeat z n) = z.
Proof.
  intros Hz. induction n as [|n IH]; simpl; [reflexivity|].
  replace (JS.isNaN z) with false by (destruct z; (discriminate || reflexivity)).
  replace (JS.is_neg_zero z && JS.is_pos_zero z) with false
    by (destruct z as [[|]| | |]; reflexivity).
  rewrite ltb_irrefl. exact IH.
Qed.

Lemma max_loop_repeat (z : JS.number) (n : nat) :
  JS.isFinite z = true -> JS.max_loop z (repeat z n) = z.
Proof.
  intros Hz. induction n as [|n IH]; simpl; [reflexivity|].
  replace (JS.isNaN z) with false by (destruct z; (discriminate || reflexivity)).
  replace (JS.is_pos_zero z && JS.is_neg_zero z) with false
    by (destruct z as [[|]| | |]; reflexivity).
  rewrite ltb_irrefl. exact IH.
Qed.

Lemma Math_min_repeat (z : JS.number) (n : nat) :
  JS.isFinite z = true -> JS.Math_min (repeat z (S n)) = z.
Proof.
  intros Hz. unfold JS.Math_min. simpl.
  destruct z as [s|s| |s m e]; try discriminate; simpl.
  - rewrite andb_false_r. apply (min_loop_repeat (S754_zero s) n eq_refl).
  - replace (S754_finite s m e <? JS.Infinity) with true
      by (destruct s; reflexivity).
    apply (min_loop_repeat (S754_finite s m e) n eq_refl).
Qed.

Lemma Math_max_repeat (z : JS.number) (n : nat) :
  JS.isFinite z = true -> JS.Math_max (repeat z (S n)) = z.
Proof.
  intros Hz. unfold JS.Math_max. simpl.
  destruct z as [s|s| |s m e]; try discriminate; simpl.
  - rewrite andb_false_r. apply (max_loop_repeat (S754_zero s) n eq_refl).
  - replace (JS.NegInfinity <? S754_finite s m e) with true
      by (destruct s; reflexivity).
    apply (max_loop_repeat (S754_finite s m e) n eq_refl).
Qed.

(** A finite number minus itself is +0. *)
Lemma sub_diag (z : JS.number) :
  JS.isFinite z = true -> z - z = S754_zero false.
Proof.
  destruct z as [s|s| |s m e]; try discriminate; intros _.
  - destruct s; reflexivity.
  - unfold JS.sub, SFsub. rewrite Z.sub_diag. reflexivity.
Qed.

Lemma flat_map_repeat {A B : Type} (f : A -> list B) (a : A) (n : nat) :
  flat_map f (repeat a n) = List.concat (repeat (f a) n).
Proof. induction n as [|n IH]; simpl; [reflexivity | rewrite IH; reflexivity]. Qed.

(** On [n + 1] copies of one finite elevation the normalized value is
    0/0 = NaN for every point. *)
Lemma createColorMapForCSV_flat (z : JS.number) (n : nat) (mapType : string) :
  JS.isFinite z = true ->
  createColorMapForCSV (repeat z (S n)) mapType =
    List.concat (repeat (store3 (colorOf mapType JS.NaN)) (S n)).
Proof.
  intros Hz. unfold createColorMapForCSV.
  rewrite (Math_min_repeat z n Hz), (Math_max_repeat z n Hz).
  rewrite flat_map_repeat, (sub_diag z Hz). reflexivity.
Qed.

End FlatInput.

(** ** The program under the argument limit of the engine *)

Section LimitedFacts.

Context {St : Type}.
Variable maxArguments : nat.
Variable update : option (JS.number -> JS.number -> St -> St).

Local Open Scope nat_scope.

Lemma spread_within {A : Type} (f : list JS.number -> A)
  (args : list JS.number) :
  List.length args <= maxArguments ->
  Limited.spread maxArguments f args = Resolved (f args).
Proof.
  intros H. unfold Limited.spread.
  destruct (Nat.leb_spec (List.length args) maxArguments); [reflexivity | lia].
Qed.

Lemma spread_beyond {A : Type} (f : list JS.number -> A)
  (args : list JS.number) :
  maxArguments < List.length args ->
  Limited.spread maxArguments f args = Rejected RangeError.
Proof.
  intros H. unfold Limited.spread.
  destruct (Nat.leb_spec (List.length args) maxArguments); [lia | reflexivity].
Qed.

Lemma spread_resolved {A : Type} (f : list JS.number -> A)
  (args : list JS.number) (a : A) :
  Limited.spread maxArguments f args = Resolved a -> a = f args.
Proof.
  unfold Limited.spread.
  destruct (Nat.leb (List.length args) maxArguments); [|discriminate].
  intros H. injection H as <-. reflexivity.
Qed.

(** Within the limit the colour map is the one of [createColorMapForCSV]. *)
Lemma limited_createColorMapForCSV_within (zValues : list JS.number)
  (mapType : string) :
  List.length zValues <= maxArguments ->
  Limited.createColorMapForCSV maxArguments zValues mapType
  = Resolved (createColorMapForCSV zValues mapType).
Proof.
  intros H. unfold Limited.createColorMapForCSV.
  rewrite !spread_within by exact H. reflexivity.
Qed.

Lemma limited_createColorMapForCSV_resolved (zValues : list JS.number)
  (mapType : string) (c : list JS.number) :
  Limited.createColorMapForCSV maxArguments zValues mapType = Resolved c ->
  c = createColorMapForCSV zValues mapType.
Proof.
  unfold Limited.createColorMapForCSV, Limited.spread.
  destruct (Nat.leb (List.length zValues) maxArguments); [|discriminate].
  intros H. injection H as <-. reflexivity.
Qed.

Lemma limited_createColorMapForCSV_beyond (zValues : list JS.number)
  (mapType : string) :
  maxArguments < List.length zValues ->
  Limited.createColorMapForCSV maxArguments zValues mapType
  = Rejected RangeError.
Proof.
  intros H. unfold Limited.createColorMapForCSV.
  rewrite spread_beyond by exact H. reflexivity.
Qed.

Lemma limited_reportBounds_within (zValues : list JS.number) (st : St) :
  List.length zValues <= maxArguments ->
  Limited.reportBounds maxArguments update zValues st
  = Resolved (reportBounds update zValues st).
Proof.
  intros H. unfold Limited.reportBounds, reportBounds.
  destruct zValues as [|z zs]; [reflexivity|].
  destruct update as [u|]; [|reflexivity].
  rewrite !spread_within by exact H. reflexivity.
Qed.

Lemma limited_reportBounds_resolved (zValues : list JS.number) (st st' : St) :
  Limited.reportBounds maxArguments update zValues st = Resolved st' ->
  st' = reportBounds update zValues st.
Proof.
  unfold Limited.reportBounds, reportBounds, Limited.spread.
  destruct zValues as [|z zs]; [intros H; injection H as <-; reflexivity|].
  destruct update as [u|]; [|intros H; injection H as <-; reflexivity].
  destruct (Nat.leb (List.length (z :: zs)) maxArguments); [|discriminate].
  intros H. injection H as <-. reflexivity.
Qed.

Lemma limited_reportBounds_beyond (u : JS.number -> JS.number -> St -> St)
  (zValues : list JS.number) (st : St) :
  maxArguments < List.length zValues ->
  Limited.reportBounds maxArguments (Some u) zValues st = Rejected RangeError.
Proof.
  intros H. unfold Limited.reportBounds.
  destruct zValues as [|z zs]; [simpl in H; lia|].
  rewrite spread_beyond by exact H. reflexivity.
Qed.

(** The elevations the parser spreads are those of the accepted rows. *)
Lemma spread_count (flag : bool) (data : list row) :
  List.length
    (map ToNumber (acc_zValues (fold_left (csv_step flag) data csv_acc0)))
  = List.length (filter accepted data).
Proof.
  rewrite csv_fold_spec. cbv zeta. cbn [acc_zValues csv_acc0 app].
  rewrite length_map. apply z_length, filter_accepted_all.
Qed.

Lemma accepted_count (flag : bool) (data : list row) :
  validPointCount (fold_left (csv_step flag) data csv_acc0)
  = List.length (filter accepted data).
Proof. rewrite csv_fold_spec. reflexivity. Qed.

(** A parse that resolves under the limit resolves to the record and the
    state of [loadCSV]: what is proved of every record of [loadCSV] holds
    of every record under the limit. *)
Lemma limited_loadCSV_resolved (data : list row) (t : string) (st st' : St)
  (r : CSVResult) :
  Limited.loadCSV maxArguments update data t st = (Resolved r, st') ->
  loadCSV update data t st = (Resolved r, st').
Proof.
  unfold Limited.loadCSV, loadCSV. cbv zeta.
  destruct (Nat.eqb _ 0); [discriminate|].
  destruct (hasRGB_of data).
  - destruct (Limited.reportBounds _ _ _ _) as [s|e] eqn:E; [|discriminate].
    apply limited_reportBounds_resolved in E. subst s.
    intros H. exact H.
  - destruct (Limited.createColorMapForCSV _ _ _) as [c|e] eqn:C;
      [|discriminate].
    apply limited_createColorMapForCSV_resolved in C. subst c.
    destruct (Limited.reportBounds _ _ _ _) as [s|e] eqn:E; [|discriminate].
    apply limited_reportBounds_resolved in E. subst s.
    intros H. exact H.
Qed.

(** With no more accepted rows than the limit, the parse is the one of
    [loadCSV]. *)
Lemma limited_loadCSV_within (data : list row) (t : string) (st : St) :
  List.length (filter accepted data) <= maxArguments ->
  Limited.loadCSV maxArguments update data t st = loadCSV update data t st.
Proof.
  intros H. unfold Limited.loadCSV, loadCSV. cbv zeta.
  destruct (Nat.eqb _ 0); [reflexivity|].
  rewrite limited_reportBounds_within by (rewrite spread_count; exact H).
  destruct (hasRGB_of data); [reflexivity|].
  rewrite limited_createColorMapForCSV_within
    by (rewrite spread_count; exact H).
  reflexivity.
Qed.

(** The "no valid points" rejection is that of the rows: it happens
    exactly when no row is accepted, whatever the limit. *)
Lemma limited_loadCSV_no_valid_points (data : list row) (t : string)
  (st : St) :
  fst (Limited.loadCSV maxArguments update data t st) = Rejected NoValidPoints
  <-> List.length (filter accepted data) = 0.
Proof.
  unfold Limited.loadCSV. cbv zeta. rewrite accepted_count.
  destruct (List.length (filter accepted data)) as [|n]; cbn [Nat.eqb].
  - split; reflexivity.
  - split; [|discriminate].
    destruct (hasRGB_of data).
    + destruct (Limited.reportBounds _ _ _ _) as [s|e] eqn:E;
        [discriminate|].
      unfold Limited.reportBounds, Limited.spread in E.
      destruct (map ToNumber _) as [|z zs]; [discriminate|].
      destruct update; [|discriminate].
      destruct (Nat.leb _ _); discriminate || (injection E as <-; discriminate).
    + destruct (Limited.createColorMapForCSV _ _ _) as [c|e] eqn:C.
      * destruct (Limited.reportBounds _ _ _ _) as [s|e] eqn:E;
          [discriminate|].
        unfold Limited.reportBounds, Limited.spread in E.
        destruct (map ToNumber _) as [|z zs]; [discriminate|].
        destruct update; [|discriminate].
        destruct (Nat.leb _ _);
          discriminate || (injection E as <-; discriminate).
      * unfold Limited.createColorMapForCSV, Limited.spread in C.
        destruct (Nat.leb _ _);
          discriminate || (injection C as <-; discriminate).
Qed.

(** Tier 2 of [loadPCD] under the limit, for a cloud within it. *)
Lemma limited_loadPCD_delegate_within (PCDLoader : string -> loader_answer)
  (text : string) (position : list (JS.number * JS.number * JS.number))
  (color : option (list JS.number)) (st : St) :
  PCDLoader text = LoaderGeometry position color ->
  List.length position <= maxArguments ->
  Limited.loadPCD_delegate maxArguments update PCDLoader text st
  = loadPCD_delegate update PCDLoader text st.
Proof.
  intros Hans H. unfold Limited.loadPCD_delegate, loadPCD_delegate.
  rewrite Hans. cbv zeta.
  rewrite limited_reportBounds_within; [reflexivity|].
  unfold extract_z. rewrite length_map, length_seq. exact H.
Qed.

Lemma limited_loadPCD_delegate_beyond
  (u : JS.number -> JS.number -> St -> St)
  (PCDLoader : string -> loader_answer)
  (text : string) (position : list (JS.number * JS.number * JS.number))
  (color : option (list JS.number)) (st : St) :
  PCDLoader text = LoaderGeometry position color ->
  maxArguments < List.length position ->
  Limited.loadPCD_delegate maxArguments (Some u) PCDLoader text st
  = (Rejected RangeError, st).
Proof.
  intros Hans H. unfold Limited.loadPCD_delegate. rewrite Hans. cbv zeta.
  rewrite limited_reportBounds_beyond; [reflexivity|].
  unfold extract_z. rewrite length_map, length_seq. exact H.
Qed.

(** A parse of [loadPCD] that resolves under the limit resolves to the
    record and the state of the definition without it. *)
Lemma limited_loadPCD_delegate_resolved (PCDLoader : string -> loader_answer)
  (text : string) (st st' : St) (r : PCDResult) :
  Limited.loadPCD_delegate maxArguments update PCDLoader text st
    = (Resolved r, st') ->
  loadPCD_delegate update PCDLoader text st = (Resolved r, st').
Proof.
  unfold Limited.loadPCD_delegate, loadPCD_delegate.
  destruct (PCDLoader text) as [| | | |position color]; try discriminate.
  cbv zeta.
  destruct (Limited.reportBounds _ _ _ _) as [s|e] eqn:E; [|discriminate].
  apply limited_reportBounds_resolved in E. subst s.
  intros H. exact H.
Qed.

Lemma limited_loadPCD_resolved (PCDLoader : string -> loader_answer)
  (text : string) (st st' : St) (r : PCDResult) :
  Limited.loadPCD maxArguments update PCDLoader text st = (Resolved r, st') ->
  loadPCD update PCDLoader text st = (Resolved r, st').
Proof.
  unfold Limited.loadPCD, loadPCD.
  destruct (negb (Str.startsWith text "# .PCD")
            && negb (Str.includes text "VERSION")); [discriminate|].
  cbv zeta.
  destruct (if isASCII (scan_header (Str.split (ascii_of_nat 10) text) 0
                          pcd_header0)
               && JS.ltb Lit.n0
                    (pointCount
                       (scan_header (Str.split (ascii_of_nat 10) text)
                          0 pcd_header0))
            then _ else _) as [positions colors].
  destruct positions as [|p ps];
    [apply limited_loadPCD_delegate_resolved|].
  destruct (Limited.reportBounds _ _ _ _) as [s|e] eqn:E; [|discriminate].
  apply limited_reportBounds_resolved in E. subst s.
  intros H. exact H.
Qed.

End LimitedFacts.

(** * Properties of the program *)

(** ** The bounds tracker *)

(** C4 (amended). The bounds merge returns
    [Math.min(curMin, newMin), Math.max(curMax, newMax)] for all inputs.
    When none of the four numbers is NaN, the first is the smaller of
    [curMin] and [newMin] and the second the larger of [curMax] and
    [newMax], so the result interval contains the current one.  In
    particular merge([-5,5], -10, 3) = [-10,5] and
    merge([-10,5], 0, 0) = [-10,5]. *)
Theorem merge_widening (cur : JS.number * JS.number) (newMin newMax : JS.number) :
  merge cur newMin newMax =
    (JS.Math_min [fst cur; newMin], JS.Math_max [snd cur; newMax])
  /\ (update_ok cur -> update_ok (newMin, newMax) ->
      is_smaller_of (fst (merge cur newMin newMax)) (fst cur) newMin
      /\ is_larger_of (snd (merge cur newMin newMax)) (snd cur) newMax
      /\ containsb (merge cur newMin newMax) cur = true)
  /\ merge (Lit.m5, Lit.n5) Lit.m10 Lit.n3 = (Lit.m10, Lit.n5)
  /\ merge (Lit.m10, Lit.n5) Lit.n0 Lit.n0 = (Lit.m10, Lit.n5).
Proof.
  split; [reflexivity|]. split; [|split; reflexivity].
  intros [Hlo Hhi] [Hmin Hmax]. simpl in Hmin, Hmax.
  pose proof (NumFacts.Math_min_smaller _ _ Hlo Hmin) as Hm.
  pose proof (NumFacts.Math_max_larger _ _ Hhi Hmax) as HM.
  rewrite merge_unfold. simpl fst. simpl snd.
  split; [exact Hm|]. split; [exact HM|].
  unfold containsb. simpl fst. simpl snd.
  destruct Hm as (-> & _), HM as (-> & _). reflexivity.
Qed.

(** [merge_widening] at merge([-5,5], -10, 3). *)
Lemma merge_widening_witness :
  update_ok (Lit.m5, Lit.n5) /\ update_ok (Lit.m10, Lit.n3)
  /\ containsb (merge (Lit.m5, Lit.n5) Lit.m10 Lit.n3) (Lit.m5, Lit.n5) = true.
Proof.
  assert (H1 : update_ok (Lit.m5, Lit.n5)) by (split; reflexivity).
  assert (H2 : update_ok (Lit.m10, Lit.n3)) by (split; reflexivity).
  split; [exact H1|]. split; [exact H2|].
  destruct (merge_widening (Lit.m5, Lit.n5) Lit.m10 Lit.n3) as (_ & H & _).
  apply (H H1 H2).
Defined.

(** C4 (as stated) fails on a NaN extremum: merging NaN into [-10, 10]
    gives [NaN, NaN], which does not contain [-10, 10]. *)
Lemma merge_nan_not_widening :
  merge (Lit.m10, Lit.n10) JS.NaN JS.NaN = (JS.NaN, JS.NaN)
  /\ containsb (merge (Lit.m10, Lit.n10) JS.NaN JS.NaN) (Lit.m10, Lit.n10)
     = false.
Proof. split; reflexivity. Qed.

(** C10 (amended). The bounds start at [-10, 10]; for every sequence of
    bounds updates none of whose extrema is NaN, the published bounds
    contain [-10, 10]; and when every update lies strictly inside
    (-10, 10) the published bounds are exactly [-10, 10], not the clouds'
    extrema. *)
Theorem session_contains_default (updates : list (JS.number * JS.number)) :
  heightBounds (session []) = (Lit.m10, Lit.n10)
  /\ (Forall update_ok updates ->
      containsb (heightBounds (session updates)) (Lit.m10, Lit.n10) = true)
  /\ (Forall inside_default updates ->
      heightBounds (session updates) = (Lit.m10, Lit.n10)).
Proof.
  split; [reflexivity|]. split.
  - intros Hall. unfold session. apply session_invariant.
    + exact Hall.
    + split; reflexivity.
    + reflexivity.
  - intros Hin. rewrite (session_inside updates Hin). reflexivity.
Qed.

(** [session_contains_default] at the updates (-5, 3) and (0, 5). *)
Lemma session_contains_default_witness :
  Forall update_ok [(Lit.m5, Lit.n3); (Lit.n0, Lit.n5)]
  /\ Forall inside_default [(Lit.m5, Lit.n3); (Lit.n0, Lit.n5)]
  /\ containsb (heightBounds (session [(Lit.m5, Lit.n3); (Lit.n0, Lit.n5)]))
       (Lit.m10, Lit.n10) = true
  /\ heightBounds (session [(Lit.m5, Lit.n3); (Lit.n0, Lit.n5)])
     = (Lit.m10, Lit.n10).
Proof.
  assert (H : Forall update_ok [(Lit.m5, Lit.n3); (Lit.n0, Lit.n5)])
    by (repeat constructor).
  assert (Hin : Forall inside_default [(Lit.m5, Lit.n3); (Lit.n0, Lit.n5)])
    by (repeat constructor).
  split; [exact H|]. split; [exact Hin|].
  destruct (session_contains_default [(Lit.m5, Lit.n3); (Lit.n0, Lit.n5)])
    as (_ & Hc & Heq).
  split; [exact (Hc H) | exact (Heq Hin)].
Defined.

(** C10 (as stated) fails on a NaN extremum, and the scientific-format
    parser reports one: after dropping the file with the data lines
    "1 2 nan" and "3 4 5" the published bounds are [NaN, NaN], which do
    not contain [-10, 10]. *)
Lemma session_nan_bounds :
  snd (handleFileDrop Samples.still_clock Samples.failing_loader "default"
         [PcdFile Samples.pcd_nan] [] initialState)
  = session [(JS.NaN, JS.NaN)]
  /\ heightBounds (session [(JS.NaN, JS.NaN)]) = (JS.NaN, JS.NaN)
  /\ containsb (heightBounds (session [(JS.NaN, JS.NaN)])) (Lit.m10, Lit.n10)
     = false.
Proof. vm_compute. repeat split. Qed.

(** The delimited-text parser never reports a NaN extremum: after any
    batch of delimited-text files, whatever their rows, the published
    bounds contain [-10, 10]. *)
Theorem csv_batch_contains_default (now : nat -> string)
  (loader : string -> loader_answer) (colorMapType : string)
  (files : list file) (pointClouds : list pointCloud) :
  forallb is_csv files = true ->
  containsb
    (heightBounds
       (snd (handleFileDrop now loader colorMapType files pointClouds
               initialState)))
    (Lit.m10, Lit.n10) = true.
Proof.
  intros Hcsv. unfold handleFileDrop.
  apply loadFiles_csv_invariant;
    [exact Hcsv | split; reflexivity | reflexivity].
Qed.

(** [csv_batch_contains_default] at two delimited-text files. *)
Lemma csv_batch_contains_default_witness :
  forallb is_csv [CsvFile Samples.nan_rows; CsvFile Samples.rgb_rows] = true
  /\ containsb
       (heightBounds
          (snd (handleFileDrop Samples.still_clock Samples.failing_loader
                  "default"
                  [CsvFile Samples.nan_rows; CsvFile Samples.rgb_rows] []
                  initialState)))
       (Lit.m10, Lit.n10) = true.
Proof.
  split; [reflexivity|].
  apply (csv_batch_contains_default Samples.still_clock Samples.failing_loader
           "default" [CsvFile Samples.nan_rows; CsvFile Samples.rgb_rows] []).
  reflexivity.
Defined.

(** ** The delimited-text parser *)

(** C8. The delimited-text parser does not resolve for every file with
    an accepted row.  [Math.min(...zValues)] (l.101-102, and l.366-367 in
    [createColorMapForCSV]) spreads one argument per accepted row; with
    more accepted rows than the engine admits arguments in a call, the
    spread throws a [RangeError] inside the [try], and the [catch] of
    l.115-117 rejects the promise with it: rows were accepted, no record
    is produced, and the caller's state is untouched.  (The rejection
    with "no valid points" does happen exactly when no row is accepted:
    [limited_loadCSV_no_valid_points].) *)
Theorem loadCSV_large_file_rejected {St : Type} (maxArguments : nat)
  (update : JS.number -> JS.number -> St -> St)
  (data : list row) (colorMapType : string) (st : St) :
  (maxArguments < List.length (filter accepted data))%nat ->
  filter accepted data <> []
  /\ Limited.loadCSV maxArguments (Some update) data colorMapType st
     = (Rejected RangeError, st).
Proof.
  intros H. split.
  - intros E. rewrite E in H. simpl in H. lia.
  - unfold Limited.loadCSV. cbv zeta. rewrite accepted_count.
    destruct (List.length (filter accepted data)) as [|n] eqn:En; [lia|].
    cbn [Nat.eqb].
    assert (Hz : (maxArguments
                  < List.length
                      (map ToNumber
                         (acc_zValues
                            (fold_left (csv_step (hasRGB_of data)) data
                               csv_acc0))))%nat)
      by (rewrite spread_count, En; exact H).
    destruct (hasRGB_of data).
    + rewrite (limited_reportBounds_beyond maxArguments update _ st Hz).
      reflexivity.
    + rewrite (limited_createColorMapForCSV_beyond maxArguments _ _ Hz).
      reflexivity.
Qed.

(** [loadCSV_large_file_rejected] at an engine that admits one argument
    and the file of the two rows with colour columns. *)
Lemma loadCSV_large_file_rejected_witness :
  (1 < List.length (filter accepted Samples.rgb_rows))%nat
  /\ Limited.loadCSV 1 (Some updateHeightBounds) Samples.rgb_rows "default"
       initialState
     = (Rejected RangeError, initialState).
Proof.
  split; [exact (le_n 2)|].
  exact (proj2 (loadCSV_large_file_rejected 1 updateHeightBounds
                  Samples.rgb_rows "default" initialState (le_n 2))).
Defined.

(** C6. [hasRGB] is decided once, from the field count of the first row
    (true iff it has at least six fields), and the same decision is used
    for every row: with it, the colours are those of the accepted rows
    that have six fields, in order; without it, they are the colour map
    of the elevations.  Each of R, G, B becomes 128 when it reads as NaN
    and is clamped to [0, 255] otherwise, then divided by 255.  The text
    "0,0,0,255,0,0\n1,1,1,0,255,0" gives hasRGB = true,
    positions [0,0,0,1,1,1] and colors [1,0,0,0,1,0]. *)
Theorem loadCSV_explicit_color {St : Type}
  (update : option (JS.number -> JS.number -> St -> St))
  (data : list row) (colorMapType : string) (st : St) (c : cell) :
  when_resolved (fst (loadCSV update data colorMapType st))
    (fun r =>
       csv_hasRGB r = first_row_has_rgb data
       /\ csv_colors r =
            if first_row_has_rgb data
            then Float32Array (flat_map row_rgb (filter accepted data))
            else createColorMapForCSV
                   (map ToNumber (flat_map row_z (filter accepted data)))
                   colorMapType)
  /\ (if JS.isNaN (ToNumber c) then validChannel c = Lit.n128
      else if ToNumber c <? Lit.n0 then validChannel c = Lit.n0
      else if Lit.n255 <? ToNumber c then validChannel c = Lit.n255
      else JS.eqb (validChannel c) (ToNumber c) = true)
  /\ Decoder.parse Samples.rgb_text = Samples.rgb_rows
  /\ resolves_with
       (fst (loadCSV (Some updateHeightBounds) (Decoder.parse Samples.rgb_text)
               "default" initialState))
       (fun r =>
          csv_hasRGB r = true
          /\ csv_positions r = map JS.ofZ [0; 0; 0; 1; 1; 1]%Z
          /\ csv_colors r = map JS.ofZ [1; 0; 0; 0; 1; 0]%Z).
Proof.
  split; [|split; [apply validChannel_spec|split]].
  - rewrite loadCSV_spec.
    destruct (filter accepted data) as [|p pts] eqn:E; simpl; [exact I|].
    assert (Hd : data <> []).
    { apply filter_nonempty_data. rewrite E. discriminate. }
    rewrite (hasRGB_of_first_row data Hd). split; reflexivity.
  - vm_compute. reflexivity.
  - vm_compute. repeat split.
Qed.

(** C1 (the code at its failing input). The rows
    [[0,0,0,255,0,0],[1,1,1]] are both accepted: the record has two
    points, six position components and two elevations, but only the
    three colour components of the first point. *)
Theorem loadCSV_mixed_rows_misaligned :
  Decoder.parse Samples.mixed_text = Samples.mixed_rows
  /\ List.length (filter accepted Samples.mixed_rows) = 2%nat
  /\ resolves_with
       (fst (loadCSV (Some updateHeightBounds) Samples.mixed_rows "default"
               initialState))
       (fun r =>
          csv_hasRGB r = true
          /\ csv_positions r = map JS.ofZ [0; 0; 0; 1; 1; 1]%Z
          /\ csv_zValues r = [Samples.num 0; Samples.num 1]
          /\ csv_colors r = map JS.ofZ [1; 0; 0]%Z).
Proof. vm_compute. repeat split. Qed.

(** The part of C1 that holds for every record of the delimited-text
    parser: with N accepted rows, positions has 3N components and zValues
    N; colors has 3N components when the first row has fewer than six
    fields, and 3 per accepted row of at least six fields otherwise. *)
Theorem loadCSV_buffer_lengths {St : Type}
  (update : option (JS.number -> JS.number -> St -> St))
  (data : list row) (colorMapType : string) (st : St) :
  when_resolved (fst (loadCSV update data colorMapType st))
    (fun r =>
       (List.length (csv_positions r) = 3 * List.length (filter accepted data)
        /\ List.length (csv_zValues r) = List.length (filter accepted data)
        /\ List.length (csv_colors r) =
             if first_row_has_rgb data
             then 3 * List.length
                        (filter (fun r => Nat.leb 6 (List.length r))
                                (filter accepted data))
             else 3 * List.length (filter accepted data))%nat).
Proof.
  rewrite loadCSV_spec.
  pose proof (filter_accepted_all data) as Hall.
  destruct (filter accepted data) as [|p pts] eqn:E; [exact I|].
  assert (Hd : data <> []).
  { apply filter_nonempty_data. rewrite E. discriminate. }
  cbv zeta. unfold fst, when_resolved.
  cbn [csv_positions csv_zValues csv_colors].
  rewrite (hasRGB_of_first_row data Hd).
  unfold Float32Array. rewrite !length_map.
  rewrite (xyz_length _ Hall), (z_length _ Hall). repeat split.
  destruct (first_row_has_rgb data).
  - rewrite length_map. apply rgb_length.
  - rewrite createColorMapForCSV_length, length_map, (z_length _ Hall).
    reflexivity.
Qed.

(** The delimited-text half of C3: every coordinate kept by [loadCSV] is
    a finite number when it is checked, and is stored rounded to
    binary32; the rows [[1,2,NaN],[3,4,5]] give the single point
    (3,4,5). *)
Theorem loadCSV_drops_non_finite_rows {St : Type}
  (update : option (JS.number -> JS.number -> St -> St))
  (data : list row) (colorMapType : string) (st : St) :
  when_resolved (fst (loadCSV update data colorMapType st))
    (fun r =>
       exists xs, csv_positions r = map JS.fround xs
                  /\ forallb JS.isFinite xs = true)
  /\ resolves_with
       (fst (loadCSV (Some updateHeightBounds) Samples.nan_rows "default"
               initialState))
       (fun r =>
          csv_positions r = map JS.ofZ [3; 4; 5]%Z
          /\ csv_zValues r = [Samples.num 5]).
Proof.
  split.
  - rewrite loadCSV_spec.
    pose proof (filter_accepted_all data) as Hall.
    destruct (filter accepted data) as [|p pts]; [exact I|].
    cbv zeta. cbn [fst when_resolved csv_positions].
    eexists. split; [reflexivity|].
    induction Hall as [|r rs Hr _ IH]; [reflexivity|].
    cbn [flat_map]. rewrite map_app, forallb_app, IH, andb_true_r.
    unfold accepted in Hr. apply andb_prop in Hr. destruct Hr as [_ Hr].
    unfold row_xyz. rewrite forallb_map_compose. exact Hr.
  - vm_compute. repeat split.
Qed.

(** The check of [loadCSV] is made on the binary64 value: the coordinate
    1e39 passes it and is stored as Infinity. *)
Theorem loadCSV_float32_overflow :
  resolves_with
    (fst (loadCSV (Some updateHeightBounds) (Decoder.parse "1e39,0,0")
            "default" initialState))
    (fun r => csv_positions r = [JS.Infinity; Lit.n0; Lit.n0])
  /\ resolves_with
       (fst (loadCSV (Some updateHeightBounds) Samples.huge_rows "default"
               initialState))
       (fun r => csv_positions r = [JS.Infinity; Lit.n0; Lit.n0]).
Proof. vm_compute. repeat split. Qed.

(** ** The colour map *)

(** C2 (the code at its failing input). On the single elevation 5 the
    normalized value is 0/0: the default palette stores (NaN, NaN, 0),
    the elevation palette (1, NaN, NaN), and the rainbow palette
    (0, 0, 0); the record of the one-row file "1,2,5" carries the NaN
    colour. *)
Theorem createColorMapForCSV_single_value :
  createColorMapForCSV [JS.ofZ 5] "default" = [JS.NaN; JS.NaN; Lit.n0]
  /\ createColorMapForCSV [JS.ofZ 5] "elevation" = [Lit.n1; JS.NaN; JS.NaN]
  /\ createColorMapForCSV [JS.ofZ 5] "rainbow" = [Lit.n0; Lit.n0; Lit.n0]
  /\ Decoder.parse "1,2,5" = Samples.flat_rows
  /\ resolves_with
       (fst (loadCSV (Some updateHeightBounds) Samples.flat_rows "default"
               initialState))
       (fun r =>
          csv_hasRGB r = false
          /\ csv_colors r = [JS.NaN; JS.NaN; Lit.n0]).
Proof. vm_compute. repeat split. Qed.

(** The same for every flat input: [n + 1] copies of one finite
    elevation get, for each point, (NaN, NaN, 0) under the default
    palette, (1, NaN, NaN) under the elevation palette and (0, 0, 0)
    under the rainbow palette. *)
Theorem createColorMapForCSV_flat_input (z : JS.number) (n : nat) :
  JS.isFinite z = true ->
  createColorMapForCSV (repeat z (S n)) "default"
    = List.concat (repeat [JS.NaN; JS.NaN; Lit.n0] (S n))
  /\ createColorMapForCSV (repeat z (S n)) "elevation"
    = List.concat (repeat [Lit.n1; JS.NaN; JS.NaN] (S n))
  /\ createColorMapForCSV (repeat z (S n)) "rainbow"
    = List.concat (repeat [Lit.n0; Lit.n0; Lit.n0] (S n)).
Proof.
  intros Hz. rewrite !(createColorMapForCSV_flat z n _ Hz). repeat split.
Qed.

(** [createColorMapForCSV_flat_input] at two points of elevation 5. *)
Lemma createColorMapForCSV_flat_input_witness :
  JS.isFinite (JS.ofZ 5) = true
  /\ createColorMapForCSV (repeat (JS.ofZ 5) 2) "default"
     = List.concat (repeat [JS.NaN; JS.NaN; Lit.n0] 2).
Proof.
  split; [reflexivity|].
  apply (createColorMapForCSV_flat_input (JS.ofZ 5) 1). reflexivity.
Defined.

(** C7. The elevation case of the colour map is the ramp
    blue, cyan, green, yellow, red, white over the bands
    [0,0.2), [0.2,0.4), [0.4,0.6), [0.6,0.8), [0.8,..): in each band the
    moving channel is the distance from the band's start times 5.  At the
    band limits the colours are exact: 0.2 gives cyan (0,1,1) and 0.8
    gives red (1,0,0); at 1 the stored colour is white. *)
Theorem elevation_palette (t : JS.number) :
  colorOf "elevation" t = elevation t
  /\ ((t <? Lit.n0_2) = true ->
      elevation t = (Lit.n0, t * Lit.n5, Lit.n1))
  /\ (JS.leb Lit.n0_2 t = true -> (t <? Lit.n0_4) = true ->
      elevation t = (Lit.n0, Lit.n1, Lit.n1 - (t - Lit.n0_2) * Lit.n5))
  /\ (JS.leb Lit.n0_4 t = true -> (t <? Lit.n0_6) = true ->
      elevation t = ((t - Lit.n0_4) * Lit.n5, Lit.n1, Lit.n0))
  /\ (JS.leb Lit.n0_6 t = true -> (t <? Lit.n0_8) = true ->
      elevation t = (Lit.n1, Lit.n1 - (t - Lit.n0_6) * Lit.n5, Lit.n0))
  /\ (JS.leb Lit.n0_8 t = true ->
      elevation t = (Lit.n1, (t - Lit.n0_8) * Lit.n5, (t - Lit.n0_8) * Lit.n5))
  /\ elevation Lit.n0 = (Lit.n0, Lit.n0, Lit.n1)
  /\ elevation Lit.n0_2 = (Lit.n0, Lit.n1, Lit.n1)
  /\ elevation Lit.n0_4 = (Lit.n0, Lit.n1, Lit.n0)
  /\ elevation Lit.n0_6 = (Lit.n1, Lit.n1, Lit.n0)
  /\ elevation Lit.n0_8 = (Lit.n1, Lit.n0, Lit.n0)
  /\ store3 (elevation Lit.n1) = [Lit.n1; Lit.n1; Lit.n1].
Proof.
  assert (below : forall a b c,
            JS.leb a b = true -> JS.leb b c = true -> (c <? a) = false).
  { intros a b c Hab Hbc.
    pose proof (NumFacts.leb_trans a b c Hab Hbc) as H.
    unfold JS.ltb, SFltb. unfold JS.leb, SFleb in H.
    rewrite (NumFacts.compare_antisym a c).
    destruct (SFcompare a c) as [[ | | ]|]; (discriminate || reflexivity). }
  assert (refl : forall a b, JS.leb a b = true -> (b <? a) = false).
  { intros a b H. unfold JS.ltb, SFltb. unfold JS.leb, SFleb in H.
    rewrite (NumFacts.compare_antisym a b).
    destruct (SFcompare a b) as [[ | | ]|]; (discriminate || reflexivity). }
  split; [reflexivity|]. unfold elevation.
  split; [intros ->; reflexivity|].
  split; [intros H1 ->; rewrite (refl _ _ H1); reflexivity|].
  split; [intros H1 ->;
          rewrite (refl _ _ H1), (below Lit.n0_2 Lit.n0_4 t eq_refl H1);
          reflexivity|].
  split; [intros H1 ->;
          rewrite (refl _ _ H1), (below Lit.n0_4 Lit.n0_6 t eq_refl H1),
            (below Lit.n0_2 Lit.n0_6 t eq_refl H1);
          reflexivity|].
  split; [intros H1;
          rewrite (refl _ _ H1), (below Lit.n0_6 Lit.n0_8 t eq_refl H1),
            (below Lit.n0_4 Lit.n0_8 t eq_refl H1),
            (below Lit.n0_2 Lit.n0_8 t eq_refl H1);
          reflexivity|].
  vm_compute. repeat split.
Qed.

(** ** The scientific-format parser *)

(** C9. When the decoded text neither starts with the marker token
    ["# .PCD"] nor contains the version keyword [VERSION], [loadPCD] is
    rejected at once with the "invalid format" error: whatever the rest of
    the text and whatever the delegate loader would answer, no record is
    produced and the caller's state is untouched.  With either of the two
    present the format check passes, and the parse is never rejected with
    that error. *)
Theorem loadPCD_invalid_format {St : Type}
  (update : option (JS.number -> JS.number -> St -> St))
  (loader : string -> loader_answer) (text : string) (st : St) :
  match Str.startsWith text "# .PCD", Str.includes text "VERSION" with
  | false, false => loadPCD update loader text st = (Rejected InvalidFormat, st)
  | _, _ => fst (loadPCD update loader text st) <> Rejected InvalidFormat
  end.
Proof.
  assert (delegate :
            fst (loadPCD_delegate update loader text st) <> Rejected InvalidFormat).
  { unfold loadPCD_delegate. destruct (loader text); simpl; discriminate. }
  assert (passes :
            negb (Str.startsWith text "# .PCD")
            && negb (Str.includes text "VERSION") = false ->
            fst (loadPCD update loader text st) <> Rejected InvalidFormat).
  { intros H. unfold loadPCD. rewrite H.
    destruct (if isASCII _ && _ then _ else _) as [positions colors].
    destruct positions; [exact delegate | simpl; discriminate]. }
  destruct (Str.startsWith text "# .PCD") eqn:E1;
    destruct (Str.includes text "VERSION") eqn:E2;
    try (apply passes; reflexivity).
  unfold loadPCD. rewrite E1, E2. reflexivity.
Qed.

(** The format check is a disjunction: a text with the version keyword but
    without the marker token is parsed, and gives a record. *)
Theorem loadPCD_version_keyword_suffices (loader : string -> loader_answer) :
  Str.startsWith Samples.pcd_version_only "# .PCD" = false
  /\ resolves_with
       (fst (loadPCD (Some updateHeightBounds) loader Samples.pcd_version_only
               initialState))
       (fun r => pcd_positions r = map JS.ofZ [1; 2; 3]%Z).
Proof. vm_compute. repeat split. Qed.

(** C3 (the code at its failing input). The ASCII file with the data
    lines "1 2 nan" and "3 4 5" resolves, whatever the delegate loader,
    with both points: the NaN elevation is kept in the positions and in
    zValues, and is reported to the bounds tracker. *)
Theorem loadPCD_keeps_nan_row (loader : string -> loader_answer) :
  resolves_with
    (fst (loadPCD (Some updateHeightBounds) loader Samples.pcd_nan initialState))
    (fun r =>
       pcd_positions r =
         [JS.ofZ 1; JS.ofZ 2; JS.NaN; JS.ofZ 3; JS.ofZ 4; JS.ofZ 5]
       /\ pcd_zValues r = [JS.NaN; JS.ofZ 5])
  /\ snd (loadPCD (Some updateHeightBounds) loader Samples.pcd_nan initialState)
     = updateHeightBounds JS.NaN JS.NaN initialState.
Proof. vm_compute. repeat split. Qed.

(** The text scan of [loadPCD] pushes a colour only for a line of at
    least six fields, as [loadCSV] does: with colour fields declared and
    a second data line of three fields, the record has two points and
    the colour of the first only, and the row kept for export has NaN
    colours. *)
Theorem loadPCD_mixed_lines_misaligned (loader : string -> loader_answer) :
  resolves_with
    (fst (loadPCD (Some updateHeightBounds) loader Samples.pcd_mixed
            initialState))
    (fun r =>
       pcd_hasColor r = true
       /\ pcd_positions r = map JS.ofZ [0; 0; 0; 1; 1; 2]%Z
       /\ pcd_colors r = map JS.ofZ [1; 0; 0]%Z
       /\ pcd_originalData r =
            [map JS.ofZ [0; 0; 0; 255; 0; 0]%Z;
             [JS.ofZ 1; JS.ofZ 1; JS.ofZ 2; JS.NaN; JS.NaN; JS.NaN]]).
Proof. vm_compute. repeat split. Qed.

(** The spec's scenario for the scientific format: [POINTS 2],
    [FIELDS x y z], [DATA ascii] and the body "0 0 0\n1 1 2" give
    hasColor = false, positions [0,0,0,1,1,2] and the constant gray
    0.7 (as a binary32 value) for both points. *)
Theorem loadPCD_ascii_scenario (loader : string -> loader_answer) :
  resolves_with
    (fst (loadPCD (Some updateHeightBounds) loader Samples.pcd_two initialState))
    (fun r =>
       pcd_hasColor r = false
       /\ pcd_positions r = map JS.ofZ [0; 0; 0; 1; 1; 2]%Z
       /\ pcd_colors r = repeat (JS.fround Lit.n0_7) 6).
Proof. vm_compute. repeat split. Qed.

(** ** Export and re-parse *)

(** C5 (the code at its failing input). The record of the rows
    [[0,0,0,255,0,0],[1,1,1]] has explicit RGB and the colours of its
    first point only.  Its export prints NaN for the colour of the
    second point, and the re-parse reads each NaN as the channel default
    128: the positions come back, but the re-parsed colours have six
    components where the original has three. *)
Theorem export_reparse_mixed_record :
  resolves_with
    (fst (loadCSV (Some updateHeightBounds) Samples.mixed_rows "default"
            initialState))
    (fun r =>
       csv_hasRGB r = true
       /\ csv_colors r = map JS.ofZ [1; 0; 0]%Z
       /\ exportToCSV [Samples.cloud_of r] [] =
            ("X,Y,Z,R,G,B" ++ newline ++ "0,0,0,255,0,0" ++ newline
             ++ "1,1,1,NaN,NaN,NaN" ++ newline)%string
       /\ resolves_with (Samples.reparse r)
            (fun r' =>
               csv_positions r' = csv_positions r
               /\ csv_colors r' =
                    map JS.ofZ [1; 0; 0]%Z
                    ++ repeat (JS.fround (Lit.n128 / Lit.n255)) 3)).
Proof. vm_compute. repeat split. Qed.

(** On a record whose buffers are aligned the round trip is exact for
    the rows [[0,0,0,255,0,0],[1,1,1,0,255,0]]: the header row is read as
    text and skipped, and positions and colours come back unchanged. *)
Theorem export_reparse_rgb_record :
  resolves_with
    (fst (loadCSV (Some updateHeightBounds) Samples.rgb_rows "default"
            initialState))
    (fun r =>
       exportToCSV [Samples.cloud_of r] [] =
         ("X,Y,Z,R,G,B" ++ newline ++ "0,0,0,255,0,0" ++ newline
          ++ "1,1,1,0,255,0" ++ newline)%string
       /\ resolves_with (Samples.reparse r)
            (fun r' =>
               csv_positions r' = csv_positions r
               /\ csv_colors r' = csv_colors r)).
Proof. vm_compute. repeat split. Qed.

(** ** Further properties of the pipeline *)

(** The default case of the colour map is blue, green, red: for t < 0.5
    it is (0, 2t, 1 - 2t) and from 0.5 on (2(t - 0.5), 1 - 2(t - 0.5), 0);
    every palette name other than "rainbow" and "elevation" selects it. *)
Theorem default_palette (t : JS.number) (mapType : string) :
  colorOf "default" t = defaultMap t
  /\ (if String.eqb mapType "rainbow" || String.eqb mapType "elevation"
      then True else colorOf mapType t = defaultMap t)
  /\ ((t <? Lit.n0_5) = true ->
      defaultMap t = (Lit.n0, t * Lit.n2, Lit.n1 - t * Lit.n2))
  /\ (JS.leb Lit.n0_5 t = true ->
      defaultMap t =
        ((t - Lit.n0_5) * Lit.n2, Lit.n1 - (t - Lit.n0_5) * Lit.n2, Lit.n0))
  /\ defaultMap Lit.n0 = (Lit.n0, Lit.n0, Lit.n1)
  /\ defaultMap Lit.n0_5 = (Lit.n0, Lit.n1, Lit.n0)
  /\ defaultMap Lit.n1 = (Lit.n1, Lit.n0, Lit.n0).
Proof.
  split; [reflexivity|]. split.
  - unfold colorOf.
    destruct (String.eqb mapType "rainbow"),
             (String.eqb mapType "elevation"); simpl; auto.
  - unfold defaultMap. split; [intros ->; reflexivity|].
    split; [|vm_compute; repeat split].
    intros H. unfold JS.ltb, SFltb. unfold JS.leb, SFleb in H.
    rewrite (NumFacts.compare_antisym Lit.n0_5 t).
    destruct (SFcompare Lit.n0_5 t) as [[ | | ]|];
      (discriminate || reflexivity).
Qed.

(** The rainbow case of the colour map runs from violet (0.5, 0, 1) at
    normalized value 0 (hue 270 degrees) to red (1, 0, 0) at 1 (hue 0),
    through (0, 1, 0.25) at 0.5; the hue 1/3 is green and 2/3 is blue. *)
Theorem rainbow_palette :
  colorOf "rainbow" Lit.n0 = (Lit.n0_5, Lit.n0, Lit.n1)
  /\ colorOf "rainbow" Lit.n1 = (Lit.n1, Lit.n0, Lit.n0)
  /\ colorOf "rainbow" Lit.n0_5 = (Lit.n0, Lit.n1, Lit.n1 / Lit.n4)
  /\ HSVtoRGB (Lit.n1 / Lit.n3) Lit.n1 Lit.n1 = (Lit.n0, Lit.n1, Lit.n0)
  /\ HSVtoRGB (Lit.n2 / Lit.n3) Lit.n1 Lit.n1 = (Lit.n0, Lit.n0, Lit.n1).
Proof. vm_compute. repeat split. Qed.

(** When the first row has fewer than six fields the record has no
    explicit colour: its colours are the colour map of its elevations,
    three components per accepted row. *)
Theorem loadCSV_generated_colors {St : Type}
  (update : option (JS.number -> JS.number -> St -> St))
  (data : list row) (colorMapType : string) (st : St) :
  first_row_has_rgb data = false ->
  when_resolved (fst (loadCSV update data colorMapType st))
    (fun r =>
       csv_hasRGB r = false
       /\ csv_colors r =
            createColorMapForCSV (map ToNumber (csv_zValues r)) colorMapType
       /\ List.length (csv_colors r)
          = (3 * List.length (filter accepted data))%nat).
Proof.
  intros Hflag. rewrite loadCSV_spec.
  pose proof (filter_accepted_all data) as Hall.
  destruct (filter accepted data) as [|p pts] eqn:E; [exact I|].
  assert (Hd : data <> []).
  { apply filter_nonempty_data. rewrite E. discriminate. }
  cbv zeta. cbn [fst when_resolved csv_hasRGB csv_colors csv_zValues].
  rewrite (hasRGB_of_first_row data Hd), Hflag.
  split; [reflexivity|]. split; [reflexivity|].
  rewrite createColorMapForCSV_length, length_map, (z_length _ Hall).
  reflexivity.
Qed.

(** [loadCSV_generated_colors] at the rows [[1,2,NaN],[3,4,5]]. *)
Lemma loadCSV_generated_colors_witness :
  first_row_has_rgb Samples.nan_rows = false
  /\ when_resolved
       (fst (loadCSV (Some updateHeightBounds) Samples.nan_rows "rainbow"
               initialState))
       (fun r =>
          csv_hasRGB r = false
          /\ csv_colors r =
               createColorMapForCSV (map ToNumber (csv_zValues r)) "rainbow"
          /\ List.length (csv_colors r)
             = (3 * List.length (filter accepted Samples.nan_rows))%nat).
Proof.
  split; [reflexivity|].
  apply (loadCSV_generated_colors (Some updateHeightBounds) Samples.nan_rows
           "rainbow" initialState).
  reflexivity.
Defined.

(** The fallback colour of the scientific format is the binary32 value of
    0.7 in all three components of every point. *)
Theorem createSingleColorForPCD_gray (pointCount : nat) :
  createSingleColorForPCD pointCount =
    repeat (JS.fround Lit.n0_7) (3 * pointCount).
Proof.
  unfold createSingleColorForPCD.
  assert (H : forall n a,
            flat_map (fun _ : nat => store3 (Lit.n0_7, Lit.n0_7, Lit.n0_7))
                     (seq a n)
            = repeat (JS.fround Lit.n0_7) (3 * n)).
  { induction n as [|n IH]; intros a; [reflexivity|].
    cbn [seq flat_map]. rewrite IH.
    replace (3 * S n)%nat with (3 + 3 * n)%nat by lia. reflexivity. }
  apply H.
Qed.

(** An 8-bit channel survives parse, export and a second parse
    unchanged, in each of the three channel positions: for every integer
    k from 0 to 255, [loadCSV] on the row (0, 0, 0, k, k+1, k+2) (the
    last two modulo 256) stores the colours k/255, ... rounded to
    binary32; [exportToCSV] of that cloud prints the header and the line
    "0,0,0,k,k+1,k+2"; and parsing the exported text again gives the
    same positions and the same colours. *)
Theorem channel_export_exact (k : nat) :
  (k < 256)%nat ->
  resolves_with
    (fst (loadCSV (St := AppState) None [Samples.channel_row k] "default"
            initialState))
    (fun r =>
       csv_colors r = Samples.channel_colors k
       /\ exportToCSV [Samples.cloud_of r] [] = Samples.channel_text k
       /\ resolves_with (Samples.reparse r)
            (fun r' => csv_positions r' = csv_positions r
                       /\ csv_colors r' = csv_colors r
                       /\ csv_hasRGB r' = true)).
Proof.
  intros Hk.
  set (run := fun k : nat =>
         match fst (loadCSV (St := AppState) None [Samples.channel_row k]
                      "default" initialState) with
         | Resolved r =>
             Some (csv_colors r, csv_positions r,
                   exportToCSV [Samples.cloud_of r] [],
                   match Samples.reparse r with
                   | Resolved r' =>
                       Some (csv_positions r', csv_colors r', csv_hasRGB r')
                   | Rejected _ => None
                   end)
         | Rejected _ => None
         end).
  set (expected := fun k : nat =>
         Some (Samples.channel_colors k, map JS.ofZ [0; 0; 0]%Z,
               Samples.channel_text k,
               Some (map JS.ofZ [0; 0; 0]%Z, Samples.channel_colors k, true))).
  assert (Hall : map run (seq 0 256) = map expected (seq 0 256))
    by (vm_compute; reflexivity).
  assert (Hrun : run k = expected k).
  { assert (Hn : nth k (map run (seq 0 256)) (run 0%nat)
                 = nth k (map expected (seq 0 256)) (expected 0%nat)).
    { rewrite Hall. apply nth_indep. rewrite length_map, length_seq. exact Hk. }
    rewrite !map_nth, seq_nth in Hn by exact Hk. exact Hn. }
  subst run expected. cbv beta in Hrun.
  destruct (fst (loadCSV None [Samples.channel_row k] "default" initialState))
    as [r|e]; [|discriminate Hrun].
  cbn [resolves_with].
  destruct (Samples.reparse r) as [r'|e']; [|discriminate Hrun].
  cbn [resolves_with].
  assert (Hsome : forall (A : Type) (x y : A), Some x = Some y -> x = y)
    by (intros A x y E; congruence).
  apply Hsome in Hrun.
  apply pair_equal_spec in Hrun as [Hrun Hre].
  apply pair_equal_spec in Hrun as [Hrun Htext].
  apply pair_equal_spec in Hrun as [Hcol Hpos].
  apply Hsome in Hre.
  apply pair_equal_spec in Hre as [Hre Hflag].
  apply pair_equal_spec in Hre as [Hpos' Hcol'].
  split; [exact Hcol|]. split; [exact Htext|].
  split; [rewrite Hpos, Hpos'; reflexivity|].
  split; [rewrite Hcol, Hcol'; reflexivity | exact Hflag].
Qed.

(** [channel_export_exact] at the channels 254, 255 and 0. *)
Lemma channel_export_exact_witness :
  (254 < 256)%nat
  /\ resolves_with
       (fst (loadCSV (St := AppState) None [Samples.channel_row 254] "default"
               initialState))
       (fun r => exportToCSV [Samples.cloud_of r] [] = Samples.channel_text 254).
Proof.
  assert (H : (254 < 256)%nat) by lia.
  split; [exact H|].
  pose proof (channel_export_exact 254 H) as W.
  destruct (fst (loadCSV None [Samples.channel_row 254] "default"
                   initialState)) as [r|e]; [|exact W].
  exact (proj1 (proj2 W)).
Defined.

(** A file whose data section is not declared ASCII is handed to the
    delegate loader; a geometry without colour attribute then gets the
    fallback gray and hasColor = false, and an empty group is rejected as
    an empty point cloud. *)
Theorem loadPCD_binary_delegates (loader : string -> loader_answer)
  (p : JS.number * JS.number * JS.number) :
  loadPCD (Some updateHeightBounds) loader Samples.pcd_binary initialState
    = loadPCD_delegate (Some updateHeightBounds) loader Samples.pcd_binary
        initialState
  /\ resolves_with
       (fst (loadPCD_delegate (Some updateHeightBounds)
               (fun _ => LoaderGeometry [p] None) Samples.pcd_binary
               initialState))
       (fun r =>
          pcd_hasColor r = false
          /\ pcd_colors r = repeat (JS.fround Lit.n0_7) 3)
  /\ fst (loadPCD_delegate (Some updateHeightBounds)
            (fun _ => LoaderNoChildren) Samples.pcd_binary initialState)
     = Rejected EmptyPointCloud.
Proof.
  split; [|split; [|reflexivity]].
  - unfold loadPCD.
    generalize (loadPCD_delegate (Some updateHeightBounds) loader
                  Samples.pcd_binary initialState).
    intros delegate. vm_compute. reflexivity.
  - unfold loadPCD_delegate, resolves_with. cbn [fst pcd_hasColor pcd_colors].
    split; reflexivity.
Qed.

(** The export of no cloud is the header line alone, and only the
    selected clouds are exported when some are selected. *)
Theorem exportToCSV_header (a b : pointCloud) :
  exportToCSV [] [] = ("X,Y,Z,R,G,B" ++ newline)%string
  /\ exportToCSV [a; b] [] =
       ("X,Y,Z,R,G,B" ++ newline ++ export_cloud a ++ export_cloud b)%string
  /\ (if String.eqb (pc_id a) (pc_id b) then True
      else exportToCSV [a; b] [pc_id b] =
             ("X,Y,Z,R,G,B" ++ newline ++ export_cloud b)%string).
Proof.
  split; [reflexivity|]. split.
  - reflexivity.
  - destruct (String.eqb (pc_id a) (pc_id b)) eqn:E; [exact I|].
    unfold exportToCSV. cbn [filter existsb]. rewrite E.
    rewrite String.eqb_refl. cbn [orb map String.concat]. reflexivity.
Qed.

(** * The handlers of the application *)

(** ** The cloud list and the selection *)

Section ListHandlers.

Lemma existsb_eqb_In (id : string) (l : list string) :
  existsb (String.eqb id) l = true <-> In id l.
Proof.
  rewrite existsb_exists. split.
  - intros (x & Hx & E). apply String.eqb_eq in E. subst. exact Hx.
  - intros H. exists id. split; [exact H | apply String.eqb_refl].
Qed.

Lemma existsb_eqb_not_In (id : string) (l : list string) :
  existsb (String.eqb id) l = false <-> ~ In id l.
Proof.
  rewrite <- existsb_eqb_In. destruct (existsb (String.eqb id) l); split;
    congruence.
Qed.

Lemma toggle_keeps_clouds (id : string) (l : list cloudEntry) :
  map ce_cloud (togglePointCloudVisibility id l) = map ce_cloud l.
Proof.
  unfold togglePointCloudVisibility. rewrite map_map. apply map_ext.
  intros pc. destruct (String.eqb (ce_id pc) id); reflexivity.
Qed.

Lemma recolor_keeps_ids (t : string) (l : list cloudEntry) :
  map ce_id (handleColorMapChange t l) = map ce_id l.
Proof.
  unfold handleColorMapChange. rewrite map_map. apply map_ext.
  intros pc. destruct (String.eqb (ce_type pc) "csv" && negb (ce_hasRGB pc));
    reflexivity.
Qed.

Lemma toggle_keeps_ids (id : string) (l : list cloudEntry) :
  map ce_id (togglePointCloudVisibility id l) = map ce_id l.
Proof.
  unfold ce_id. rewrite <- !(map_map ce_cloud pc_id), toggle_keeps_clouds.
  reflexivity.
Qed.

End ListHandlers.

(** A click on a cloud toggles it in the selection: afterwards it is
    selected exactly when it was not before, every other cloud is
    selected exactly when it was, and a selection without repetition
    stays without repetition. *)
Theorem handleSelectPointCloud_toggles (id : string) (prev : list string) :
  NoDup prev ->
  NoDup (handleSelectPointCloud id prev)
  /\ (In id (handleSelectPointCloud id prev) <-> ~ In id prev)
  /\ (forall other, other <> id ->
        (In other (handleSelectPointCloud id prev) <-> In other prev)).
Proof.
  intros Hnd. unfold handleSelectPointCloud.
  destruct (existsb (String.eqb id) prev) eqn:E.
  - apply existsb_eqb_In in E. split; [apply NoDup_filter; exact Hnd|]. split.
    + rewrite filter_In, String.eqb_refl. simpl. split; [intros [_ H]; discriminate | tauto].
    + intros other Hne. rewrite filter_In.
      apply String.eqb_neq in Hne. rewrite Hne. simpl. tauto.
  - apply existsb_eqb_not_In in E. split; [|split].
    + apply NoDup_app; [exact Hnd | constructor; [intros [] | constructor] |].
      intros x Hx [-> | []]. exact (E Hx).
    + rewrite in_app_iff. simpl. tauto.
    + intros other Hne. rewrite in_app_iff. simpl. split; [|tauto].
      intros [H | [H | []]]; [exact H | congruence].
Qed.

(** [handleSelectPointCloud_toggles] at a click on "b" with "a" and "b"
    selected. *)
Lemma handleSelectPointCloud_toggles_witness :
  NoDup ["a"; "b"]%string
  /\ NoDup (handleSelectPointCloud "b" ["a"; "b"]%string).
Proof.
  assert (H : NoDup ["a"; "b"]%string).
  { constructor; [intros [E | []]; discriminate|].
    constructor; [intros []| constructor]. }
  split; [exact H|].
  apply (handleSelectPointCloud_toggles "b" ["a"; "b"]%string H).
Defined.

(** Deleting keeps, in order, exactly the clouds whose id is not
    selected, and empties the selection; no kept cloud is selected any
    more, so a second deletion changes nothing, and the export that
    follows holds the kept clouds and no other. *)
Theorem deleteSelectedPointClouds_removes (pointClouds : list cloudEntry)
  (selectedPoints : list string) :
  let kept := fst (deleteSelectedPointClouds pointClouds selectedPoints) in
  let selected := snd (deleteSelectedPointClouds pointClouds selectedPoints) in
  kept = filter (fun pc => negb (existsb (String.eqb (ce_id pc)) selectedPoints))
                pointClouds
  /\ selected = []
  /\ (forall pc, In pc kept <->
                 In pc pointClouds /\ ~ In (ce_id pc) selectedPoints)
  /\ deleteSelectedPointClouds kept selected = (kept, selected)
  /\ exportToCSV (map ce_cloud kept) selected =
       ("X,Y,Z,R,G,B" ++ newline
        ++ String.concat "" (map export_cloud (map ce_cloud kept)))%string.
Proof.
  cbv zeta.
  assert (Hk : fst (deleteSelectedPointClouds pointClouds selectedPoints)
               = filter (fun pc => negb (existsb (String.eqb (ce_id pc))
                                           selectedPoints)) pointClouds).
  { destruct selectedPoints as [|s sel]; [|reflexivity].
    simpl. induction pointClouds as [|pc l IH]; [reflexivity|].
    simpl. rewrite <- IH. reflexivity. }
  assert (Hs : snd (deleteSelectedPointClouds pointClouds selectedPoints) = []).
  { destruct selectedPoints; reflexivity. }
  rewrite Hs. split; [exact Hk|]. split; [reflexivity|]. split; [|split].
  - intros pc. rewrite Hk, filter_In, negb_true_iff, existsb_eqb_not_In.
    reflexivity.
  - reflexivity.
  - reflexivity.
Qed.

(** Showing and hiding a cloud is its own inverse and touches nothing
    else: two clicks on the eye of a cloud restore the list, and one
    click changes no id, no buffer and no entry with another id, so the
    export is the same before and after. *)
Theorem togglePointCloudVisibility_involutive (id : string)
  (prev : list cloudEntry) (selectedPoints : list string) :
  togglePointCloudVisibility id (togglePointCloudVisibility id prev) = prev
  /\ map ce_cloud (togglePointCloudVisibility id prev) = map ce_cloud prev
  /\ filter (fun pc => negb (String.eqb (ce_id pc) id))
            (togglePointCloudVisibility id prev)
     = filter (fun pc => negb (String.eqb (ce_id pc) id)) prev
  /\ exportToCSV (map ce_cloud (togglePointCloudVisibility id prev))
       selectedPoints
     = exportToCSV (map ce_cloud prev) selectedPoints.
Proof.
  split; [|split; [apply toggle_keeps_clouds|split]].
  - unfold togglePointCloudVisibility. rewrite map_map.
    rewrite <- (map_id prev) at 2. apply map_ext. intros pc.
    destruct (String.eqb (ce_id pc) id) eqn:E.
    + unfold ce_id in *. cbn [ce_cloud]. rewrite E. cbn.
      rewrite negb_involutive. destruct pc; reflexivity.
    + rewrite E. reflexivity.
  - induction prev as [|pc l IH]; [reflexivity|].
    cbn [togglePointCloudVisibility map filter].
    destruct (String.eqb (ce_id pc) id) eqn:E.
    + unfold ce_id in *. cbn [ce_cloud]. rewrite E. cbn [negb]. exact IH.
    + rewrite E. cbn [negb]. f_equal. exact IH.
  - rewrite toggle_keeps_clouds. reflexivity.
Qed.

(** ** The palette buttons *)

(** Choosing a palette after the load gives what loading with that
    palette gives: for every parsed file, the entry of the record loaded
    under palette [t0] and then recoloured with [t] is the entry of the
    record loaded under [t]; a file rejected under one palette is
    rejected under the other. *)
Theorem handleColorMapChange_reloads (data : list row) (t0 t id : string)
  (st : AppState) :
  match loadCSV (Some updateHeightBounds) data t0 st,
        loadCSV (Some updateHeightBounds) data t st with
  | (Resolved r0, st0), (Resolved r, st1) =>
      handleColorMapChange t [csvEntry id r0] = [csvEntry id r] /\ st0 = st1
  | (Rejected e0, st0), (Rejected e, st1) => e0 = e /\ st0 = st1
  | _, _ => False
  end.
Proof.
  rewrite !loadCSV_spec.
  destruct (filter accepted data) as [|p pts]; [split; reflexivity|].
  cbv zeta. split; [|reflexivity].
  unfold handleColorMapChange, csvEntry. cbn.
  destruct (hasRGB_of data); reflexivity.
Qed.

(** The last palette chosen wins, and a palette change leaves every id,
    every position buffer, every visibility flag, every elevation list
    and every entry that is not a CSV cloud without colour columns as it
    was. *)
Theorem handleColorMapChange_last_wins (t0 t : string)
  (prev : list cloudEntry) :
  handleColorMapChange t (handleColorMapChange t0 prev)
    = handleColorMapChange t prev
  /\ map (fun pc => (ce_id pc, pc_positions (ce_cloud pc), ce_type pc,
                     ce_visible pc, ce_hasRGB pc, ce_zValues pc))
         (handleColorMapChange t prev)
     = map (fun pc => (ce_id pc, pc_positions (ce_cloud pc), ce_type pc,
                       ce_visible pc, ce_hasRGB pc, ce_zValues pc)) prev
  /\ filter (fun pc => negb (String.eqb (ce_type pc) "csv") || ce_hasRGB pc)
            (handleColorMapChange t prev)
     = filter (fun pc => negb (String.eqb (ce_type pc) "csv") || ce_hasRGB pc)
              prev.
Proof.
  unfold handleColorMapChange. split; [|split].
  - rewrite map_map. apply map_ext. intros pc.
    destruct (String.eqb (ce_type pc) "csv" && negb (ce_hasRGB pc)) eqn:E.
    + cbn. rewrite E. reflexivity.
    + rewrite E. reflexivity.
  - rewrite map_map. apply map_ext. intros pc.
    destruct (String.eqb (ce_type pc) "csv" && negb (ce_hasRGB pc));
      reflexivity.
  - induction prev as [|pc l IH]; [reflexivity|]. cbn [map filter].
    destruct (String.eqb (ce_type pc) "csv") eqn:E1;
      destruct (ce_hasRGB pc) eqn:E2; cbn [andb negb orb];
      rewrite ?E1, ?E2; cbn [andb negb orb ce_type ce_hasRGB];
      rewrite ?E1, ?E2; cbn [andb negb orb]; try (f_equal; exact IH);
      exact IH.
Qed.

(** ** The height range *)

(** Typing into a field of the height range keeps the range ordered: when
    the shown range has no NaN end and its lower end is not above its
    upper end, the range after the edit is again such a range; the bounds
    of the session are not touched; a text that [parseFloat] cannot read
    changes nothing; a number that respects the other end is taken as
    typed; and a number on the wrong side of the other end is replaced
    by that end, so the range collapses to it. *)
Theorem handleHeightInputChange_ordered (index : rangeIndex) (value : string)
  (st : AppState) :
  update_ok (heightRange st) ->
  JS.leb (fst (heightRange st)) (snd (heightRange st)) = true ->
  let st' := handleHeightInputChange index value st in
  update_ok (heightRange st')
  /\ JS.leb (fst (heightRange st')) (snd (heightRange st')) = true
  /\ heightBounds st' = heightBounds st
  /\ (JS.isNaN (Parse.parseFloat value) = true -> st' = st)
  /\ (index = Lower ->
      JS.leb (Parse.parseFloat value) (snd (heightRange st)) = true ->
      heightRange st' = (Parse.parseFloat value, snd (heightRange st)))
  /\ (index = Upper ->
      JS.leb (fst (heightRange st)) (Parse.parseFloat value) = true ->
      heightRange st' = (fst (heightRange st), Parse.parseFloat value))
  /\ (index = Lower ->
      JS.ltb (snd (heightRange st)) (Parse.parseFloat value) = true ->
      heightRange st' = (snd (heightRange st), snd (heightRange st)))
  /\ (index = Upper ->
      JS.ltb (Parse.parseFloat value) (fst (heightRange st)) = true ->
      heightRange st' = (fst (heightRange st), fst (heightRange st))).
Proof.
  intros [Hlo Hhi] Hle. cbv zeta. unfold handleHeightInputChange.
  set (v := Parse.parseFloat value).
  destruct (JS.isNaN v) eqn:Hv; cbn [negb].
  { repeat split; try assumption; try reflexivity.
    - intros _ H. destruct v; discriminate.
    - intros _ H. destruct v; try discriminate;
        destruct (fst (heightRange st)) as [| | |? ? ?]; discriminate.
    - intros _ H. destruct v; try discriminate;
        destruct (snd (heightRange st)) as [| | |? ? ?]; discriminate.
    - intros _ H. destruct v; discriminate. }
  destruct index; cbn [fst snd heightRange heightBounds].
  - destruct (JS.ltb (snd (heightRange st)) v) eqn:L;
      cbn [fst snd heightRange heightBounds]; repeat split; try assumption;
      try discriminate.
    + apply NumFacts.leb_refl; assumption.
    + intros _ H. exfalso.
      unfold JS.ltb, JS.leb, SFltb, SFleb in *.
      rewrite NumFacts.compare_antisym in L.
      destruct (SFcompare v (snd (heightRange st))) as [[]|];
        discriminate.
    + apply NumFacts.not_ltb_leb; assumption.
  - destruct (JS.ltb v (fst (heightRange st))) eqn:L;
      cbn [fst snd heightRange heightBounds]; repeat split; try assumption;
      try discriminate.
    + apply NumFacts.leb_refl; assumption.
    + intros _ H. exfalso.
      unfold JS.ltb, JS.leb, SFltb, SFleb in *.
      rewrite NumFacts.compare_antisym in L.
      destruct (SFcompare (fst (heightRange st)) v) as [[]|];
        discriminate.
    + apply NumFacts.not_ltb_leb; assumption.
Qed.

(** [handleHeightInputChange_ordered] at the text "12.5" typed into the
    lower field of the initial range (-10, 10): the range collapses to
    (10, 10). *)
Lemma handleHeightInputChange_ordered_witness :
  update_ok (heightRange initialState)
  /\ JS.leb (fst (heightRange initialState)) (snd (heightRange initialState))
     = true
  /\ heightRange (handleHeightInputChange Lower "12.5" initialState)
     = (Lit.n10, Lit.n10).
Proof.
  assert (H1 : update_ok (heightRange initialState)) by (split; reflexivity).
  assert (H2 : JS.leb (fst (heightRange initialState))
                 (snd (heightRange initialState)) = true) by reflexivity.
  split; [exact H1|]. split; [exact H2|].
  exact (proj1 (proj2 (proj2 (proj2 (proj2 (proj2 (proj2
           (handleHeightInputChange_ordered Lower "12.5" initialState
              H1 H2)))))))
         eq_refl eq_refl).
Defined.

(** ** The height filter of the scene *)

Section Extremes.



Lemma min_loop_lower (xs : list JS.number) : forall lowest,
  JS.isNaN lowest = false ->
  forallb (fun x => negb (JS.isNaN x)) xs = true ->
  JS.isNaN (JS.min_loop lowest xs) = false
  /\ JS.leb (JS.min_loop lowest xs) lowest = true
  /\ Forall (fun x => JS.leb (JS.min_loop lowest xs) x = true) xs.
Proof.
  induction xs as [|x xs IH]; intros lowest Hl Hxs.
  - simpl. split; [exact Hl|]. split; [apply NumFacts.leb_refl; exact Hl|].
    constructor.
  - cbn [forallb] in Hxs. apply andb_prop in Hxs as [Hx Hxs].
    apply negb_true_iff in Hx. cbn [JS.min_loop]. rewrite Hx.
    set (l' := if JS.is_neg_zero x && JS.is_pos_zero lowest then x
               else if JS.ltb x lowest then x else lowest).
    assert (H' : JS.isNaN l' = false /\ JS.leb l' lowest = true
                 /\ JS.leb l' x = true).
    { subst l'. destruct (JS.is_neg_zero x && JS.is_pos_zero lowest) eqn:Z.
      - apply andb_prop in Z as [Z1 Z2].
        destruct x as [[]| | |]; try discriminate.
        destruct lowest as [[]| | |]; try discriminate.
        repeat split; reflexivity.
      - destruct (JS.ltb x lowest) eqn:L.
        + split; [exact Hx|]. split; [apply NumFacts.ltb_leb; exact L|].
          apply NumFacts.leb_refl; exact Hx.
        + split; [exact Hl|]. split; [apply NumFacts.leb_refl; exact Hl|].
          apply NumFacts.not_ltb_leb; assumption. }
    destruct H' as (N' & L1 & L2).
    destruct (IH l' N' Hxs) as (Nr & Lr & Fr).
    split; [exact Nr|]. split; [exact (NumFacts.leb_trans _ _ _ Lr L1)|].
    constructor; [exact (NumFacts.leb_trans _ _ _ Lr L2) | exact Fr].
Qed.

Lemma max_loop_upper (xs : list JS.number) : forall highest,
  JS.isNaN highest = false ->
  forallb (fun x => negb (JS.isNaN x)) xs = true ->
  JS.isNaN (JS.max_loop highest xs) = false
  /\ JS.leb highest (JS.max_loop highest xs) = true
  /\ Forall (fun x => JS.leb x (JS.max_loop highest xs) = true) xs.
Proof.
  induction xs as [|x xs IH]; intros highest Hl Hxs.
  - simpl. split; [exact Hl|]. split; [apply NumFacts.leb_refl; exact Hl|].
    constructor.
  - cbn [forallb] in Hxs. apply andb_prop in Hxs as [Hx Hxs].
    apply negb_true_iff in Hx. cbn [JS.max_loop]. rewrite Hx.
    set (l' := if JS.is_pos_zero x && JS.is_neg_zero highest then x
               else if JS.ltb highest x then x else highest).
    assert (H' : JS.isNaN l' = false /\ JS.leb highest l' = true
                 /\ JS.leb x l' = true).
    { subst l'. destruct (JS.is_pos_zero x && JS.is_neg_zero highest) eqn:Z.
      - apply andb_prop in Z as [Z1 Z2].
        destruct x as [[]| | |]; try discriminate.
        destruct highest as [[]| | |]; try discriminate.
        repeat split; reflexivity.
      - destruct (JS.ltb highest x) eqn:L.
        + split; [exact Hx|]. split; [apply NumFacts.ltb_leb; exact L|].
          apply NumFacts.leb_refl; exact Hx.
        + split; [exact Hl|]. split; [apply NumFacts.leb_refl; exact Hl|].
          apply NumFacts.not_ltb_leb; assumption. }
    destruct H' as (N' & L1 & L2).
    destruct (IH l' N' Hxs) as (Nr & Lr & Fr).
    split; [exact Nr|]. split; [exact (NumFacts.leb_trans _ _ _ L1 Lr)|].
    constructor; [exact (NumFacts.leb_trans _ _ _ L2 Lr) | exact Fr].
Qed.

(** [Math.min] and [Math.max] of numbers none of which is NaN bound every
    one of them. *)
Lemma Math_min_max_bound (zs : list JS.number) :
  forallb (fun x => negb (JS.isNaN x)) zs = true ->
  JS.isNaN (JS.Math_min zs) = false /\ JS.isNaN (JS.Math_max zs) = false
  /\ Forall (fun z => JS.leb (JS.Math_min zs) z = true
                      /\ JS.leb z (JS.Math_max zs) = true) zs.
Proof.
  intros H.
  destruct (min_loop_lower zs JS.Infinity eq_refl H) as (A & _ & B).
  destruct (max_loop_upper zs JS.NegInfinity eq_refl H) as (C & _ & D).
  split; [exact A|]. split; [exact C|].
  rewrite Forall_forall in *. intros z Hz. split; [apply B | apply D]; exact Hz.
Qed.

(** The bounds of the session after [updateHeightBounds] contain the pair
    passed to it. *)
Lemma update_contains (st : AppState) (lo hi : JS.number) :
  update_ok (heightBounds st) -> JS.isNaN lo = false -> JS.isNaN hi = false ->
  let st' := updateHeightBounds lo hi st in
  update_ok (heightBounds st') /\ heightRange st' = heightBounds st'
  /\ JS.leb (fst (heightBounds st')) lo = true
  /\ JS.leb hi (snd (heightBounds st')) = true
  /\ containsb (heightBounds st') (heightBounds st) = true.
Proof.
  intros [Ha Hb] Hlo Hhi. cbv zeta. unfold updateHeightBounds.
  cbn [heightBounds heightRange fst snd].
  destruct (NumFacts.Math_min_smaller _ _ Ha Hlo) as (m1 & m2 & m3).
  destruct (NumFacts.Math_max_larger _ _ Hb Hhi) as (M1 & M2 & M3).
  split.
  { split; cbn [fst snd].
    - destruct m3 as [-> | ->]; assumption.
    - destruct M3 as [-> | ->]; assumption. }
  split; [reflexivity|]. split; [exact m2|]. split; [exact M2|].
  unfold containsb. cbn [fst snd]. rewrite m1, M1. reflexivity.
Qed.

End Extremes.

Section Filter.

Local Open Scope nat_scope.

Lemma filter_seq_all (f : nat -> bool) (n : nat) : forall a,
  (forall i, a <= i < a + n -> f i = true) -> filter f (seq a n) = seq a n.
Proof.
  induction n as [|n IH]; intros a H; [reflexivity|].
  cbn [seq filter]. rewrite (H a) by lia. f_equal. apply IH.
  intros i Hi. apply H. lia.
Qed.

Lemma filter_seq_sorted (f : nat -> bool) (n : nat) : forall a,
  StronglySorted lt (filter f (seq a n)).
Proof.
  induction n as [|n IH]; intros a; [constructor|].
  cbn [seq filter]. destruct (f a); [|apply IH].
  constructor; [apply IH|]. apply Forall_forall. intros x Hx.
  apply filter_In in Hx as [Hx _]. apply in_seq in Hx. lia.
Qed.

Lemma Uint16Array_small (l : list nat) :
  Uint16Array l = map Z.of_nat l <-> Forall (fun i => (Z.of_nat i < 65536)%Z) l.
Proof.
  unfold Uint16Array. induction l as [|i l IH]; [split; constructor|].
  cbn [map]. split.
  - intros H. injection H as H1 H2. constructor; [|apply IH; exact H2].
    apply Z.mod_small_iff in H1; lia.
  - intros H. inversion H as [|? ? H1 H2]; subst. f_equal.
    + apply Z.mod_small. lia.
    + apply IH. exact H2.
Qed.

End Filter.

(** The filter of the scene draws exactly the points whose stored
    elevation lies in the range, ends included, in increasing order of
    index; it is absent when the switch is off. The index attribute
    holds the indices themselves exactly when every drawn index is below
    65536; above, it holds their residues. *)
Theorem applyHeightFilter_spec (heightFilterEnabled : bool)
  (heightRange : JS.number * JS.number) (positions : list JS.number) :
  match applyHeightFilter heightFilterEnabled heightRange positions with
  | None =>
      heightFilterEnabled = false
      /\ indexAttribute heightFilterEnabled heightRange positions = None
  | Some visible =>
      heightFilterEnabled = true
      /\ (forall i, In i visible <->
            (i * 3 + 2 < List.length positions + 2)%nat
            /\ JS.leb (fst heightRange) (at_index positions (i * 3 + 2)) = true
            /\ JS.leb (at_index positions (i * 3 + 2)) (snd heightRange) = true)
      /\ StronglySorted lt visible
      /\ indexAttribute heightFilterEnabled heightRange positions
         = Some (Uint16Array visible)
      /\ (Uint16Array visible = map Z.of_nat visible
          <-> Forall (fun i => (Z.of_nat i < 65536)%Z) visible)
  end.
Proof.
  unfold indexAttribute, applyHeightFilter.
  destruct heightFilterEnabled; cbn [negb]; [|split; reflexivity].
  split; [reflexivity|]. split; [|split; [apply filter_seq_sorted|split;
    [reflexivity | apply Uint16Array_small]]].
  intros i. rewrite filter_In, in_seq, andb_true_iff.
  assert (E : (0 <= i < 0 + (List.length positions + 2) / 3
               <-> i * 3 + 2 < List.length positions + 2)%nat).
  { pose proof (Nat.div_mod_eq (List.length positions + 2) 3) as D.
    pose proof (Nat.mod_upper_bound (List.length positions + 2) 3) as U.
    lia. }
  tauto.
Qed.

(** ** Rounding to binary32 never produces NaN *)

Section Rounding.

Local Open Scope Z_scope.

Lemma shr_1_nonneg (mrs : shr_record) :
  0 <= shr_m mrs -> 0 <= shr_m (shr_1 mrs).
Proof.
  destruct mrs as [m r s]. cbn [shr_m]. intros H.
  destruct m as [|[p|p|]|p]; cbn; lia.
Qed.

Lemma iter_shr_1_nonneg (p : positive) : forall mrs,
  0 <= shr_m mrs -> 0 <= shr_m (iter_pos shr_1 p mrs).
Proof.
  induction p as [p IH|p IH|]; intros mrs H; cbn [iter_pos].
  - apply IH, IH, shr_1_nonneg, H.
  - apply IH, IH, H.
  - apply shr_1_nonneg, H.
Qed.

Lemma shr_fexp_nonneg (prec emax m e : Z) (l : location) :
  0 <= m -> 0 <= shr_m (fst (shr_fexp prec emax m e l)).
Proof.
  intros H. unfold shr_fexp, shr.
  assert (H0 : 0 <= shr_m (shr_record_of_loc m l)).
  { destruct l as [|[]]; exact H. }
  destruct (fexp prec emax (Zdigits2 m + e) - e); cbn [fst];
    [exact H0 | apply iter_shr_1_nonneg; exact H0 | exact H0].
Qed.

Lemma round_nearest_even_nonneg (m : Z) (l : location) :
  0 <= m -> 0 <= round_nearest_even m l.
Proof.
  intros H. destruct l as [|[]]; cbn; try lia. destruct (Z.even m); lia.
Qed.

Lemma binary_round_aux_not_nan (prec emax : Z) (sx : bool) (mx ex : Z)
  (lx : location) :
  0 <= mx -> JS.isNaN (binary_round_aux prec emax sx mx ex lx) = false.
Proof.
  intros H. unfold binary_round_aux.
  pose proof (shr_fexp_nonneg prec emax mx ex lx H) as H1.
  destruct (shr_fexp prec emax mx ex lx) as [mrs' e']. cbn [fst] in H1.
  pose proof (shr_fexp_nonneg prec emax _ e' loc_Exact
                (round_nearest_even_nonneg _ (loc_of_shr_record mrs') H1))
    as H2.
  destruct (shr_fexp prec emax
              (round_nearest_even (shr_m mrs') (loc_of_shr_record mrs')) e'
              loc_Exact) as [mrs'' e'']. cbn [fst] in H2.
  destruct (shr_m mrs'') as [|m|m]; [reflexivity| |lia].
  destruct (e'' <=? emax - prec); reflexivity.
Qed.

Lemma binary_normalize_not_nan (prec emax m e : Z) (szero : bool) :
  JS.isNaN (binary_normalize prec emax m e szero) = false.
Proof.
  unfold binary_normalize, binary_round.
  destruct m as [|m|m]; [reflexivity| |].
  - destruct (shl_align m e _) as [mz ez].
    apply binary_round_aux_not_nan. lia.
  - destruct (shl_align m e _) as [mz ez].
    apply binary_round_aux_not_nan. lia.
Qed.

(** A [Float32Array] element is NaN only when NaN was stored. *)
Lemma fround_isNaN (x : JS.number) : JS.isNaN (JS.fround x) = JS.isNaN x.
Proof.
  destruct x as [s|s| |s m e]; try reflexivity.
  unfold JS.fround.
  pose proof (binary_normalize_not_nan 24 128 (cond_Zopp s (Z.pos m)) e s)
    as H.
  destruct (binary_normalize 24 128 (cond_Zopp s (Z.pos m)) e s)
    as [s'|s'| |s' m' e']; try reflexivity; [discriminate H|].
  apply binary_normalize_not_nan.
Qed.

End Rounding.

Section StoredElevations.

Local Open Scope nat_scope.

Lemma nth_flatten3 (ps : list (JS.number * JS.number * JS.number)) :
  forall i, i < List.length ps ->
  at_index (Float32Array (flatten3 ps)) (i * 3 + 2)
  = JS.fround (snd (nth i ps (JS.NaN, JS.NaN, JS.NaN))).
Proof.
  induction ps as [|[[x y] z] ps IH]; intros i Hi; [simpl in Hi; lia|].
  destruct i as [|i].
  - reflexivity.
  - cbn [List.length] in Hi.
    replace (S i * 3 + 2) with (S (S (S (i * 3 + 2)))) by lia.
    cbn [flatten3 flat_map app Float32Array map at_index nth].
    apply (IH i). lia.
Qed.

Lemma extract_z_flatten3 (ps : list (JS.number * JS.number * JS.number)) :
  extract_z (Float32Array (flatten3 ps)) (List.length ps)
  = map (fun p => JS.fround (snd p)) ps.
Proof.
  unfold extract_z.
  apply (nth_ext _ _ JS.NaN (JS.fround (snd (JS.NaN, JS.NaN, JS.NaN)))).
  - rewrite !length_map, length_seq. reflexivity.
  - intros n Hn. rewrite length_map, length_seq in Hn.
    rewrite (map_nth (fun p => JS.fround (snd p))).
    rewrite <- (nth_flatten3 ps n Hn).
    rewrite (nth_indep _ JS.NaN (at_index (Float32Array (flatten3 ps))
                                   (0 * 3 + 2)))
      by (rewrite length_map, length_seq; exact Hn).
    rewrite (map_nth (fun i => at_index (Float32Array (flatten3 ps))
                                 (i * 3 + 2))).
    rewrite seq_nth by exact Hn. reflexivity.
Qed.

Lemma flatten3_length (ps : list (JS.number * JS.number * JS.number)) :
  List.length (Float32Array (flatten3 ps)) = 3 * List.length ps.
Proof.
  unfold Float32Array. rewrite length_map.
  induction ps as [|[[x y] z] ps IH]; [reflexivity|].
  cbn [flatten3 flat_map List.length app]. unfold flatten3 in IH. lia.
Qed.

(** The filter keeps every point of a buffer whose elevations all lie in
    the range. *)
Lemma applyHeightFilter_all (range : JS.number * JS.number)
  (positions : list JS.number) (n : nat) :
  List.length positions = 3 * n ->
  Forall (fun z => JS.leb (fst range) z = true /\ JS.leb z (snd range) = true)
         (extract_z positions n) ->
  applyHeightFilter true range positions = Some (seq 0 n).
Proof.
  intros Hlen Hall. unfold applyHeightFilter. cbn [negb]. f_equal.
  replace ((List.length positions + 2) / 3) with n.
  2:{ rewrite Hlen. apply Nat.div_unique with (r := 2); lia. }
  apply filter_seq_all. intros i Hi.
  rewrite Forall_forall in Hall.
  destruct (Hall (at_index positions (i * 3 + 2))) as [A B].
  { unfold extract_z. apply in_map_iff. exists i. split; [reflexivity|].
    apply in_seq. lia. }
  rewrite A, B. reflexivity.
Qed.

End StoredElevations.

Section PublishedRange.

Local Open Scope nat_scope.

Lemma reportBounds_cover (zs : list JS.number) (st : AppState) :
  update_ok (heightBounds st) ->
  forallb (fun x => negb (JS.isNaN x)) zs = true ->
  let st' := reportBounds (Some updateHeightBounds) zs st in
  update_ok (heightBounds st')
  /\ containsb (heightBounds st') (heightBounds st) = true
  /\ (zs <> [] -> heightRange st' = heightBounds st')
  /\ Forall (fun z => JS.leb (fst (heightBounds st')) z = true
                      /\ JS.leb z (snd (heightBounds st')) = true) zs.
Proof.
  intros Hst Hzs. cbv zeta.
  destruct zs as [|z0 zs'] eqn:E.
  - cbn [reportBounds]. split; [exact Hst|]. split.
    + unfold containsb. destruct Hst as [A B].
      rewrite (NumFacts.leb_refl _ A), (NumFacts.leb_refl _ B). reflexivity.
    + split; [congruence | constructor].
  - rewrite <- E in *. assert (Hne : zs <> []) by (rewrite E; discriminate).
    replace (reportBounds (Some updateHeightBounds) zs st)
      with (updateHeightBounds (JS.Math_min zs) (JS.Math_max zs) st)
      by (rewrite E; reflexivity).
    destruct (Math_min_max_bound zs Hzs) as (A & B & C).
    destruct (update_contains st _ _ Hst A B) as (U & R & L1 & L2 & K).
    split; [exact U|]. split; [exact K|]. split; [intros _; exact R|].
    rewrite Forall_forall in *. intros z Hz. destruct (C z Hz) as [C1 C2].
    split; [exact (NumFacts.leb_trans _ _ _ L1 C1)
           | exact (NumFacts.leb_trans _ _ _ C2 L2)].
Qed.

Lemma finite_not_nan (l : list JS.number) :
  forallb JS.isFinite l = true ->
  forallb (fun x => negb (JS.isNaN x)) l = true.
Proof.
  rewrite !forallb_forall. intros H x Hx. specialize (H x Hx).
  destruct x; try discriminate; reflexivity.
Qed.

End PublishedRange.

(** After a delimited-text load into a session whose bounds are not NaN,
    the bounds are again not NaN, contain the bounds before, and contain
    the elevation of every point of the record as it was read; the range
    of the filter is reset to the bounds; and no coordinate stored in the
    position buffer is NaN. *)
Theorem loadCSV_bounds_cover (data : list row) (colorMapType : string)
  (st : AppState) :
  update_ok (heightBounds st) ->
  let res := fst (loadCSV (Some updateHeightBounds) data colorMapType st) in
  let st' := snd (loadCSV (Some updateHeightBounds) data colorMapType st) in
  update_ok (heightBounds st')
  /\ containsb (heightBounds st') (heightBounds st) = true
  /\ when_resolved res
       (fun r =>
          heightRange st' = heightBounds st'
          /\ Forall (fun c =>
                       JS.leb (fst (heightBounds st')) (ToNumber c) = true
                       /\ JS.leb (ToNumber c) (snd (heightBounds st')) = true)
                    (csv_zValues r)
          /\ forallb (fun v => negb (JS.isNaN v)) (csv_positions r) = true).
Proof.
  intros Hst. cbv zeta. rewrite loadCSV_spec.
  pose proof (filter_accepted_all data) as Hall.
  destruct (filter accepted data) as [|p pts] eqn:E.
  - cbn [fst snd when_resolved]. split; [exact Hst|]. split; [|exact I].
    unfold containsb. destruct Hst as [A B].
    rewrite (NumFacts.leb_refl _ A), (NumFacts.leb_refl _ B). reflexivity.
  - cbv zeta. cbn [fst snd when_resolved csv_zValues csv_positions].
    pose proof (finite_not_nan _ (accepted_z_finite _ Hall)) as Hz.
    destruct (reportBounds_cover _ st Hst Hz) as (U & K & R & C).
    split; [exact U|]. split; [exact K|]. split.
    { apply R. destruct p as [|x [|y [|z rest]]]; try discriminate.
      inversion Hall as [|? ? Hp _]; subst.
      unfold accepted in Hp. cbn in Hp. discriminate.
      inversion Hall as [|? ? Hp _]; subst.
      unfold accepted in Hp. cbn in Hp. discriminate.
      inversion Hall as [|? ? Hp _]; subst.
      unfold accepted in Hp. cbn in Hp. discriminate. }
    split.
    { rewrite Forall_forall in *. intros c Hc. apply C.
      apply in_map. exact Hc. }
    unfold Float32Array. rewrite forallb_forall. intros v Hv.
    apply in_map_iff in Hv as (w & <- & Hw). rewrite fround_isNaN.
    apply in_map_iff in Hw as (c & <- & Hc).
    apply in_flat_map in Hc as (r & Hr & Hc).
    rewrite Forall_forall in Hall. specialize (Hall r Hr).
    unfold accepted in Hall. apply andb_prop in Hall as [_ Hf].
    rewrite forallb_forall in Hf. specialize (Hf c Hc).
    destruct (ToNumber c); try discriminate; reflexivity.
Qed.

(** [loadCSV_bounds_cover] at the two rows with colour columns loaded
    into the initial session. *)
Lemma loadCSV_bounds_cover_witness :
  update_ok (heightBounds initialState)
  /\ update_ok
       (heightBounds
          (snd (loadCSV (Some updateHeightBounds) Samples.rgb_rows "default"
                  initialState))).
Proof.
  assert (H : update_ok (heightBounds initialState)) by (split; reflexivity).
  split; [exact H|].
  exact (proj1 (loadCSV_bounds_cover Samples.rgb_rows "default" initialState
                  H)).
Defined.

(** A cloud answered by the delegate loader with no NaN elevation, of
    no more points than the engine admits arguments in a call and of at
    most 65536 points, loaded into a session whose bounds are not NaN,
    is drawn whole when the filter is switched on at the range the load
    published: the parse resolves, the filter keeps every index, and the
    index attribute of the geometry holds every index unchanged. *)
Theorem loadPCD_delegate_drawn_whole (maxArguments : nat)
  (PCDLoader : string -> loader_answer) (text : string)
  (position : list (JS.number * JS.number * JS.number))
  (color : option (list JS.number)) (st : AppState) :
  PCDLoader text = LoaderGeometry position color ->
  Forall (fun p => JS.isNaN (snd p) = false) position ->
  update_ok (heightBounds st) ->
  (List.length position <= maxArguments)%nat ->
  (Z.of_nat (List.length position) <= 65536)%Z ->
  match Limited.loadPCD_delegate maxArguments (Some updateHeightBounds)
          PCDLoader text st with
  | (Resolved r, st') =>
      applyHeightFilter true (heightRange st') (pcd_positions r)
      = Some (seq 0 (List.length position))
      /\ indexAttribute true (heightRange st') (pcd_positions r)
         = Some (map Z.of_nat (seq 0 (List.length position)))
      /\ (position <> [] -> heightRange st' = heightBounds st')
  | (Rejected _, _) => False
  end.
Proof.
  intros Hans Hpos Hst Hmax Hidx.
  rewrite (limited_loadPCD_delegate_within maxArguments
             (Some updateHeightBounds) PCDLoader text position color st
             Hans Hmax).
  unfold loadPCD_delegate. rewrite Hans.
  cbv zeta. cbn [pcd_positions]. rewrite extract_z_flatten3.
  assert (Hcase : position = []
                  \/ map (fun p => JS.fround (snd p)) position <> []).
  { destruct position; [left; reflexivity | right; discriminate]. }
  assert (Hzs : forallb (fun x => negb (JS.isNaN x))
                  (map (fun p => JS.fround (snd p)) position) = true).
  { rewrite forallb_forall. intros v Hv.
    apply in_map_iff in Hv as (p & <- & Hp). rewrite fround_isNaN.
    rewrite Forall_forall in Hpos. rewrite (Hpos p Hp). reflexivity. }
  destruct (reportBounds_cover _ st Hst Hzs) as (U & K & R & C).
  assert (Hf : applyHeightFilter true
                 (heightRange
                    (reportBounds (Some updateHeightBounds)
                       (map (fun p => JS.fround (snd p)) position) st))
                 (Float32Array (flatten3 position))
               = Some (seq 0 (List.length position))).
  { destruct Hcase as [-> | Hne]; [reflexivity|].
    rewrite (R Hne).
    apply applyHeightFilter_all; [apply flatten3_length|].
    rewrite extract_z_flatten3. exact C. }
  split; [exact Hf|]. split.
  - unfold indexAttribute. rewrite Hf. f_equal.
    apply Uint16Array_small. apply Forall_forall. intros i Hi.
    apply in_seq in Hi. lia.
  - intros Hne. apply R. destruct Hcase as [-> | H]; [congruence | exact H].
Qed.

(** [loadPCD_delegate_drawn_whole] at a loader that answers the single
    point (1, 2, 3) without colours, on an engine that admits a thousand
    arguments. *)
Lemma loadPCD_delegate_drawn_whole_witness :
  match Limited.loadPCD_delegate 1000 (Some updateHeightBounds)
          (fun _ => LoaderGeometry [(Lit.n1, Lit.n2, Lit.n3)] None)
          "" initialState with
  | (Resolved r, st') =>
      indexAttribute true (heightRange st') (pcd_positions r) = Some [0%Z]
  | (Rejected _, _) => False
  end.
Proof.
  pose proof (loadPCD_delegate_drawn_whole 1000
                (fun _ => LoaderGeometry [(Lit.n1, Lit.n2, Lit.n3)] None)
                "" [(Lit.n1, Lit.n2, Lit.n3)] None initialState eq_refl
                (Forall_cons _
                   (eq_refl : JS.isNaN (snd (Lit.n1, Lit.n2, Lit.n3)) = false)
                   (Forall_nil _))
                (conj eq_refl eq_refl)) as H.
  assert (H1 : (List.length [(Lit.n1, Lit.n2, Lit.n3)] <= 1000)%nat)
    by (cbn; lia).
  assert (H2 : (Z.of_nat (List.length [(Lit.n1, Lit.n2, Lit.n3)]) <= 65536)%Z)
    by (cbn; lia).
  specialize (H H1 H2).
  destruct (Limited.loadPCD_delegate _ _ _ _ _) as [[r|e] st']; [|exact H].
  exact (proj1 (proj2 H)).
Defined.

Section SinglePoint.

Lemma ltb_asym (a b : JS.number) : JS.ltb a b = true -> JS.ltb b a = false.
Proof.
  unfold JS.ltb, SFltb. rewrite (NumFacts.compare_antisym a b).
  destruct (SFcompare a b) as [[]|]; cbn; congruence.
Qed.

Lemma ltb_not_leb (a b : JS.number) : JS.ltb a b = true -> JS.leb b a = false.
Proof.
  unfold JS.ltb, JS.leb, SFltb, SFleb. rewrite (NumFacts.compare_antisym a b).
  destruct (SFcompare a b) as [[]|]; cbn; congruence.
Qed.

Lemma ltb_trans (a b c : JS.number) :
  JS.ltb a b = true -> JS.ltb b c = true -> JS.ltb a c = true.
Proof.
  unfold JS.ltb, SFltb. intros H1 H2.
  destruct (SFcompare a b) as [[]|] eqn:E1; try discriminate.
  destruct (SFcompare b c) as [[]|] eqn:E2; try discriminate.
  rewrite (NumFacts.compare_lt_trans _ _ _ E1 E2). reflexivity.
Qed.

Lemma Math_min_single (z : JS.number) :
  JS.isFinite z = true -> JS.Math_min [z] = z.
Proof. destruct z as [[]|[]| |[] m e]; intros H; try discriminate; reflexivity. Qed.

Lemma Math_max_single (z : JS.number) :
  JS.isFinite z = true -> JS.Math_max [z] = z.
Proof. destruct z as [[]|[]| |[] m e]; intros H; try discriminate; reflexivity. Qed.

End SinglePoint.

(** A point is not always drawn at the range its own load published: the
    range holds the elevation as it was read, the position buffer holds
    it rounded to binary32. For a file of one point whose elevation is
    above 10 and is rounded up by the buffer, loaded into the initial
    session, the published range ends at the elevation read, and the
    filter at that range draws nothing. *)
Theorem loadCSV_filter_hides_rounded_up (x y z : JS.number)
  (colorMapType : string) :
  JS.isFinite x = true -> JS.isFinite y = true -> JS.isFinite z = true ->
  JS.ltb Lit.n10 z = true ->
  JS.ltb z (JS.fround z) = true ->
  match loadCSV (Some updateHeightBounds) [[CNum x; CNum y; CNum z]]
          colorMapType initialState with
  | (Resolved r, st') =>
      heightRange st' = (Lit.m10, z)
      /\ csv_zValues r = [CNum z]
      /\ applyHeightFilter true (heightRange st') (csv_positions r) = Some []
  | (Rejected _, _) => False
  end.
Proof.
  intros Hx Hy Hz H10 Hup. rewrite loadCSV_spec.
  assert (Hacc : accepted [CNum x; CNum y; CNum z] = true).
  { unfold accepted. cbn. rewrite Hx, Hy, Hz. reflexivity. }
  cbn [filter]. rewrite Hacc. cbv zeta.
  cbn [flat_map row_z row_xyz firstn skipn app map ToNumber csv_zValues
       csv_positions Float32Array reportBounds].
  rewrite (Math_min_single z Hz), (Math_max_single z Hz).
  assert (Hn : JS.isNaN z = false) by (destruct z; try discriminate; reflexivity).
  assert (Hr : heightRange (updateHeightBounds z z initialState)
               = (Lit.m10, z)).
  { unfold updateHeightBounds. cbn [heightRange heightBounds initialState fst snd].
    rewrite (NumFacts.Math_min_pair Lit.m10 z eq_refl Hn).
    rewrite (NumFacts.Math_max_pair Lit.n10 z eq_refl Hn).
    replace (JS.is_pos_zero Lit.m10) with false by reflexivity.
    replace (JS.is_neg_zero Lit.n10) with false by reflexivity.
    rewrite !andb_false_r, H10.
    assert (Hm : JS.ltb Lit.m10 z = true)
      by (apply (ltb_trans Lit.m10 Lit.n10 z); [reflexivity | exact H10]).
    rewrite (ltb_asym _ _ Hm). reflexivity. }
  rewrite Hr. split; [reflexivity|]. split; [reflexivity|].
  unfold applyHeightFilter. cbn [negb List.length Nat.add].
  replace (Nat.div 5 3) with 1%nat by reflexivity.
  cbn [seq filter Nat.mul Nat.add at_index nth fst snd].
  rewrite (ltb_not_leb _ _ Hup), andb_false_r. reflexivity.
Qed.

(** [loadCSV_filter_hides_rounded_up] at the point (1, 2, 10.1): binary32
    stores 10.1 as 10.100000381469727. *)
Lemma loadCSV_filter_hides_rounded_up_witness :
  match loadCSV (Some updateHeightBounds)
          [[CNum Lit.n1; CNum Lit.n2; CNum (Str.StringToNumber "10.1")]]
          "default" initialState with
  | (Resolved r, st') =>
      applyHeightFilter true (heightRange st') (csv_positions r) = Some []
  | (Rejected _, _) => False
  end.
Proof.
  pose proof (loadCSV_filter_hides_rounded_up Lit.n1 Lit.n2
                (Str.StringToNumber "10.1") "default"
                eq_refl eq_refl eq_refl eq_refl eq_refl) as H.
  destruct (loadCSV _ _ _ _) as [[r|e] st']; [|exact H].
  exact (proj2 (proj2 H)).
Defined.

(** ** The transforms kept by the scene *)

Section Transforms.

Lemma find_put_same (t : PointCloudTransform) (l : list PointCloudTransform) :
  findTransform (tr_id t) (putTransform t l) = Some t.
Proof.
  unfold findTransform. induction l as [|u l IH]; cbn [putTransform find].
  - rewrite String.eqb_refl. reflexivity.
  - destruct (String.eqb (tr_id u) (tr_id t)) eqn:E; cbn [find].
    + rewrite String.eqb_refl. reflexivity.
    + rewrite E. exact IH.
Qed.

Lemma find_put_other (id : string) (t : PointCloudTransform)
  (l : list PointCloudTransform) :
  String.eqb id (tr_id t) = false ->
  findTransform id (putTransform t l) = findTransform id l.
Proof.
  intros Hne. unfold findTransform.
  induction l as [|u l IH]; cbn [putTransform find].
  - rewrite String.eqb_sym, Hne. reflexivity.
  - destruct (String.eqb (tr_id u) (tr_id t)) eqn:E; cbn [find].
    + apply String.eqb_eq in E. rewrite E.
      rewrite (String.eqb_sym (tr_id t) id), Hne. reflexivity.
    + destruct (String.eqb (tr_id u) id); [reflexivity | exact IH].
Qed.

Lemma find_fold_put (mk : string -> PointCloudTransform) :
  (forall id, tr_id (mk id) = id) ->
  forall (sel : list string) (prev : list PointCloudTransform) (id : string),
  findTransform id
    (fold_left (fun newTransforms i => putTransform (mk i) newTransforms)
       sel prev)
  = if existsb (String.eqb id) sel then Some (mk id)
    else findTransform id prev.
Proof.
  intros Hmk. induction sel as [|a sel IH]; intros prev id; [reflexivity|].
  cbn [fold_left existsb]. rewrite IH.
  destruct (String.eqb id a) eqn:E; cbn [orb].
  - apply String.eqb_eq in E. subst a.
    destruct (existsb (String.eqb id) sel); [reflexivity|].
    rewrite <- (Hmk id) at 1. apply find_put_same.
  - destruct (existsb (String.eqb id) sel); [reflexivity|].
    apply find_put_other. rewrite Hmk. exact E.
Qed.

End Transforms.

(** Releasing the mouse after a drag stores, for every selected cloud,
    the position and the scale of the selection group, and the rotation
    (0, 0, 0) whatever the drag did: the stored rotation is the Euler
    triple the handler creates and never writes to. The transform of a
    cloud that is not selected is the one stored before, and with no
    child in the group nothing is stored. *)
Theorem handleMouseUp_stores (childCount : nat)
  (groupPosition groupScale : vec3) (selectedPoints : list string)
  (prev : list PointCloudTransform) (id : string) :
  findTransform id
    (handleMouseUp childCount groupPosition groupScale selectedPoints prev)
  = match childCount with
    | O => findTransform id prev
    | S _ =>
        if existsb (String.eqb id) selectedPoints then
          Some {| tr_id := id; tr_position := groupPosition;
                  tr_rotation := (Lit.n0, Lit.n0, Lit.n0);
                  tr_scale := groupScale |}
        else findTransform id prev
    end.
Proof.
  unfold handleMouseUp. destruct childCount as [|n]; [reflexivity|].
  cbv zeta.
  apply (find_fold_put
           (fun i => {| tr_id := i; tr_position := groupPosition;
                        tr_rotation := (Lit.n0, Lit.n0, Lit.n0);
                        tr_scale := groupScale |})).
  reflexivity.
Qed.

(** ** What holds in every state the user can reach *)

Lemma select_NoDup (id : string) (prev : list string) :
  NoDup prev -> NoDup (handleSelectPointCloud id prev).
Proof.
  intros Hnd. unfold handleSelectPointCloud.
  destruct (existsb (String.eqb id) prev) eqn:E.
  - apply NoDup_filter. exact Hnd.
  - apply existsb_eqb_not_In in E.
    apply NoDup_app; [exact Hnd | constructor; [intros [] | constructor] |].
    intros x Hx [-> | []]. exact (E Hx).
Qed.

Lemma select_incl (id : string) (prev : list string) (x : string) :
  In x (handleSelectPointCloud id prev) -> In x prev \/ x = id.
Proof.
  unfold handleSelectPointCloud.
  destruct (existsb (String.eqb id) prev).
  - rewrite filter_In. tauto.
  - rewrite in_app_iff. simpl. intros [H | [H | []]]; [tauto | auto].
Qed.

Section Reachable.

Variable PCDLoader : string -> loader_answer.

(** A drop appends to the list: the entries already there stay, in
    place. *)
Lemma loadEntries_appends (now : nat -> string) (t : string)
  (files : list file) : forall i news st,
  exists added,
    fst (loadEntries now PCDLoader t i files news st) = news ++ added.
Proof.
  induction files as [|f files IH]; intros i news st.
  - exists []. cbn. rewrite app_nil_r. reflexivity.
  - cbn [loadEntries].
    destruct (loadEntry now PCDLoader t i f st) as [[pc|] st'].
    + destruct (IH (S i) (news ++ [pc]) st') as [added E].
      exists (pc :: added). rewrite E, <- app_assoc. reflexivity.
    + apply IH.
Qed.

Lemma loadEntry_coloured (now : nat -> string) (t : string) (i : nat)
  (f : file) (st : AppState) (pc : cloudEntry) :
  fst (loadEntry now PCDLoader t i f st) = Some pc -> coloured_by t pc.
Proof.
  unfold loadEntry. destruct f as [data|text|].
  - rewrite loadCSV_spec.
    destruct (filter accepted data) as [|p pts]; [discriminate|].
    cbv zeta. cbn [fst]. intros H. injection H as <-.
    unfold coloured_by, csvEntry. cbn.
    destruct (hasRGB_of data); [discriminate | reflexivity].
  - destruct (loadPCD (Some updateHeightBounds) PCDLoader text st)
      as [[r|e] st']; [|discriminate].
    cbn [fst]. intros H. injection H as <-. unfold coloured_by. cbn.
    discriminate.
  - discriminate.
Qed.

Lemma loadEntries_coloured (now : nat -> string) (t : string)
  (files : list file) : forall i news st,
  Forall (coloured_by t) news ->
  Forall (coloured_by t) (fst (loadEntries now PCDLoader t i files news st)).
Proof.
  induction files as [|f files IH]; intros i news st H; [exact H|].
  cbn [loadEntries].
  pose proof (loadEntry_coloured now t i f st) as Hc.
  destruct (loadEntry now PCDLoader t i f st) as [[pc|] st'].
  - apply IH. apply Forall_app. split; [exact H|].
    constructor; [apply Hc; reflexivity | constructor].
  - apply IH. exact H.
Qed.

Lemma recolor_coloured (t : string) (l : list cloudEntry) :
  Forall (coloured_by t) (handleColorMapChange t l).
Proof.
  unfold handleColorMapChange. apply Forall_forall. intros pc Hpc.
  apply in_map_iff in Hpc as (pc0 & <- & _).
  destruct (String.eqb (ce_type pc0) "csv" && negb (ce_hasRGB pc0)) eqn:E.
  - intros _. reflexivity.
  - unfold coloured_by. rewrite E. discriminate.
Qed.

Lemma toggle_coloured (t id : string) (l : list cloudEntry) :
  Forall (coloured_by t) l ->
  Forall (coloured_by t) (togglePointCloudVisibility id l).
Proof.
  intros H. unfold togglePointCloudVisibility. rewrite Forall_forall in *.
  intros pc Hpc. apply in_map_iff in Hpc as (pc0 & <- & H0).
  specialize (H pc0 H0). destruct (String.eqb (ce_id pc0) id); exact H.
Qed.

Lemma delete_fst (pcs : list cloudEntry) (sel : list string) :
  fst (deleteSelectedPointClouds pcs sel)
  = filter (fun pc => negb (existsb (String.eqb (ce_id pc)) sel)) pcs.
Proof.
  destruct sel as [|s sel]; [|reflexivity].
  simpl. induction pcs as [|pc l IH]; [reflexivity|].
  simpl. rewrite <- IH. reflexivity.
Qed.

Lemma delete_snd (pcs : list cloudEntry) (sel : list string) :
  snd (deleteSelectedPointClouds pcs sel) = [].
Proof. destruct sel; reflexivity. Qed.

End Reachable.

(** In every state the user can reach, the selection has no repetition
    and names only listed clouds, and every cloud of a delimited-text
    file without colour columns carries the colours of the palette
    currently chosen, as long as each handler runs to its end before the
    next action. *)
Theorem reachable_invariant (PCDLoader : string -> loader_answer)
  (ui : UIState) :
  reachable PCDLoader ui ->
  NoDup (ui_selectedPoints ui)
  /\ incl (ui_selectedPoints ui) (map ce_id (ui_pointClouds ui))
  /\ Forall (coloured_by (ui_colorMapType ui)) (ui_pointClouds ui).
Proof.
  induction 1 as [|ui a Hr (Hnd & Hin & Hcol) Hoff].
  - split; [constructor|]. split; [intros x []| constructor].
  - destruct a as [now files|id| |id|tool|type|checked|value|index value];
      cbn [perform].
    + pose proof (loadEntries_appends PCDLoader now (ui_colorMapType ui)
                    files 0 (ui_pointClouds ui) (ui_height ui)) as [added E].
      pose proof (loadEntries_coloured PCDLoader now (ui_colorMapType ui)
                    files 0 (ui_pointClouds ui) (ui_height ui) Hcol) as C.
      destruct (loadEntries now PCDLoader (ui_colorMapType ui) 0 files
                  (ui_pointClouds ui) (ui_height ui)) as [clouds st].
      cbn [fst] in E, C. cbn. split; [exact Hnd|]. split; [|exact C].
      intros x Hx. rewrite E, map_app, in_app_iff. left. exact (Hin x Hx).
    + cbn. split; [apply select_NoDup; exact Hnd|]. split; [|exact Hcol].
      intros x Hx. destruct (select_incl _ _ _ Hx) as [H1 | ->];
        [exact (Hin x H1) | exact Hoff].
    + pose proof (delete_fst (ui_pointClouds ui) (ui_selectedPoints ui)) as E1.
      pose proof (delete_snd (ui_pointClouds ui) (ui_selectedPoints ui)) as E2.
      destruct (deleteSelectedPointClouds (ui_pointClouds ui)
                  (ui_selectedPoints ui)) as [clouds selected].
      cbn [fst snd] in E1, E2. subst. cbn.
      split; [constructor|]. split; [intros x []|].
      rewrite Forall_forall in *. intros pc Hpc.
      apply filter_In in Hpc as [Hpc _]. exact (Hcol pc Hpc).
    + cbn. split; [exact Hnd|]. split.
      * rewrite toggle_keeps_ids. exact Hin.
      * apply toggle_coloured. exact Hcol.
    + cbn. auto.
    + cbn. split; [exact Hnd|]. split.
      * rewrite recolor_keeps_ids. exact Hin.
      * apply recolor_coloured.
    + cbn. auto.
    + cbn. auto.
    + cbn. auto.
Qed.

(** [reachable_invariant] at the state after a drop of the two rows
    without colour columns and a click on the rainbow palette. *)
Lemma reachable_invariant_witness :
  Forall (coloured_by "rainbow")
    (ui_pointClouds
       (perform Samples.failing_loader (ColorMap "rainbow")
          (perform Samples.failing_loader
             (Drop Samples.still_clock [CsvFile Samples.flat_rows])
             initialUI))).
Proof.
  exact (proj2 (proj2
    (reachable_invariant Samples.failing_loader _
       (reach_step _ _ (ColorMap "rainbow")
          (reach_step _ _ (Drop Samples.still_clock
                             [CsvFile Samples.flat_rows])
             (reach_initial _) I) I)))).
Defined.

(** ** Fields beyond the sixth *)

Section ExtraColumns.

Local Open Scope nat_scope.

Lemma firstn_firstn_le {A : Type} (k n : nat) (l : list A) :
  k <= n -> firstn k (firstn n l) = firstn k l.
Proof. intros H. rewrite firstn_firstn. f_equal. lia. Qed.

Lemma leb_length_firstn {A : Type} (k n : nat) (l : list A) :
  k <= n -> Nat.leb k (List.length (firstn n l)) = Nat.leb k (List.length l).
Proof.
  intros H. rewrite length_firstn.
  destruct (Nat.leb_spec k (List.length l));
    destruct (Nat.leb_spec k (Nat.min n (List.length l))); try reflexivity; lia.
Qed.

Lemma accepted_firstn (r : row) : accepted (firstn 6 r) = accepted r.
Proof.
  unfold accepted.
  rewrite (leb_length_firstn 3 6) by lia.
  rewrite (firstn_firstn_le 3 6) by lia. reflexivity.
Qed.

Lemma row_xyz_firstn (r : row) : row_xyz (firstn 6 r) = row_xyz r.
Proof. unfold row_xyz. apply firstn_firstn_le. lia. Qed.

Lemma row_z_firstn (r : row) : row_z (firstn 6 r) = row_z r.
Proof.
  unfold row_z.
  destruct r as [|a [|b [|c r]]]; reflexivity.
Qed.

Lemma row_rgb_firstn (r : row) : row_rgb (firstn 6 r) = row_rgb r.
Proof.
  unfold row_rgb. rewrite (leb_length_firstn 6 6) by lia.
  destruct r as [|a [|b [|c [|d [|e [|f r]]]]]]; reflexivity.
Qed.

Lemma filter_accepted_firstn (data : list row) :
  filter accepted (map (firstn 6) data)
  = map (firstn 6) (filter accepted data).
Proof.
  induction data as [|r data IH]; [reflexivity|].
  cbn [map filter]. rewrite accepted_firstn.
  destruct (accepted r); cbn [map]; rewrite IH; reflexivity.
Qed.

Lemma flat_map_map {A B C : Type} (f : B -> list C) (g : A -> B)
  (l : list A) : flat_map f (map g l) = flat_map (fun x => f (g x)) l.
Proof.
  induction l as [|x l IH]; [reflexivity|]. cbn. rewrite IH. reflexivity.
Qed.

End ExtraColumns.

(** Only the first six fields of a row count: a file and the same file
    with every row cut after its sixth field give the same positions,
    the same colours, the same elevations, the same colour flag and the
    same bounds report, or are both rejected. *)
Theorem loadCSV_ignores_extra_fields {St : Type}
  (update : option (JS.number -> JS.number -> St -> St))
  (data : list row) (colorMapType : string) (st : St) :
  match loadCSV update data colorMapType st,
        loadCSV update (map (firstn 6) data) colorMapType st with
  | (Resolved r, st1), (Resolved r', st2) =>
      csv_positions r' = csv_positions r
      /\ csv_colors r' = csv_colors r
      /\ csv_zValues r' = csv_zValues r
      /\ csv_hasRGB r' = csv_hasRGB r
      /\ st2 = st1
  | (Rejected e, st1), (Rejected e', st2) => e' = e /\ st2 = st1
  | _, _ => False
  end.
Proof.
  rewrite !loadCSV_spec, filter_accepted_firstn.
  assert (Hh : hasRGB_of (map (firstn 6) data) = hasRGB_of data).
  { destruct data as [|r data]; [reflexivity|]. cbn [map hasRGB_of].
    apply leb_length_firstn. lia. }
  destruct (filter accepted data) as [|p pts]; [split; reflexivity|].
  set (l := p :: pts).
  assert (Hx : flat_map row_xyz (map (firstn 6) l) = flat_map row_xyz l).
  { rewrite flat_map_map. apply flat_map_ext. exact row_xyz_firstn. }
  assert (Hz : flat_map row_z (map (firstn 6) l) = flat_map row_z l).
  { rewrite flat_map_map. apply flat_map_ext. exact row_z_firstn. }
  assert (Hc : flat_map row_rgb (map (firstn 6) l) = flat_map row_rgb l).
  { rewrite flat_map_map. apply flat_map_ext. exact row_rgb_firstn. }
  subst l. cbn [map] in *. cbv beta iota zeta.
  cbn [csv_positions csv_colors csv_zValues csv_hasRGB].
  split; [f_equal; f_equal; exact Hx|].
  split; [rewrite Hh; destruct (hasRGB_of data);
          [f_equal; exact Hc | f_equal; f_equal; exact Hz]|].
  split; [exact Hz|]. split; [exact Hh|].
  f_equal. f_equal. exact Hz.
Qed.

(** ** The ends of the colour scale *)

Section ColourScale.

Local Open Scope Z_scope.

(** A finite number other than zero divided by itself is 1. *)
Lemma div_self (s : bool) (m : positive) (e : Z) :
  JS.div (S754_finite s m e) (S754_finite s m e) = Lit.n1.
Proof.
  unfold JS.div, SFdiv, SFdiv_core_binary. cbv zeta.
  rewrite !Z.sub_diag.
  change (Z.min (fexp JS.prec JS.emax 0) 0) with (-53).
  change (0 - -53) with 53.
  cbv iota beta.
  rewrite Z.shiftl_mul_pow2 by lia.
  destruct (Z.div_eucl (Z.pos m * 2 ^ 53) (Z.pos m)) as [q r] eqn:E.
  assert (Hq : q = 2 ^ 53).
  { transitivity ((Z.pos m * 2 ^ 53) / Z.pos m).
    - unfold Z.div. rewrite E. reflexivity.
    - rewrite Z.mul_comm. apply Z.div_mul. lia. }
  assert (Hr : r = 0).
  { transitivity ((Z.pos m * 2 ^ 53) mod Z.pos m).
    - unfold Z.modulo. rewrite E. reflexivity.
    - rewrite Z.mul_comm. apply Z.mod_mul. lia. }
  subst q r.
  replace (new_location (Z.pos m) 0) with loc_Exact
    by (unfold new_location; destruct (Z.even (Z.pos m)); reflexivity).
  destruct s; reflexivity.
Qed.

Lemma sub_finite (x y : JS.number) :
  JS.isFinite (JS.sub x y) = true ->
  JS.isFinite x = true /\ JS.isFinite y = true.
Proof.
  destruct x as [sx|sx| |sx mx ex]; destruct y as [sy|sy| |sy my ey];
    try (intros _; split; reflexivity);
    try (destruct sx; destruct sy; discriminate);
    try (destruct sx; discriminate); try (destruct sy; discriminate);
    discriminate.
Qed.

Lemma positive_finite (x : JS.number) :
  JS.isFinite x = true -> JS.ltb Lit.n0 x = true ->
  exists m e, x = S754_finite false m e.
Proof.
  destruct x as [[]|[]| |[] m e]; try discriminate; intros _ _.
  exists m, e. reflexivity.
Qed.

Local Open Scope nat_scope.

Lemma triple_at (f : JS.number -> JS.number * JS.number * JS.number)
  (zs : list JS.number) : forall i,
  i < List.length zs ->
  firstn 3 (skipn (3 * i) (flat_map (fun z => store3 (f z)) zs))
  = store3 (f (nth i zs JS.NaN)).
Proof.
  induction zs as [|z zs IH]; intros i Hi; [simpl in Hi; lia|].
  cbn [flat_map]. destruct i as [|i].
  - cbn [Nat.mul skipn nth]. destruct (f z) as [[r g] b]. reflexivity.
  - replace (3 * S i) with (S (S (S (3 * i)))) by lia.
    cbn [nth]. destruct (f z) as [[r g] b]. cbn [store3 app skipn].
    apply IH. cbn [List.length] in Hi. lia.
Qed.

End ColourScale.

(** When the elevations of a cloud span a finite range above zero, every
    lowest point gets the colour of the bottom of the palette and every
    highest point the colour of its top: their normalised elevations are
    exactly 0 and 1. *)
Theorem createColorMapForCSV_extremes (zValues : list JS.number)
  (mapType : string) (i : nat) :
  JS.isFinite (JS.Math_max zValues - JS.Math_min zValues) = true ->
  JS.ltb Lit.n0 (JS.Math_max zValues - JS.Math_min zValues) = true ->
  (i < List.length zValues)%nat ->
  (nth i zValues JS.NaN = JS.Math_min zValues ->
   firstn 3 (skipn (3 * i) (createColorMapForCSV zValues mapType))
   = store3 (colorOf mapType Lit.n0))
  /\ (nth i zValues JS.NaN = JS.Math_max zValues ->
      firstn 3 (skipn (3 * i) (createColorMapForCSV zValues mapType))
      = store3 (colorOf mapType Lit.n1)).
Proof.
  intros Hfin Hpos Hi. unfold createColorMapForCSV. cbv zeta.
  rewrite (triple_at
             (fun z => colorOf mapType
                         ((z - JS.Math_min zValues)
                          / (JS.Math_max zValues - JS.Math_min zValues)))
             zValues i Hi).
  destruct (positive_finite _ Hfin Hpos) as (m & e & Hrange).
  destruct (sub_finite _ _ Hfin) as [_ Hmin].
  split; intros ->.
  - rewrite (sub_diag _ Hmin), Hrange. reflexivity.
  - rewrite Hrange, div_self. reflexivity.
Qed.

(** [createColorMapForCSV_extremes] at the elevations 1 and 3 under the
    rainbow palette: the second point is the highest. *)
Lemma createColorMapForCSV_extremes_witness :
  firstn 3 (skipn 3 (createColorMapForCSV [Lit.n1; Lit.n3] "rainbow"))
  = store3 (colorOf "rainbow" Lit.n1).
Proof.
  exact (proj2 (createColorMapForCSV_extremes [Lit.n1; Lit.n3] "rainbow" 1
                  eq_refl eq_refl (le_n 2)) eq_refl).
Defined.

(** ** The shape of a record of [loadPCD] *)

Section PCDShape.

Local Open Scope nat_scope.

Lemma pcd_step_length (hasColor : bool)
  (acc : list JS.number * list JS.number) (l : string) (k : nat) :
  List.length (fst acc) = 3 * k ->
  exists k', List.length (fst (pcd_step hasColor acc l)) = 3 * k' /\ k <= k'.
Proof.
  intros H. unfold pcd_step. destruct acc as [positions colors].
  cbn [fst] in H.
  destruct (Str.is_empty (Str.trim l)); [exists k; split; [exact H | lia]|].
  destruct (map Str.StringToNumber (Str.split_ws (Str.trim l)))
    as [|x [|y [|z rest]]]; try (exists k; split; [exact H | lia]).
  exists (S k). cbn [fst]. rewrite length_app, H. cbn [List.length]. lia.
Qed.

Lemma pcd_fold_length (hasColor : bool) (lines : list string) :
  forall acc k,
  List.length (fst acc) = 3 * k ->
  exists k', List.length (fst (fold_left (pcd_step hasColor) lines acc))
             = 3 * k'.
Proof.
  induction lines as [|l lines IH]; intros acc k H; [exists k; exact H|].
  cbn [fold_left].
  destruct (pcd_step_length hasColor acc l k H) as (k' & H' & _).
  exact (IH _ k' H').
Qed.

Lemma extract_z_length (positions : list JS.number) (n : nat) :
  List.length (extract_z positions n) = n.
Proof. unfold extract_z. rewrite length_map, length_seq. reflexivity. Qed.

Lemma rebuild_rows_shape (positions colors : list JS.number) (n : nat) :
  List.length (rebuild_rows positions colors n) = n
  /\ Forall (fun r => List.length r = 6) (rebuild_rows positions colors n).
Proof.
  unfold rebuild_rows. split; [rewrite length_map, length_seq; reflexivity|].
  apply Forall_forall. intros r Hr.
  apply in_map_iff in Hr as (i & <- & _). reflexivity.
Qed.

End PCDShape.

(** Every record of [loadPCD], from either tier, has three coordinates
    per point, one elevation per point, one export row of six numbers
    per point, and, when the file gave no colour, the gray of
    [createSingleColorForPCD] for every point. *)
Theorem loadPCD_record_shape {St : Type}
  (update : option (JS.number -> JS.number -> St -> St))
  (PCDLoader : string -> loader_answer) (text : string) (st : St) :
  when_resolved (fst (loadPCD update PCDLoader text st))
    (fun r =>
       let n := List.length (pcd_zValues r) in
       List.length (pcd_positions r) = (3 * n)%nat
       /\ List.length (pcd_originalData r) = n
       /\ Forall (fun row => List.length row = 6%nat) (pcd_originalData r)
       /\ (pcd_hasColor r = false ->
           pcd_colors r = createSingleColorForPCD n
           /\ List.length (pcd_colors r) = (3 * n)%nat)).
Proof.
  unfold loadPCD.
  destruct (negb (Str.startsWith text "# .PCD")
            && negb (Str.includes text "VERSION")); [exact I|].
  cbv zeta.
  set (lines := Str.split (ascii_of_nat 10) text).
  set (h := scan_header lines 0 pcd_header0).
  assert (Hfold : forall acc0 : list JS.number * list JS.number,
            acc0 = (if isASCII h && (Lit.n0 <? pointCount h)
                    then fold_left (pcd_step (hasColor h))
                           (skipn (dataStartLine h) lines) ([], [])
                    else ([], [])) ->
            exists k, List.length (fst acc0) = (3 * k)%nat).
  { intros acc0 ->. destruct (isASCII h && (Lit.n0 <? pointCount h)).
    - apply (pcd_fold_length _ _ _ 0%nat). reflexivity.
    - exists 0%nat. reflexivity. }
  destruct (if isASCII h && (Lit.n0 <? pointCount h)
            then fold_left (pcd_step (hasColor h))
                   (skipn (dataStartLine h) lines) ([], [])
            else ([], [])) as [positions colors] eqn:E.
  destruct (Hfold _ eq_refl) as [k Hk]. cbn [fst] in Hk.
  destruct positions as [|p0 ps].
  - (* tier 2 *)
    unfold loadPCD_delegate.
    destruct (PCDLoader text) as [| | | |position color]; try exact I.
    cbv zeta. cbn [fst when_resolved pcd_zValues pcd_positions
                   pcd_originalData pcd_hasColor pcd_colors].
    rewrite extract_z_length, flatten3_length.
    destruct (rebuild_rows_shape
                (Float32Array (flatten3 position))
                (match color with
                 | Some c => Float32Array c
                 | None => createSingleColorForPCD (List.length position)
                 end) (List.length position)) as [R1 R2].
    split; [reflexivity|]. split; [exact R1|]. split; [exact R2|].
    destruct color; [discriminate|]. intros _.
    split; [reflexivity | apply createSingleColorForPCD_length].
  - (* tier 1 *)
    cbv zeta. cbn [fst when_resolved pcd_zValues pcd_positions
                   pcd_originalData pcd_hasColor pcd_colors].
    rewrite extract_z_length. unfold Float32Array at 1. rewrite length_map.
    assert (Hn : Nat.div (List.length (p0 :: ps)) 3 = k).
    { rewrite Hk, Nat.mul_comm. apply Nat.div_mul. lia. }
    rewrite Hn.
    destruct (rebuild_rows_shape (p0 :: ps)
                (match colors with
                 | [] => createSingleColorForPCD k
                 | _ :: _ => Float32Array colors
                 end) k) as [R1 R2].
    split; [exact Hk|]. split; [exact R1|]. split; [exact R2|].
    destruct colors; [|discriminate]. intros _.
    split; [reflexivity | apply createSingleColorForPCD_length].
Qed.

(** ** The layout of the exported text *)

Section ExportLayout.

Local Open Scope string_scope.

Lemma append_nil_r (s : string) : s ++ EmptyString = s.
Proof. induction s as [|c s IH]; [reflexivity|]. cbn. rewrite IH. reflexivity. Qed.

Lemma append_assoc (a b c : string) : (a ++ b) ++ c = a ++ (b ++ c).
Proof. induction a as [|x a IH]; [reflexivity|]. cbn. rewrite IH. reflexivity. Qed.

Lemma lacks_append (c : ascii) (a b : string) :
  lacks c (a ++ b) = lacks c a && lacks c b.
Proof.
  induction a as [|x a IH]; [reflexivity|]. cbn. rewrite IH.
  rewrite andb_assoc. reflexivity.
Qed.

Lemma split_lacks (c : ascii) (s : string) :
  lacks c s = true -> Str.split c s = [s].
Proof.
  induction s as [|x s IH]; [reflexivity|]. cbn. intros H.
  apply andb_prop in H as [H1 H2]. apply negb_true_iff in H1.
  rewrite H1, (IH H2). reflexivity.
Qed.

Lemma split_app_sep (c : ascii) (a b : string) :
  lacks c a = true -> Str.split c (a ++ String c b) = a :: Str.split c b.
Proof.
  induction a as [|x a IH]; cbn.
  - intros _. rewrite Ascii.eqb_refl. reflexivity.
  - intros H. apply andb_prop in H as [H1 H2]. apply negb_true_iff in H1.
    rewrite H1, (IH H2). reflexivity.
Qed.

Lemma lacks_substring (c : ascii) (s : string) : forall n m,
  lacks c s = true -> lacks c (String.substring n m s) = true.
Proof.
  induction s as [|x s IH]; intros n m H.
  - destruct n, m; reflexivity.
  - cbn in H. apply andb_prop in H as [H1 H2].
    destruct n as [|n]; cbn.
    + destruct m as [|m]; [reflexivity|]. cbn. rewrite H1. apply IH, H2.
    + apply IH, H2.
Qed.

Lemma lacks_strip_zeros (c : ascii) (s : string) :
  lacks c s = true -> lacks c (Fmt.strip_zeros s) = true.
Proof.
  induction s as [|x s IH]; [reflexivity|]. cbn. intros H.
  apply andb_prop in H as [H1 H2].
  destruct (Ascii.eqb x "0" && Str.is_empty (Fmt.strip_zeros s));
    [reflexivity|]. cbn. rewrite H1. apply IH, H2.
Qed.

(** The two characters that give the text its structure. *)
Variable c : ascii.
Hypothesis c_sep : c = ","%char \/ c = ascii_of_nat 10.

Lemma digit_not_sep (k : nat) :
  (k < 10)%nat -> Ascii.eqb (ascii_of_nat (48 + k)) c = false.
Proof.
  intros H.
  do 10 (destruct k as [|k]; [destruct c_sep as [-> | ->]; reflexivity|]).
  lia.
Qed.

Lemma lacks_digits_of (fuel : nat) : forall n acc,
  lacks c acc = true -> lacks c (Fmt.digits_of fuel n acc) = true.
Proof.
  induction fuel as [|fuel IH]; intros n acc H; [exact H|].
  cbn [Fmt.digits_of].
  assert (H' : lacks c (String (ascii_of_nat (48 + Z.to_nat (n mod 10))) acc)
               = true).
  { cbn [lacks]. rewrite digit_not_sep, H; [reflexivity|].
    pose proof (Z.mod_pos_bound n 10). lia. }
  destruct (n <? 10)%Z; [exact H' | apply IH, H'].
Qed.

Lemma lacks_Z_to_string (n : Z) : lacks c (Fmt.Z_to_string n) = true.
Proof. apply lacks_digits_of. reflexivity. Qed.

Lemma lacks_zeros (n : nat) : lacks c (Fmt.zeros n) = true.
Proof.
  induction n as [|n IH]; [reflexivity|]. cbn [Fmt.zeros lacks]. rewrite IH.
  destruct c_sep as [-> | ->]; reflexivity.
Qed.

Lemma lacks_shortest (fuel : nat) (x : JS.number) (m e n : Z) : forall k,
  lacks c (fst (Fmt.shortest fuel x m e n k)) = true.
Proof.
  assert (P : forall s p,
            lacks c (fst (Fmt.strip_zeros (Fmt.Z_to_string s),
                          (p + Z.of_nat (String.length (Fmt.Z_to_string s)))%Z))
            = true).
  { intros s p. cbn [fst]. apply lacks_strip_zeros, lacks_Z_to_string. }
  induction fuel as [|fuel IH]; intros k; cbn [Fmt.shortest];
    destruct (Fmt.scaled m e (n - k)) as [num den].
  - apply P.
  - cbv zeta.
    repeat match goal with
           | |- context [if ?b then _ else _] => destruct b
           end; try apply P; apply IH.
Qed.

Lemma lacks_NumberToString (x : JS.number) :
  lacks c (Fmt.NumberToString x) = true.
Proof.
  assert (Hlit : forall s : string,
            lacks ","%char s = true -> lacks (ascii_of_nat 10) s = true ->
            lacks c s = true).
  { intros s H1 H2. destruct c_sep as [-> | ->]; assumption. }
  destruct x as [s|s| |s m e]; cbn [Fmt.NumberToString].
  - apply Hlit; reflexivity.
  - destruct s; apply Hlit; reflexivity.
  - apply Hlit; reflexivity.
  - pose proof (lacks_shortest 20 (S754_finite false m e) (Z.pos m) e
                  (Fmt.floor_log10 (Z.pos m) e + 1) 1) as Hds.
    destruct (Fmt.shortest 20 (S754_finite false m e) (Z.pos m) e
                (Fmt.floor_log10 (Z.pos m) e + 1) 1) as [ds n].
    cbn [fst] in Hds. cbv zeta.
    assert (Hsign : lacks c (if s then "-" else "") = true)
      by (destruct s; apply Hlit; reflexivity).
    assert (Hexp : lacks c
                     (String.append (if (0 <? n - 1)%Z then "e+" else "e-")
                        (Fmt.Z_to_string (Z.abs (n - 1)))) = true).
    { rewrite lacks_append, lacks_Z_to_string, andb_true_r.
      destruct (0 <? n - 1)%Z; apply Hlit; reflexivity. }
    assert (Hdot : forall t, lacks c t = true -> lacks c (String "." t) = true).
    { intros t Ht. cbn [lacks]. rewrite Ht.
      destruct c_sep as [-> | ->]; reflexivity. }
    rewrite lacks_append, Hsign. cbn [andb].
    repeat match goal with
           | |- context [if ?b then _ else _] => destruct b
           end;
      repeat first [ exact Hds | exact Hexp | apply lacks_zeros
                   | apply lacks_substring | apply Hdot
                   | (apply Hlit; reflexivity)
                   | (rewrite lacks_append; apply andb_true_intro; split) ].
Qed.

Lemma lacks_show_at (a : list JS.number) (i : nat) :
  lacks c (show_at a i) = true.
Proof.
  unfold show_at. destruct (nth_error a i); [apply lacks_NumberToString|].
  destruct c_sep as [-> | ->]; reflexivity.
Qed.

End ExportLayout.

Section ExportRows.

Local Open Scope string_scope.

Let LF : ascii := ascii_of_nat 10.

Lemma concat_empty_cons (x : string) (xs : list string) :
  String.concat "" (x :: xs) = x ++ String.concat "" xs.
Proof.
  destruct xs as [|y ys]; cbn [String.concat].
  - rewrite append_nil_r. reflexivity.
  - reflexivity.
Qed.

Lemma six_fields (f1 f2 f3 f4 f5 f6 : string) :
  Forall (fun f => lacks "," f = true /\ lacks LF f = true)
         [f1; f2; f3; f4; f5; f6] ->
  lacks LF (String.concat "," [f1; f2; f3; f4; f5; f6]) = true
  /\ Str.split "," (String.concat "," [f1; f2; f3; f4; f5; f6])
     = [f1; f2; f3; f4; f5; f6].
Proof.
  intros H.
  inversion H as [|? ? [A1 B1] H1]; subst.
  inversion H1 as [|? ? [A2 B2] H2]; subst.
  inversion H2 as [|? ? [A3 B3] H3]; subst.
  inversion H3 as [|? ? [A4 B4] H4]; subst.
  inversion H4 as [|? ? [A5 B5] H5]; subst.
  inversion H5 as [|? ? [A6 B6] _]; subst.
  cbn [String.concat String.append]. split.
  - repeat (rewrite lacks_append; cbn [lacks]).
    rewrite B1, B2, B3, B4, B5, B6. reflexivity.
  - rewrite (split_app_sep _ _ _ A1), (split_app_sep _ _ _ A2),
      (split_app_sep _ _ _ A3), (split_app_sep _ _ _ A4),
      (split_app_sep _ _ _ A5), (split_lacks _ _ A6). reflexivity.
Qed.

Lemma export_row_shape (positions colors : list JS.number) (i : nat) :
  exists body,
    export_row positions colors i = body ++ newline
    /\ lacks LF body = true
    /\ List.length (Str.split "," body) = 6%nat.
Proof.
  unfold export_row. cbv zeta. eexists. split; [reflexivity|].
  match goal with
  | |- lacks _ (String.concat _ [?a; ?b; ?c; ?d; ?e; ?f]) = true /\ _ =>
      destruct (six_fields a b c d e f) as [L S]
  end.
  - repeat constructor;
      first [ apply lacks_show_at | apply lacks_NumberToString ];
      first [ left; reflexivity | right; reflexivity ].
  - split; [exact L|]. rewrite S. reflexivity.
Qed.

(** The text of a block of rows, followed by [rest], splits at the line
    feeds into the bodies of the rows and the lines of [rest]. *)
Lemma split_rows (P : string -> Prop) (rows : list string) :
  Forall (fun r => exists body,
            r = body ++ newline /\ lacks LF body = true /\ P body) rows ->
  forall rest,
  exists bodies,
    Str.split LF (String.concat "" rows ++ rest)
    = (bodies ++ Str.split LF rest)%list
    /\ List.length bodies = List.length rows
    /\ Forall P bodies.
Proof.
  induction 1 as [|r rows (body & -> & Hl & Hp) _ IH]; intros rest.
  - exists []. repeat split; constructor.
  - destruct (IH rest) as (bodies & E & Hlen & Hall).
    exists (body :: bodies). rewrite concat_empty_cons.
    rewrite !append_assoc. unfold newline at 1. cbn [String.append].
    rewrite (split_app_sep _ _ _ Hl). fold LF. rewrite E.
    split; [reflexivity|]. split; [cbn; rewrite Hlen; reflexivity|].
    constructor; assumption.
Qed.

Lemma split_blocks (P : string -> Prop) (blocks : list (list string)) :
  Forall (Forall (fun r => exists body,
                    r = body ++ newline /\ lacks LF body = true /\ P body))
         blocks ->
  forall rest,
  exists bodies,
    Str.split LF (String.concat "" (map (String.concat "") blocks) ++ rest)
    = (bodies ++ Str.split LF rest)%list
    /\ List.length bodies = list_sum (map (@List.length string) blocks)
    /\ Forall P bodies.
Proof.
  induction 1 as [|b blocks Hb _ IH]; intros rest.
  - exists []. repeat split; constructor.
  - destruct (IH rest) as (bodies2 & E2 & L2 & A2).
    destruct (split_rows P b Hb
                (String.concat "" (map (String.concat "") blocks) ++ rest))
      as (bodies1 & E1 & L1 & A1).
    exists (bodies1 ++ bodies2)%list. cbn [map]. rewrite concat_empty_cons.
    rewrite append_assoc, E1, E2, <- app_assoc.
    split; [reflexivity|]. split.
    + rewrite length_app, L1, L2. reflexivity.
    + apply Forall_app. split; assumption.
Qed.

End ExportRows.

(** The exported text is a table: split at the line feeds it is the
    header line, then one line per point of the exported clouds, then
    the empty piece after the last line feed; and every point's line
    splits at the commas into six fields, whatever the buffers hold. *)
Theorem exportToCSV_layout (pointClouds : list pointCloud)
  (selectedPoints : list string) :
  exists rows,
    Str.split (ascii_of_nat 10) (exportToCSV pointClouds selectedPoints)
    = "X,Y,Z,R,G,B"%string :: rows ++ [EmptyString]
    /\ List.length rows
       = list_sum (map points_of (exported pointClouds selectedPoints))
    /\ Forall (fun r => List.length (Str.split "," r) = 6%nat) rows.
Proof.
  unfold exportToCSV. fold (exported pointClouds selectedPoints).
  set (chosen := exported pointClouds selectedPoints).
  destruct (split_blocks
              (fun r => List.length (Str.split "," r) = 6%nat)
              (map (fun pc => map (export_row (pc_positions pc) (pc_colors pc))
                                (seq 0 (points_of pc))) chosen))
    with (rest := EmptyString) as (bodies & E & L & A).
  { apply Forall_forall. intros b Hb.
    apply in_map_iff in Hb as (pc & <- & _).
    apply Forall_forall. intros r Hr.
    apply in_map_iff in Hr as (i & <- & _). apply export_row_shape. }
  exists bodies. split; [|split; [|exact A]].
  - cbv zeta. unfold newline at 1.
    change ("X,Y,Z,R,G,B" ++ String (ascii_of_nat 10) EmptyString
            ++ String.concat "" (map export_cloud chosen))%string
      with ("X,Y,Z,R,G,B" ++ String (ascii_of_nat 10)
              (String.concat "" (map export_cloud chosen)))%string.
    rewrite (split_app_sep (ascii_of_nat 10) "X,Y,Z,R,G,B" _ eq_refl).
    f_equal. rewrite append_nil_r in E.
    change (Str.split (ascii_of_nat 10) EmptyString) with [EmptyString] in E.
    rewrite <- E. f_equal. f_equal.
    rewrite map_map. apply map_ext. intros pc. reflexivity.
  - rewrite L, map_map. f_equal. apply map_ext. intros pc.
    rewrite length_map, length_seq. reflexivity.
Qed.

(** ** The two tiers of [loadPCD] and the batch loop *)

Section Batch.

Variable now : nat -> string.
Variable PCDLoader : string -> loader_answer.

(** [handleFileDrop] on the clouds is [loadEntries] on the entries, seen
    through [ce_cloud]. *)
Lemma loadEntry_cloud (t : string) (i : nat) (f : file) (st : AppState) :
  loadFile now PCDLoader t i f st
  = (option_map ce_cloud (fst (loadEntry now PCDLoader t i f st)),
     snd (loadEntry now PCDLoader t i f st)).
Proof.
  unfold loadFile, loadEntry. destruct f as [data|text|].
  - destruct (loadCSV (Some updateHeightBounds) data t st) as [[r|e] st'];
      reflexivity.
  - destruct (loadPCD (Some updateHeightBounds) PCDLoader text st)
      as [[r|e] st']; reflexivity.
  - reflexivity.
Qed.

Lemma loadEntries_clouds (t : string) (files : list file) :
  forall i news st,
  loadFiles now PCDLoader t i files (map ce_cloud news) st
  = (map ce_cloud (fst (loadEntries now PCDLoader t i files news st)),
     snd (loadEntries now PCDLoader t i files news st)).
Proof.
  induction files as [|f files IH]; intros i news st; [reflexivity|].
  cbn [loadFiles loadEntries]. rewrite loadEntry_cloud.
  destruct (loadEntry now PCDLoader t i f st) as [[pc|] st'];
    cbn [fst snd option_map].
  - rewrite <- IH, map_app. reflexivity.
  - apply IH.
Qed.

Lemma loadEntry_fresh (t : string) (i : nat) (f : file) (st : AppState)
  (pc : cloudEntry) :
  fst (loadEntry now PCDLoader t i f st) = Some pc ->
  ce_visible pc = true
  /\ ce_id pc = (now i ++ "-" ++ Fmt.Z_to_string (Z.of_nat i))%string
  /\ (ce_type pc = "csv"%string \/ ce_type pc = "pcd"%string).
Proof.
  unfold loadEntry. destruct f as [data|text|].
  - destruct (loadCSV (Some updateHeightBounds) data t st) as [[r|e] st'];
      [|discriminate].
    intros H. injection H as <-. repeat split. left. reflexivity.
  - destruct (loadPCD (Some updateHeightBounds) PCDLoader text st)
      as [[r|e] st']; [|discriminate].
    intros H. injection H as <-. repeat split. right. reflexivity.
  - discriminate.
Qed.

End Batch.

(** A drop only appends: the clouds already listed stay as they are and
    in place, each dropped file adds at most one cloud, every cloud
    added is visible and of type csv or pcd, and the clouds kept for the
    export are those [handleFileDrop] computes. *)
Theorem handleFileDrop_appends (now : nat -> string)
  (PCDLoader : string -> loader_answer) (colorMapType : string)
  (acceptedFiles : list file) (pointClouds : list cloudEntry)
  (st : AppState) :
  exists added,
    fst (loadEntries now PCDLoader colorMapType 0 acceptedFiles pointClouds st)
    = pointClouds ++ added
    /\ (List.length added <= List.length acceptedFiles)%nat
    /\ Forall (fun pc => ce_visible pc = true
                         /\ (ce_type pc = "csv"%string
                             \/ ce_type pc = "pcd"%string)) added
    /\ handleFileDrop now PCDLoader colorMapType acceptedFiles
         (map ce_cloud pointClouds) st
       = (map ce_cloud (pointClouds ++ added),
          snd (loadEntries now PCDLoader colorMapType 0 acceptedFiles
                 pointClouds st)).
Proof.
  assert (H : forall files i news s,
            exists added,
              fst (loadEntries now PCDLoader colorMapType i files news s)
              = news ++ added
              /\ (List.length added <= List.length files)%nat
              /\ Forall (fun pc => ce_visible pc = true
                                   /\ (ce_type pc = "csv"%string
                                       \/ ce_type pc = "pcd"%string)) added).
  { induction files as [|f files IH]; intros i news s.
    - exists []. cbn. rewrite app_nil_r. repeat split; constructor.
    - cbn [loadEntries].
      pose proof (loadEntry_fresh now PCDLoader colorMapType i f s) as Hf.
      destruct (loadEntry now PCDLoader colorMapType i f s) as [[pc|] s'].
      + destruct (IH (S i) (news ++ [pc]) s') as (added & E & L & A).
        exists (pc :: added). rewrite E, <- app_assoc.
        split; [reflexivity|]. split; [cbn; lia|].
        constructor; [|exact A].
        destruct (Hf pc eq_refl) as (V & _ & T). split; assumption.
      + destruct (IH (S i) news s') as (added & E & L & A).
        exists added. split; [exact E|]. split; [cbn; lia | exact A]. }
  destruct (H acceptedFiles 0%nat pointClouds st) as (added & E & L & A).
  exists added. split; [exact E|]. split; [exact L|]. split; [exact A|].
  unfold handleFileDrop. rewrite loadEntries_clouds, E. reflexivity.
Qed.

(** A file the text scan of [loadPCD] can read never reaches the
    delegate loader: when the parse resolves with a loader that always
    fails, it resolves to the same record, with the same bounds report,
    with every loader. *)
Theorem loadPCD_text_scan_first {St : Type}
  (update : option (JS.number -> JS.number -> St -> St))
  (PCDLoader : string -> loader_answer) (text : string) (st st' : St)
  (r : PCDResult) :
  loadPCD update Samples.failing_loader text st = (Resolved r, st') ->
  loadPCD update PCDLoader text st = (Resolved r, st').
Proof.
  unfold loadPCD.
  destruct (negb (Str.startsWith text "# .PCD")
            && negb (Str.includes text "VERSION")); [discriminate|].
  cbv zeta.
  destruct (if isASCII (scan_header (Str.split (ascii_of_nat 10) text) 0
                          pcd_header0)
               && (Lit.n0 <? pointCount
                               (scan_header (Str.split (ascii_of_nat 10) text)
                                  0 pcd_header0))
            then _ else _) as [positions colors].
  destruct positions as [|p ps]; [discriminate|].
  intros H. exact H.
Qed.

(** [loadPCD_text_scan_first] at the ASCII file of two points and a
    loader that answers an empty group. *)
Lemma loadPCD_text_scan_first_witness :
  resolves_with
    (fst (loadPCD (Some updateHeightBounds) (fun _ => LoaderNoChildren)
            Samples.pcd_two initialState))
    (fun r => pcd_zValues r = [Lit.n0; Lit.n2]).
Proof.
  destruct (loadPCD (Some updateHeightBounds) Samples.failing_loader
              Samples.pcd_two initialState) as [[r|e] st'] eqn:E.
  - rewrite (loadPCD_text_scan_first (Some updateHeightBounds)
               (fun _ => LoaderNoChildren) Samples.pcd_two initialState st' r
               E).
    cbn [fst resolves_with].
    assert (Hr : fst (loadPCD (Some updateHeightBounds) Samples.failing_loader
                        Samples.pcd_two initialState) = Resolved r)
      by (rewrite E; reflexivity).
    vm_compute in Hr. injection Hr as <-. reflexivity.
  - exfalso.
    assert (Hr : fst (loadPCD (Some updateHeightBounds) Samples.failing_loader
                        Samples.pcd_two initialState) = Rejected e)
      by (rewrite E; reflexivity).
    vm_compute in Hr. discriminate Hr.
Defined.
